(** * JHDF5 native bridge: constant translator and exception bridge

    Shallow embedding of [h5Constants.h], [h5Constants.c] and
    [exceptionImp.c] (cisd/jhdf5/trunk/source/c).

    - C [int], [jint] and the native codes are integers ([Z]); the
      conversion to the 32-bit [jint] return type is written out.
    - The JNI function table, the C stdio calls and the HDF5 error API are
      modelled as operations of a state monad that records every external
      call in a trace.
    - The values of the [hdf5.h] symbols belong to the linked native library;
      they are a parameter of the development. *)

From Stdlib Require Import ZArith List String Ascii Bool Lia.
Import ListNotations.
Local Open Scope string_scope.
Local Open Scope list_scope.
Local Open Scope Z_scope.

(** ** Symbols of [hdf5.h] referenced by the bridge *)

Inductive H5sym : Set :=
  | H5_SZIP_MAX_PIXELS_PER_BLOCK | H5_SZIP_NN_OPTION_MASK
  | H5_SZIP_EC_OPTION_MASK | H5_SZIP_ALLOW_K13_OPTION_MASK
  | H5_SZIP_CHIP_OPTION_MASK | H5D_ALLOC_TIME_DEFAULT | H5D_ALLOC_TIME_EARLY
  | H5D_ALLOC_TIME_ERROR | H5D_ALLOC_TIME_INCR | H5D_ALLOC_TIME_LATE
  | H5D_CHUNKED | H5D_COMPACT | H5D_CONTIGUOUS | H5D_FILL_TIME_ALLOC
  | H5D_FILL_TIME_ERROR | H5D_FILL_TIME_NEVER | H5D_FILL_VALUE_DEFAULT
  | H5D_FILL_VALUE_ERROR | H5D_FILL_VALUE_UNDEFINED
  | H5D_FILL_VALUE_USER_DEFINED | H5D_LAYOUT_ERROR | H5D_NLAYOUTS
  | H5D_SPACE_STATUS_ALLOCATED | H5D_SPACE_STATUS_ERROR
  | H5D_SPACE_STATUS_NOT_ALLOCATED | H5D_SPACE_STATUS_PART_ALLOCATED
  | H5E_ALIGNMENT | H5E_ALREADYEXISTS | H5E_ALREADYINIT | H5E_ARGS | H5E_ATOM
  | H5E_ATTR | H5E_BADATOM | H5E_BADFILE | H5E_BADGROUP | H5E_BADMESG
  | H5E_BADRANGE | H5E_BADSELECT | H5E_BADSIZE | H5E_BADTYPE | H5E_BADVALUE
  | H5E_BTREE | H5E_CACHE | H5E_CALLBACK | H5E_CANAPPLY | H5E_CANTCLIP
  | H5E_CANTCLOSEFILE | H5E_CANTCONVERT | H5E_CANTCOPY | H5E_CANTCOUNT
  | H5E_CANTCREATE | H5E_CANTDEC | H5E_CANTDECODE | H5E_CANTDELETE
  | H5E_CANTENCODE | H5E_CANTFLUSH | H5E_CANTFREE | H5E_CANTGET | H5E_CANTINC
  | H5E_CANTINIT | H5E_CANTINSERT | H5E_CANTLIST | H5E_CANTLOAD
  | H5E_CANTLOCK | H5E_CANTNEXT | H5E_CANTOPENFILE | H5E_CANTOPENOBJ
  | H5E_CANTREGISTER | H5E_CANTRELEASE | H5E_CANTSELECT | H5E_CANTSET
  | H5E_CANTSPLIT | H5E_CANTUNLOCK | H5E_CLOSEERROR | H5E_COMPLEN
  | H5E_DATASET | H5E_DATASPACE | H5E_DATATYPE | H5E_DUPCLASS | H5E_EFL
  | H5E_EXISTS | H5E_FCNTL | H5E_FILE | H5E_FILEEXISTS | H5E_FILEOPEN
  | H5E_FUNC | H5E_HEAP | H5E_INTERNAL | H5E_IO | H5E_LINK | H5E_LINKCOUNT
  | H5E_MOUNT | H5E_MPI | H5E_MPIERRSTR | H5E_NOFILTER | H5E_NOIDS
  | H5E_NONE_MAJOR | H5E_NONE_MINOR | H5E_NOSPACE | H5E_NOTCACHED
  | H5E_NOTFOUND | H5E_NOTHDF5 | H5E_OHDR | H5E_OVERFLOW | H5E_PLINE
  | H5E_PLIST | H5E_PROTECT | H5E_READERROR | H5E_REFERENCE | H5E_RESOURCE
  | H5E_RS | H5E_SEEKERROR | H5E_SETLOCAL | H5E_STORAGE | H5E_SYM
  | H5E_TRUNCATED | H5E_TST | H5E_UNINITIALIZED | H5E_UNSUPPORTED
  | H5E_VERSION | H5E_VFL | H5E_WALK_DOWNWARD | H5E_WALK_UPWARD
  | H5E_WRITEERROR | H5F_ACC_CREAT | H5F_ACC_DEBUG | H5F_ACC_EXCL
  | H5F_ACC_RDONLY | H5F_ACC_RDWR | H5F_ACC_TRUNC | H5F_CLOSE_DEFAULT
  | H5F_CLOSE_SEMI | H5F_CLOSE_STRONG | H5F_CLOSE_WEAK | H5F_OBJ_ALL
  | H5F_OBJ_DATASET | H5F_OBJ_DATATYPE | H5F_OBJ_FILE | H5F_OBJ_ATTR
  | H5F_OBJ_GROUP | H5F_SCOPE_DOWN | H5F_SCOPE_GLOBAL | H5F_SCOPE_LOCAL
  | H5F_UNLIMITED | H5F_LIBVER_EARLIEST | H5F_LIBVER_LATEST | H5G_DATASET
  | H5G_GROUP | H5G_LINK | H5G_LINK_ERROR | H5G_LINK_HARD | H5G_LINK_SOFT
  | H5G_NLIBTYPES | H5G_NTYPES | H5G_NUSERTYPES | H5G_RESERVED_5
  | H5G_RESERVED_6 | H5G_RESERVED_7 | H5G_SAME_LOC | H5G_TYPE | H5G_UNKNOWN
  | H5I_ATTR | H5I_BADID | H5I_DATASET | H5I_DATASPACE | H5I_DATATYPE
  | H5I_FILE | H5I_GENPROP_CLS | H5I_GENPROP_LST | H5I_GROUP
  | H5I_INVALID_HID | H5I_REFERENCE | H5I_VFL | H5O_TYPE_UNKNOWN
  | H5O_TYPE_GROUP | H5O_TYPE_DATASET | H5O_TYPE_NAMED_DATATYPE
  | H5O_TYPE_NTYPES | H5L_TYPE_ERROR | H5L_TYPE_HARD | H5L_TYPE_SOFT
  | H5L_TYPE_EXTERNAL | H5L_TYPE_MAX | H5P_DATASET_CREATE
  | H5P_DATASET_CREATE_DEFAULT | H5P_DATASET_XFER | H5P_DATASET_XFER_DEFAULT
  | H5P_FILE_ACCESS | H5P_FILE_ACCESS_DEFAULT | H5P_FILE_CREATE
  | H5P_FILE_CREATE_DEFAULT | H5P_DEFAULT | H5P_NO_CLASS | H5P_ROOT
  | H5P_OBJECT_CREATE | H5P_DATASET_ACCESS | H5P_DATASET_ACCESS_DEFAULT
  | H5P_FILE_MOUNT | H5P_FILE_MOUNT_DEFAULT | H5P_GROUP_CREATE
  | H5P_GROUP_CREATE_DEFAULT | H5P_GROUP_ACCESS | H5P_GROUP_ACCESS_DEFAULT
  | H5P_DATATYPE_CREATE | H5P_DATATYPE_CREATE_DEFAULT | H5P_DATATYPE_ACCESS
  | H5P_DATATYPE_ACCESS_DEFAULT | H5P_STRING_CREATE | H5P_ATTRIBUTE_CREATE
  | H5P_ATTRIBUTE_CREATE_DEFAULT | H5P_OBJECT_COPY | H5P_OBJECT_COPY_DEFAULT
  | H5P_LINK_CREATE | H5P_LINK_CREATE_DEFAULT | H5P_LINK_ACCESS
  | H5P_LINK_ACCESS_DEFAULT | H5R_BADTYPE | H5R_DATASET_REGION | H5R_MAXTYPE
  | H5R_OBJ_REF_BUF_SIZE | H5R_OBJECT | H5S_ALL | H5S_MAX_RANK | H5S_NO_CLASS
  | H5S_NULL | H5S_SCALAR | H5S_SEL_ALL | H5S_SEL_ERROR | H5S_SEL_HYPERSLABS
  | H5S_SEL_N | H5S_SEL_NONE | H5S_SEL_POINTS | H5S_SELECT_AND
  | H5S_SELECT_APPEND | H5S_SELECT_INVALID | H5S_SELECT_NOOP
  | H5S_SELECT_NOTA | H5S_SELECT_NOTB | H5S_SELECT_OR | H5S_SELECT_PREPEND
  | H5S_SELECT_SET | H5S_SELECT_XOR | H5S_SIMPLE | H5S_UNLIMITED
  | H5T_ALPHA_B16 | H5T_ALPHA_B32 | H5T_ALPHA_B64 | H5T_ALPHA_B8
  | H5T_ALPHA_F32 | H5T_ALPHA_F64 | H5T_ALPHA_I16 | H5T_ALPHA_I32
  | H5T_ALPHA_I64 | H5T_ALPHA_I8 | H5T_ALPHA_U16 | H5T_ALPHA_U32
  | H5T_ALPHA_U64 | H5T_ALPHA_U8 | H5T_ARRAY | H5T_BITFIELD | H5T_BKG_NO
  | H5T_BKG_YES | H5T_C_S1 | H5T_COMPOUND | H5T_CONV_CONV | H5T_CONV_FREE
  | H5T_CONV_INIT | H5T_CSET_ASCII | H5T_CSET_ERROR | H5T_CSET_RESERVED_10
  | H5T_CSET_RESERVED_11 | H5T_CSET_RESERVED_12 | H5T_CSET_RESERVED_13
  | H5T_CSET_RESERVED_14 | H5T_CSET_RESERVED_15 | H5T_CSET_RESERVED_2
  | H5T_CSET_RESERVED_3 | H5T_CSET_RESERVED_4 | H5T_CSET_RESERVED_5
  | H5T_CSET_RESERVED_6 | H5T_CSET_RESERVED_7 | H5T_CSET_RESERVED_8
  | H5T_CSET_RESERVED_9 | H5T_DIR_ASCEND | H5T_DIR_DEFAULT | H5T_DIR_DESCEND
  | H5T_ENUM | H5T_FLOAT | H5T_FORTRAN_S1 | H5T_IEEE_F32BE | H5T_IEEE_F32LE
  | H5T_IEEE_F64BE | H5T_IEEE_F64LE | H5T_INTEGER | H5T_INTEL_B16
  | H5T_INTEL_B32 | H5T_INTEL_B64 | H5T_INTEL_B8 | H5T_INTEL_F32
  | H5T_INTEL_F64 | H5T_INTEL_I16 | H5T_INTEL_I32 | H5T_INTEL_I64
  | H5T_INTEL_I8 | H5T_INTEL_U16 | H5T_INTEL_U32 | H5T_INTEL_U64
  | H5T_INTEL_U8 | H5T_MIPS_B16 | H5T_MIPS_B32 | H5T_MIPS_B64 | H5T_MIPS_B8
  | H5T_MIPS_F32 | H5T_MIPS_F64 | H5T_MIPS_I16 | H5T_MIPS_I32 | H5T_MIPS_I64
  | H5T_MIPS_I8 | H5T_MIPS_U16 | H5T_MIPS_U32 | H5T_MIPS_U64 | H5T_MIPS_U8
  | H5T_NATIVE_B16 | H5T_NATIVE_B32 | H5T_NATIVE_B64 | H5T_NATIVE_B8
  | H5T_NATIVE_CHAR | H5T_NATIVE_DOUBLE | H5T_NATIVE_FLOAT | H5T_NATIVE_HADDR
  | H5T_NATIVE_HBOOL | H5T_NATIVE_HERR | H5T_NATIVE_HSIZE | H5T_NATIVE_HSSIZE
  | H5T_NATIVE_INT | H5T_NATIVE_INT_FAST16 | H5T_NATIVE_INT_FAST32
  | H5T_NATIVE_INT_FAST64 | H5T_NATIVE_INT_FAST8 | H5T_NATIVE_INT_LEAST16
  | H5T_NATIVE_INT_LEAST32 | H5T_NATIVE_INT_LEAST64 | H5T_NATIVE_INT_LEAST8
  | H5T_NATIVE_INT16 | H5T_NATIVE_INT32 | H5T_NATIVE_INT64 | H5T_NATIVE_INT8
  | H5T_NATIVE_LDOUBLE | H5T_NATIVE_LLONG | H5T_NATIVE_LONG
  | H5T_NATIVE_OPAQUE | H5T_NATIVE_SCHAR | H5T_NATIVE_SHORT
  | H5T_NATIVE_UCHAR | H5T_NATIVE_UINT | H5T_NATIVE_UINT_FAST16
  | H5T_NATIVE_UINT_FAST32 | H5T_NATIVE_UINT_FAST64 | H5T_NATIVE_UINT_FAST8
  | H5T_NATIVE_UINT_LEAST16 | H5T_NATIVE_UINT_LEAST32
  | H5T_NATIVE_UINT_LEAST64 | H5T_NATIVE_UINT_LEAST8 | H5T_NATIVE_UINT16
  | H5T_NATIVE_UINT32 | H5T_NATIVE_UINT64 | H5T_NATIVE_UINT8
  | H5T_NATIVE_ULLONG | H5T_NATIVE_ULONG | H5T_NATIVE_USHORT | H5T_NCLASSES
  | H5T_NO_CLASS | H5T_NORM_ERROR | H5T_NORM_IMPLIED | H5T_NORM_MSBSET
  | H5T_NORM_NONE | H5T_NPAD | H5T_NSGN | H5T_OPAQUE | H5T_OPAQUE_TAG_MAX
  | H5T_ORDER_BE | H5T_ORDER_ERROR | H5T_ORDER_LE | H5T_ORDER_NONE
  | H5T_ORDER_VAX | H5T_PAD_BACKGROUND | H5T_PAD_ERROR | H5T_PAD_ONE
  | H5T_PAD_ZERO | H5T_PERS_DONTCARE | H5T_PERS_HARD | H5T_PERS_SOFT
  | H5T_REFERENCE | H5T_SGN_2 | H5T_SGN_ERROR | H5T_SGN_NONE | H5T_STD_B16BE
  | H5T_STD_B16LE | H5T_STD_B32BE | H5T_STD_B32LE | H5T_STD_B64BE
  | H5T_STD_B64LE | H5T_STD_B8BE | H5T_STD_B8LE | H5T_STD_I16BE
  | H5T_STD_I16LE | H5T_STD_I32BE | H5T_STD_I32LE | H5T_STD_I64BE
  | H5T_STD_I64LE | H5T_STD_I8BE | H5T_STD_I8LE | H5T_STD_REF_DSETREG
  | H5T_STD_REF_OBJ | H5T_STD_U16BE | H5T_STD_U16LE | H5T_STD_U32BE
  | H5T_STD_U32LE | H5T_STD_U64BE | H5T_STD_U64LE | H5T_STD_U8BE
  | H5T_STD_U8LE | H5T_STR_ERROR | H5T_STR_NULLPAD | H5T_STR_NULLTERM
  | H5T_STR_RESERVED_10 | H5T_STR_RESERVED_11 | H5T_STR_RESERVED_12
  | H5T_STR_RESERVED_13 | H5T_STR_RESERVED_14 | H5T_STR_RESERVED_15
  | H5T_STR_RESERVED_3 | H5T_STR_RESERVED_4 | H5T_STR_RESERVED_5
  | H5T_STR_RESERVED_6 | H5T_STR_RESERVED_7 | H5T_STR_RESERVED_8
  | H5T_STR_RESERVED_9 | H5T_STR_SPACEPAD | H5T_STRING | H5T_TIME
  | H5T_UNIX_D32BE | H5T_UNIX_D32LE | H5T_UNIX_D64BE | H5T_UNIX_D64LE
  | H5T_VARIABLE | H5T_VLEN | H5Z_CB_CONT | H5Z_CB_ERROR | H5Z_CB_FAIL
  | H5Z_CB_NO | H5Z_DISABLE_EDC | H5Z_ENABLE_EDC | H5Z_ERROR_EDC
  | H5Z_FILTER_DEFLATE | H5Z_FILTER_ERROR | H5Z_FILTER_FLETCHER32
  | H5Z_FILTER_MAX | H5Z_FILTER_NONE | H5Z_FILTER_RESERVED
  | H5Z_FILTER_SHUFFLE | H5Z_FILTER_SZIP | H5Z_FLAG_DEFMASK
  | H5Z_FLAG_INVMASK | H5Z_FLAG_MANDATORY | H5Z_FLAG_OPTIONAL
  | H5Z_FLAG_REVERSE | H5Z_FLAG_SKIP_EDC | H5Z_MAX_NFILTERS | H5Z_NO_EDC
  | H5Z_FILTER_CONFIG_ENCODE_ENABLED | H5Z_FILTER_CONFIG_DECODE_ENABLED.

(** ** h5Constants.h: the Java-side identifiers (the active [#define]s) *)

Definition JH5_SZIP_MAX_PIXELS_PER_BLOCK : Z := 1000.
Definition JH5_SZIP_NN_OPTION_MASK : Z := 1010.
Definition JH5_SZIP_EC_OPTION_MASK : Z := 1020.
Definition JH5_SZIP_ALLOW_K13_OPTION_MASK : Z := 1021.
Definition JH5_SZIP_CHIP_OPTION_MASK : Z := 1022.
Definition JH5D_ALLOC_TIME_DEFAULT : Z := 1030.
Definition JH5D_ALLOC_TIME_EARLY : Z := 1040.
Definition JH5D_ALLOC_TIME_ERROR : Z := 1050.
Definition JH5D_ALLOC_TIME_INCR : Z := 1060.
Definition JH5D_ALLOC_TIME_LATE : Z := 1070.
Definition JH5D_CHUNKED : Z := 1080.
Definition JH5D_COMPACT : Z := 1090.
Definition JH5D_CONTIGUOUS : Z := 1100.
Definition JH5D_FILL_TIME_ALLOC : Z := 1110.
Definition JH5D_FILL_TIME_ERROR : Z := 1120.
Definition JH5D_FILL_TIME_NEVER : Z := 1130.
Definition JH5D_FILL_VALUE_DEFAULT : Z := 1140.
Definition JH5D_FILL_VALUE_ERROR : Z := 1150.
Definition JH5D_FILL_VALUE_UNDEFINED : Z := 1160.
Definition JH5D_FILL_VALUE_USER_DEFINED : Z := 1170.
Definition JH5D_LAYOUT_ERROR : Z := 1180.
Definition JH5D_NLAYOUTS : Z := 1190.
Definition JH5D_SPACE_STATUS_ALLOCATED : Z := 1200.
Definition JH5D_SPACE_STATUS_ERROR : Z := 1210.
Definition JH5D_SPACE_STATUS_NOT_ALLOCATED : Z := 1220.
Definition JH5D_SPACE_STATUS_PART_ALLOCATED : Z := 1230.
Definition JH5E_ALIGNMENT : Z := 1240.
Definition JH5E_ALREADYEXISTS : Z := 1250.
Definition JH5E_ALREADYINIT : Z := 1260.
Definition JH5E_ARGS : Z := 1270.
Definition JH5E_ATOM : Z := 1280.
Definition JH5E_ATTR : Z := 1290.
Definition JH5E_BADATOM : Z := 1300.
Definition JH5E_BADFILE : Z := 1310.
Definition JH5E_BADGROUP : Z := 1320.
Definition JH5E_BADMESG : Z := 1330.
Definition JH5E_BADRANGE : Z := 1340.
Definition JH5E_BADSELECT : Z := 1350.
Definition JH5E_BADSIZE : Z := 1360.
Definition JH5E_BADTYPE : Z := 1370.
Definition JH5E_BADVALUE : Z := 1380.
Definition JH5E_BTREE : Z := 1390.
Definition JH5E_CACHE : Z := 1400.
Definition JH5E_CALLBACK : Z := 1410.
Definition JH5E_CANAPPLY : Z := 1420.
Definition JH5E_CANTCLIP : Z := 1450.
Definition JH5E_CANTCLOSEFILE : Z := 1460.
Definition JH5E_CANTCONVERT : Z := 1470.
Definition JH5E_CANTCOPY : Z := 1480.
Definition JH5E_CANTCOUNT : Z := 1490.
Definition JH5E_CANTCREATE : Z := 1500.
Definition JH5E_CANTDEC : Z := 1510.
Definition JH5E_CANTDECODE : Z := 1520.
Definition JH5E_CANTDELETE : Z := 1530.
Definition JH5E_CANTENCODE : Z := 1540.
Definition JH5E_CANTFLUSH : Z := 1550.
Definition JH5E_CANTFREE : Z := 1560.
Definition JH5E_CANTGET : Z := 1570.
Definition JH5E_CANTINC : Z := 1580.
Definition JH5E_CANTINIT : Z := 1590.
Definition JH5E_CANTINSERT : Z := 1600.
Definition JH5E_CANTLIST : Z := 1610.
Definition JH5E_CANTLOAD : Z := 1620.
Definition JH5E_CANTLOCK : Z := 1630.
Definition JH5E_CANTMAKETREE : Z := 1640.
Definition JH5E_CANTNEXT : Z := 1650.
Definition JH5E_CANTOPENFILE : Z := 1660.
Definition JH5E_CANTOPENOBJ : Z := 1670.
Definition JH5E_CANTREGISTER : Z := 1690.
Definition JH5E_CANTRELEASE : Z := 1700.
Definition JH5E_CANTSELECT : Z := 1710.
Definition JH5E_CANTSET : Z := 1730.
Definition JH5E_CANTSPLIT : Z := 1740.
Definition JH5E_CANTUNLOCK : Z := 1750.
Definition JH5E_CLOSEERROR : Z := 1760.
Definition JH5E_COMPLEN : Z := 1770.
Definition JH5E_DATASET : Z := 1790.
Definition JH5E_DATASPACE : Z := 1800.
Definition JH5E_DATATYPE : Z := 1810.
Definition JH5E_DUPCLASS : Z := 1820.
Definition JH5E_EFL : Z := 1830.
Definition JH5E_EXISTS : Z := 1840.
Definition JH5E_FCNTL : Z := 1850.
Definition JH5E_FILE : Z := 1860.
Definition JH5E_FILEEXISTS : Z := 1870.
Definition JH5E_FILEOPEN : Z := 1880.
Definition JH5E_FUNC : Z := 1900.
Definition JH5E_HEAP : Z := 1910.
Definition JH5E_INTERNAL : Z := 1920.
Definition JH5E_IO : Z := 1930.
Definition JH5E_LINK : Z := 1940.
Definition JH5E_LINKCOUNT : Z := 1950.
Definition JH5E_MOUNT : Z := 1960.
Definition JH5E_MPI : Z := 1970.
Definition JH5E_MPIERRSTR : Z := 1980.
Definition JH5E_NOFILTER : Z := 1990.
Definition JH5E_NOIDS : Z := 2000.
Definition JH5E_NONE_MAJOR : Z := 2010.
Definition JH5E_NONE_MINOR : Z := 2020.
Definition JH5E_NOSPACE : Z := 2030.
Definition JH5E_NOTCACHED : Z := 2040.
Definition JH5E_NOTFOUND : Z := 2050.
Definition JH5E_NOTHDF5 : Z := 2060.
Definition JH5E_OHDR : Z := 2070.
Definition JH5E_OVERFLOW : Z := 2080.
Definition JH5E_PLINE : Z := 2090.
Definition JH5E_PLIST : Z := 2100.
Definition JH5E_PROTECT : Z := 2110.
Definition JH5E_READERROR : Z := 2120.
Definition JH5E_REFERENCE : Z := 2130.
Definition JH5E_RESOURCE : Z := 2140.
Definition JH5E_RS : Z := 2150.
Definition JH5E_SEEKERROR : Z := 2160.
Definition JH5E_SETLOCAL : Z := 2170.
Definition JH5E_STORAGE : Z := 2190.
Definition JH5E_SYM : Z := 2200.
Definition JH5E_TRUNCATED : Z := 2220.
Definition JH5E_TST : Z := 2230.
Definition JH5E_UNINITIALIZED : Z := 2240.
Definition JH5E_UNSUPPORTED : Z := 2250.
Definition JH5E_VERSION : Z := 2260.
Definition JH5E_VFL : Z := 2270.
Definition JH5E_WALK_DOWNWARD : Z := 2280.
Definition JH5E_WALK_UPWARD : Z := 2290.
Definition JH5E_WRITEERROR : Z := 2300.
Definition JH5F_ACC_CREAT : Z := 2310.
Definition JH5F_ACC_DEBUG : Z := 2320.
Definition JH5F_ACC_EXCL : Z := 2330.
Definition JH5F_ACC_RDONLY : Z := 2340.
Definition JH5F_ACC_RDWR : Z := 2350.
Definition JH5F_ACC_TRUNC : Z := 2360.
Definition JH5F_CLOSE_DEFAULT : Z := 2370.
Definition JH5F_CLOSE_SEMI : Z := 2380.
Definition JH5F_CLOSE_STRONG : Z := 2390.
Definition JH5F_CLOSE_WEAK : Z := 2400.
Definition JH5F_OBJ_ALL : Z := 2410.
Definition JH5F_OBJ_ATTR : Z := 2415.
Definition JH5F_OBJ_DATASET : Z := 2420.
Definition JH5F_OBJ_DATATYPE : Z := 2430.
Definition JH5F_OBJ_FILE : Z := 2440.
Definition JH5F_OBJ_GROUP : Z := 2450.
Definition JH5F_OBJ_LOCAL : Z := 2455.
Definition JH5F_SCOPE_DOWN : Z := 2460.
Definition JH5F_SCOPE_GLOBAL : Z := 2470.
Definition JH5F_SCOPE_LOCAL : Z := 2480.
Definition JH5F_UNLIMITED : Z := 2490.
Definition JH5F_LIBVER_EARLIEST : Z := 2494.
Definition JH5F_LIBVER_LATEST : Z := 2495.
Definition JH5G_DATASET : Z := 2500.
Definition JH5G_GROUP : Z := 2510.
Definition JH5G_LINK : Z := 2520.
Definition JH5G_LINK_ERROR : Z := 2530.
Definition JH5G_LINK_HARD : Z := 2540.
Definition JH5G_LINK_SOFT : Z := 2550.
Definition JH5G_NLIBTYPES : Z := 2560.
Definition JH5G_NTYPES : Z := 2570.
Definition JH5G_NUSERTYPES : Z := 2580.
Definition JH5G_RESERVED_5 : Z := 2600.
Definition JH5G_RESERVED_6 : Z := 2610.
Definition JH5G_RESERVED_7 : Z := 2620.
Definition JH5G_SAME_LOC : Z := 2630.
Definition JH5G_TYPE : Z := 2640.
Definition JH5G_UNKNOWN : Z := 2650.
Definition JH5G_USERTYPE : Z := 2660.
Definition JH5I_ATTR : Z := 2670.
Definition JH5I_BADID : Z := 2680.
Definition JH5I_DATASET : Z := 2690.
Definition JH5I_DATASPACE : Z := 2700.
Definition JH5I_DATATYPE : Z := 2710.
Definition JH5I_FILE : Z := 2720.
Definition JH5I_FILE_CLOSING : Z := 2730.
Definition JH5I_GENPROP_CLS : Z := 2740.
Definition JH5I_GENPROP_LST : Z := 2750.
Definition JH5I_GROUP : Z := 2760.
Definition JH5I_INVALID_HID : Z := 2770.
Definition JH5I_REFERENCE : Z := 2790.
Definition JH5I_VFL : Z := 2810.
Definition JH5O_TYPE_UNKNOWN : Z := 5510.
Definition JH5O_TYPE_GROUP : Z := 5520.
Definition JH5O_TYPE_DATASET : Z := 5530.
Definition JH5O_TYPE_NAMED_DATATYPE : Z := 5540.
Definition JH5O_TYPE_NTYPES : Z := 5550.
Definition JH5L_TYPE_ERROR : Z := 5560.
Definition JH5L_TYPE_HARD : Z := 5570.
Definition JH5L_TYPE_SOFT : Z := 5580.
Definition JH5L_TYPE_EXTERNAL : Z := 5590.
Definition JH5L_TYPE_MAX : Z := 5600.
Definition JH5P_DATASET_CREATE : Z := 2820.
Definition JH5P_DATASET_CREATE_DEFAULT : Z := 2830.
Definition JH5P_DATASET_XFER : Z := 2840.
Definition JH5P_DATASET_XFER_DEFAULT : Z := 2850.
Definition JH5P_DEFAULT : Z := 2860.
Definition JH5P_FILE_ACCESS : Z := 2870.
Definition JH5P_FILE_ACCESS_DEFAULT : Z := 2880.
Definition JH5P_FILE_CREATE : Z := 2890.
Definition JH5P_FILE_CREATE_DEFAULT : Z := 2900.
Definition JH5P_NO_CLASS : Z := 2930.
Definition JH5P_ROOT : Z := 6000.
Definition JH5P_OBJECT_CREATE : Z := 6010.
Definition JH5P_DATASET_ACCESS : Z := 6020.
Definition JH5P_DATASET_ACCESS_DEFAULT : Z := 6030.
Definition JH5P_FILE_MOUNT : Z := 6040.
Definition JH5P_FILE_MOUNT_DEFAULT : Z := 6050.
Definition JH5P_GROUP_CREATE : Z := 6060.
Definition JH5P_GROUP_CREATE_DEFAULT : Z := 6070.
Definition JH5P_GROUP_ACCESS : Z := 6080.
Definition JH5P_GROUP_ACCESS_DEFAULT : Z := 6090.
Definition JH5P_DATATYPE_CREATE : Z := 6100.
Definition JH5P_DATATYPE_CREATE_DEFAULT : Z := 6110.
Definition JH5P_DATATYPE_ACCESS : Z := 6120.
Definition JH5P_DATATYPE_ACCESS_DEFAULT : Z := 6130.
Definition JH5P_STRING_CREATE : Z := 6140.
Definition JH5P_ATTRIBUTE_CREATE : Z := 6150.
Definition JH5P_ATTRIBUTE_CREATE_DEFAULT : Z := 6160.
Definition JH5P_OBJECT_COPY : Z := 6170.
Definition JH5P_OBJECT_COPY_DEFAULT : Z := 6180.
Definition JH5P_LINK_CREATE : Z := 6190.
Definition JH5P_LINK_CREATE_DEFAULT : Z := 6200.
Definition JH5P_LINK_ACCESS : Z := 6210.
Definition JH5P_LINK_ACCESS_DEFAULT : Z := 6220.
Definition JH5R_BADTYPE : Z := 2950.
Definition JH5R_DATASET_REGION : Z := 2960.
Definition JH5R_MAXTYPE : Z := 2980.
Definition JH5R_OBJ_REF_BUF_SIZE : Z := 2990.
Definition JH5R_OBJECT : Z := 3000.
Definition JH5S_ALL : Z := 3010.
Definition JH5S_MAX_RANK : Z := 3030.
Definition JH5S_NO_CLASS : Z := 3040.
Definition JH5S_NULL : Z := 3045.
Definition JH5S_SCALAR : Z := 3050.
Definition JH5S_SEL_ALL : Z := 3060.
Definition JH5S_SEL_ERROR : Z := 3070.
Definition JH5S_SEL_HYPERSLABS : Z := 3080.
Definition JH5S_SEL_N : Z := 3090.
Definition JH5S_SEL_NONE : Z := 3100.
Definition JH5S_SEL_POINTS : Z := 3110.
Definition JH5S_SELECT_AND : Z := 3120.
Definition JH5S_SELECT_APPEND : Z := 3130.
Definition JH5S_SELECT_INVALID : Z := 3140.
Definition JH5S_SELECT_NOOP : Z := 3150.
Definition JH5S_SELECT_NOTA : Z := 3160.
Definition JH5S_SELECT_NOTB : Z := 3170.
Definition JH5S_SELECT_OR : Z := 3180.
Definition JH5S_SELECT_PREPEND : Z := 3190.
Definition JH5S_SELECT_SET : Z := 3200.
Definition JH5S_SELECT_XOR : Z := 3210.
Definition JH5S_SIMPLE : Z := 3220.
Definition JH5S_UNLIMITED : Z := 3230.
Definition JH5T_ALPHA_B16 : Z := 3240.
Definition JH5T_ALPHA_B32 : Z := 3250.
Definition JH5T_ALPHA_B64 : Z := 3260.
Definition JH5T_ALPHA_B8 : Z := 3270.
Definition JH5T_ALPHA_F32 : Z := 3280.
Definition JH5T_ALPHA_F64 : Z := 3290.
Definition JH5T_ALPHA_I16 : Z := 3300.
Definition JH5T_ALPHA_I32 : Z := 3310.
Definition JH5T_ALPHA_I64 : Z := 3320.
Definition JH5T_ALPHA_I8 : Z := 3330.
Definition JH5T_ALPHA_U16 : Z := 3340.
Definition JH5T_ALPHA_U32 : Z := 3350.
Definition JH5T_ALPHA_U64 : Z := 3360.
Definition JH5T_ALPHA_U8 : Z := 3370.
Definition JH5T_ARRAY : Z := 3380.
Definition JH5T_BITFIELD : Z := 3390.
Definition JH5T_BKG_NO : Z := 3400.
Definition JH5T_BKG_YES : Z := 3410.
Definition JH5T_C_S1 : Z := 3420.
Definition JH5T_COMPOUND : Z := 3430.
Definition JH5T_CONV_CONV : Z := 3440.
Definition JH5T_CONV_FREE : Z := 3450.
Definition JH5T_CONV_INIT : Z := 3460.
Definition JH5T_CSET_ASCII : Z := 3470.
Definition JH5T_CSET_ERROR : Z := 3480.
Definition JH5T_CSET_RESERVED_10 : Z := 3500.
Definition JH5T_CSET_RESERVED_11 : Z := 3510.
Definition JH5T_CSET_RESERVED_12 : Z := 3520.
Definition JH5T_CSET_RESERVED_13 : Z := 3530.
Definition JH5T_CSET_RESERVED_14 : Z := 3540.
Definition JH5T_CSET_RESERVED_15 : Z := 3550.
Definition JH5T_CSET_RESERVED_2 : Z := 3560.
Definition JH5T_CSET_RESERVED_3 : Z := 3570.
Definition JH5T_CSET_RESERVED_4 : Z := 3580.
Definition JH5T_CSET_RESERVED_5 : Z := 3590.
Definition JH5T_CSET_RESERVED_6 : Z := 3600.
Definition JH5T_CSET_RESERVED_7 : Z := 3610.
Definition JH5T_CSET_RESERVED_8 : Z := 3620.
Definition JH5T_CSET_RESERVED_9 : Z := 3630.
Definition JH5T_DIR_ASCEND : Z := 3640.
Definition JH5T_DIR_DEFAULT : Z := 3650.
Definition JH5T_DIR_DESCEND : Z := 3660.
Definition JH5T_ENUM : Z := 3670.
Definition JH5T_FLOAT : Z := 3680.
Definition JH5T_FORTRAN_S1 : Z := 3690.
Definition JH5T_IEEE_F32BE : Z := 3700.
Definition JH5T_IEEE_F32LE : Z := 3710.
Definition JH5T_IEEE_F64BE : Z := 3720.
Definition JH5T_IEEE_F64LE : Z := 3730.
Definition JH5T_INTEGER : Z := 3740.
Definition JH5T_INTEL_B16 : Z := 3750.
Definition JH5T_INTEL_B32 : Z := 3760.
Definition JH5T_INTEL_B64 : Z := 3770.
Definition JH5T_INTEL_B8 : Z := 3780.
Definition JH5T_INTEL_F32 : Z := 3790.
Definition JH5T_INTEL_F64 : Z := 3800.
Definition JH5T_INTEL_I16 : Z := 3810.
Definition JH5T_INTEL_I32 : Z := 3820.
Definition JH5T_INTEL_I64 : Z := 3830.
Definition JH5T_INTEL_I8 : Z := 3840.
Definition JH5T_INTEL_U16 : Z := 3850.
Definition JH5T_INTEL_U32 : Z := 3860.
Definition JH5T_INTEL_U64 : Z := 3870.
Definition JH5T_INTEL_U8 : Z := 3880.
Definition JH5T_MIPS_B16 : Z := 3890.
Definition JH5T_MIPS_B32 : Z := 3900.
Definition JH5T_MIPS_B64 : Z := 3910.
Definition JH5T_MIPS_B8 : Z := 3920.
Definition JH5T_MIPS_F32 : Z := 3930.
Definition JH5T_MIPS_F64 : Z := 3940.
Definition JH5T_MIPS_I16 : Z := 3950.
Definition JH5T_MIPS_I32 : Z := 3960.
Definition JH5T_MIPS_I64 : Z := 3970.
Definition JH5T_MIPS_I8 : Z := 3980.
Definition JH5T_MIPS_U16 : Z := 3990.
Definition JH5T_MIPS_U32 : Z := 4000.
Definition JH5T_MIPS_U64 : Z := 4010.
Definition JH5T_MIPS_U8 : Z := 4020.
Definition JH5T_NATIVE_B16 : Z := 4030.
Definition JH5T_NATIVE_B32 : Z := 4040.
Definition JH5T_NATIVE_B64 : Z := 4050.
Definition JH5T_NATIVE_B8 : Z := 4060.
Definition JH5T_NATIVE_CHAR : Z := 4070.
Definition JH5T_NATIVE_DOUBLE : Z := 4080.
Definition JH5T_NATIVE_FLOAT : Z := 4090.
Definition JH5T_NATIVE_HADDR : Z := 4100.
Definition JH5T_NATIVE_HBOOL : Z := 4110.
Definition JH5T_NATIVE_HERR : Z := 4120.
Definition JH5T_NATIVE_HSIZE : Z := 4130.
Definition JH5T_NATIVE_HSSIZE : Z := 4140.
Definition JH5T_NATIVE_INT : Z := 4150.
Definition JH5T_NATIVE_INT_FAST16 : Z := 4160.
Definition JH5T_NATIVE_INT_FAST32 : Z := 4170.
Definition JH5T_NATIVE_INT_FAST64 : Z := 4180.
Definition JH5T_NATIVE_INT_FAST8 : Z := 4190.
Definition JH5T_NATIVE_INT_LEAST16 : Z := 4200.
Definition JH5T_NATIVE_INT_LEAST32 : Z := 4210.
Definition JH5T_NATIVE_INT_LEAST64 : Z := 4220.
Definition JH5T_NATIVE_INT_LEAST8 : Z := 4230.
Definition JH5T_NATIVE_INT16 : Z := 4240.
Definition JH5T_NATIVE_INT32 : Z := 4250.
Definition JH5T_NATIVE_INT64 : Z := 4260.
Definition JH5T_NATIVE_INT8 : Z := 4270.
Definition JH5T_NATIVE_LDOUBLE : Z := 4280.
Definition JH5T_NATIVE_LLONG : Z := 4290.
Definition JH5T_NATIVE_LONG : Z := 4300.
Definition JH5T_NATIVE_OPAQUE : Z := 4310.
Definition JH5T_NATIVE_SCHAR : Z := 4320.
Definition JH5T_NATIVE_SHORT : Z := 4330.
Definition JH5T_NATIVE_UCHAR : Z := 4340.
Definition JH5T_NATIVE_UINT : Z := 4350.
Definition JH5T_NATIVE_UINT_FAST16 : Z := 4360.
Definition JH5T_NATIVE_UINT_FAST32 : Z := 4370.
Definition JH5T_NATIVE_UINT_FAST64 : Z := 4380.
Definition JH5T_NATIVE_UINT_FAST8 : Z := 4390.
Definition JH5T_NATIVE_UINT_LEAST16 : Z := 4400.
Definition JH5T_NATIVE_UINT_LEAST32 : Z := 4410.
Definition JH5T_NATIVE_UINT_LEAST64 : Z := 4420.
Definition JH5T_NATIVE_UINT_LEAST8 : Z := 4430.
Definition JH5T_NATIVE_UINT16 : Z := 4440.
Definition JH5T_NATIVE_UINT32 : Z := 4450.
Definition JH5T_NATIVE_UINT64 : Z := 4460.
Definition JH5T_NATIVE_UINT8 : Z := 4470.
Definition JH5T_NATIVE_ULLONG : Z := 4480.
Definition JH5T_NATIVE_ULONG : Z := 4490.
Definition JH5T_NATIVE_USHORT : Z := 4500.
Definition JH5T_NCLASSES : Z := 4510.
Definition JH5T_NO_CLASS : Z := 4520.
Definition JH5T_NORM_ERROR : Z := 4530.
Definition JH5T_NORM_IMPLIED : Z := 4540.
Definition JH5T_NORM_MSBSET : Z := 4550.
Definition JH5T_NORM_NONE : Z := 4560.
Definition JH5T_NPAD : Z := 4570.
Definition JH5T_NSGN : Z := 4580.
Definition JH5T_OPAQUE : Z := 4590.
Definition JH5T_OPAQUE_TAG_MAX : Z := 4595.
Definition JH5T_ORDER_BE : Z := 4600.
Definition JH5T_ORDER_ERROR : Z := 4610.
Definition JH5T_ORDER_LE : Z := 4620.
Definition JH5T_ORDER_NONE : Z := 4630.
Definition JH5T_ORDER_VAX : Z := 4640.
Definition JH5T_PAD_BACKGROUND : Z := 4650.
Definition JH5T_PAD_ERROR : Z := 4660.
Definition JH5T_PAD_ONE : Z := 4670.
Definition JH5T_PAD_ZERO : Z := 4680.
Definition JH5T_PERS_DONTCARE : Z := 4690.
Definition JH5T_PERS_HARD : Z := 4700.
Definition JH5T_PERS_SOFT : Z := 4710.
Definition JH5T_REFERENCE : Z := 4720.
Definition JH5T_SGN_2 : Z := 4730.
Definition JH5T_SGN_ERROR : Z := 4740.
Definition JH5T_SGN_NONE : Z := 4750.
Definition JH5T_STD_B16BE : Z := 4760.
Definition JH5T_STD_B16LE : Z := 4770.
Definition JH5T_STD_B32BE : Z := 4780.
Definition JH5T_STD_B32LE : Z := 4790.
Definition JH5T_STD_B64BE : Z := 4800.
Definition JH5T_STD_B64LE : Z := 4810.
Definition JH5T_STD_B8BE : Z := 4820.
Definition JH5T_STD_B8LE : Z := 4830.
Definition JH5T_STD_I16BE : Z := 4840.
Definition JH5T_STD_I16LE : Z := 4850.
Definition JH5T_STD_I32BE : Z := 4860.
Definition JH5T_STD_I32LE : Z := 4870.
Definition JH5T_STD_I64BE : Z := 4880.
Definition JH5T_STD_I64LE : Z := 4890.
Definition JH5T_STD_I8BE : Z := 4900.
Definition JH5T_STD_I8LE : Z := 4910.
Definition JH5T_STD_REF_DSETREG : Z := 4920.
Definition JH5T_STD_REF_OBJ : Z := 4930.
Definition JH5T_STD_U16BE : Z := 4940.
Definition JH5T_STD_U16LE : Z := 4950.
Definition JH5T_STD_U32BE : Z := 4960.
Definition JH5T_STD_U32LE : Z := 4970.
Definition JH5T_STD_U64BE : Z := 4980.
Definition JH5T_STD_U64LE : Z := 4990.
Definition JH5T_STD_U8BE : Z := 5000.
Definition JH5T_STD_U8LE : Z := 5010.
Definition JH5T_STR_ERROR : Z := 5020.
Definition JH5T_STR_NULLPAD : Z := 5030.
Definition JH5T_STR_NULLTERM : Z := 5040.
Definition JH5T_STR_RESERVED_10 : Z := 5050.
Definition JH5T_STR_RESERVED_11 : Z := 5060.
Definition JH5T_STR_RESERVED_12 : Z := 5070.
Definition JH5T_STR_RESERVED_13 : Z := 5080.
Definition JH5T_STR_RESERVED_14 : Z := 5090.
Definition JH5T_STR_RESERVED_15 : Z := 5100.
Definition JH5T_STR_RESERVED_3 : Z := 5110.
Definition JH5T_STR_RESERVED_4 : Z := 5120.
Definition JH5T_STR_RESERVED_5 : Z := 5130.
Definition JH5T_STR_RESERVED_6 : Z := 5140.
Definition JH5T_STR_RESERVED_7 : Z := 5150.
Definition JH5T_STR_RESERVED_8 : Z := 5160.
Definition JH5T_STR_RESERVED_9 : Z := 5170.
Definition JH5T_STR_SPACEPAD : Z := 5180.
Definition JH5T_STRING : Z := 5190.
Definition JH5T_TIME : Z := 5200.
Definition JH5T_UNIX_D32BE : Z := 5210.
Definition JH5T_UNIX_D32LE : Z := 5220.
Definition JH5T_UNIX_D64BE : Z := 5230.
Definition JH5T_UNIX_D64LE : Z := 5240.
Definition JH5T_VARIABLE : Z := 5245.
Definition JH5T_VLEN : Z := 5250.
Definition JH5Z_CB_CONT : Z := 5260.
Definition JH5Z_CB_ERROR : Z := 5270.
Definition JH5Z_CB_FAIL : Z := 5280.
Definition JH5Z_CB_NO : Z := 5290.
Definition JH5Z_DISABLE_EDC : Z := 5300.
Definition JH5Z_ENABLE_EDC : Z := 5310.
Definition JH5Z_ERROR_EDC : Z := 5320.
Definition JH5Z_FILTER_DEFLATE : Z := 5330.
Definition JH5Z_FILTER_ERROR : Z := 5340.
Definition JH5Z_FILTER_FLETCHER32 : Z := 5350.
Definition JH5Z_FILTER_MAX : Z := 5360.
Definition JH5Z_FILTER_NONE : Z := 5370.
Definition JH5Z_FILTER_RESERVED : Z := 5380.
Definition JH5Z_FILTER_SHUFFLE : Z := 5390.
Definition JH5Z_FILTER_SZIP : Z := 5400.
Definition JH5Z_FLAG_DEFMASK : Z := 5410.
Definition JH5Z_FLAG_INVMASK : Z := 5420.
Definition JH5Z_FLAG_MANDATORY : Z := 5430.
Definition JH5Z_FLAG_OPTIONAL : Z := 5440.
Definition JH5Z_FLAG_REVERSE : Z := 5450.
Definition JH5Z_FLAG_SKIP_EDC : Z := 5460.
Definition JH5Z_MAX_NFILTERS : Z := 5470.
Definition JH5Z_NO_EDC : Z := 5480.
Definition JH5Z_FILTER_CONFIG_ENCODE_ENABLED : Z := 5490.
Definition JH5Z_FILTER_CONFIG_DECODE_ENABLED : Z := 5500.

(** The active [#define] lines of [h5Constants.h], by name. *)

Definition h5Constants_h : list (string * Z) :=
  [ ("JH5_SZIP_MAX_PIXELS_PER_BLOCK", JH5_SZIP_MAX_PIXELS_PER_BLOCK);
    ("JH5_SZIP_NN_OPTION_MASK", JH5_SZIP_NN_OPTION_MASK);
    ("JH5_SZIP_EC_OPTION_MASK", JH5_SZIP_EC_OPTION_MASK);
    ("JH5_SZIP_ALLOW_K13_OPTION_MASK", JH5_SZIP_ALLOW_K13_OPTION_MASK);
    ("JH5_SZIP_CHIP_OPTION_MASK", JH5_SZIP_CHIP_OPTION_MASK);
    ("JH5D_ALLOC_TIME_DEFAULT", JH5D_ALLOC_TIME_DEFAULT);
    ("JH5D_ALLOC_TIME_EARLY", JH5D_ALLOC_TIME_EARLY);
    ("JH5D_ALLOC_TIME_ERROR", JH5D_ALLOC_TIME_ERROR);
    ("JH5D_ALLOC_TIME_INCR", JH5D_ALLOC_TIME_INCR);
    ("JH5D_ALLOC_TIME_LATE", JH5D_ALLOC_TIME_LATE);
    ("JH5D_CHUNKED", JH5D_CHUNKED);
    ("JH5D_COMPACT", JH5D_COMPACT);
    ("JH5D_CONTIGUOUS", JH5D_CONTIGUOUS);
    ("JH5D_FILL_TIME_ALLOC", JH5D_FILL_TIME_ALLOC);
    ("JH5D_FILL_TIME_ERROR", JH5D_FILL_TIME_ERROR);
    ("JH5D_FILL_TIME_NEVER", JH5D_FILL_TIME_NEVER);
    ("JH5D_FILL_VALUE_DEFAULT", JH5D_FILL_VALUE_DEFAULT);
    ("JH5D_FILL_VALUE_ERROR", JH5D_FILL_VALUE_ERROR);
    ("JH5D_FILL_VALUE_UNDEFINED", JH5D_FILL_VALUE_UNDEFINED);
    ("JH5D_FILL_VALUE_USER_DEFINED", JH5D_FILL_VALUE_USER_DEFINED);
    ("JH5D_LAYOUT_ERROR", JH5D_LAYOUT_ERROR);
    ("JH5D_NLAYOUTS", JH5D_NLAYOUTS);
    ("JH5D_SPACE_STATUS_ALLOCATED", JH5D_SPACE_STATUS_ALLOCATED);
    ("JH5D_SPACE_STATUS_ERROR", JH5D_SPACE_STATUS_ERROR);
    ("JH5D_SPACE_STATUS_NOT_ALLOCATED", JH5D_SPACE_STATUS_NOT_ALLOCATED);
    ("JH5D_SPACE_STATUS_PART_ALLOCATED", JH5D_SPACE_STATUS_PART_ALLOCATED);
    ("JH5E_ALIGNMENT", JH5E_ALIGNMENT);
    ("JH5E_ALREADYEXISTS", JH5E_ALREADYEXISTS);
    ("JH5E_ALREADYINIT", JH5E_ALREADYINIT);
    ("JH5E_ARGS", JH5E_ARGS);
    ("JH5E_ATOM", JH5E_ATOM);
    ("JH5E_ATTR", JH5E_ATTR);
    ("JH5E_BADATOM", JH5E_BADATOM);
    ("JH5E_BADFILE", JH5E_BADFILE);
    ("JH5E_BADGROUP", JH5E_BADGROUP);
    ("JH5E_BADMESG", JH5E_BADMESG);
    ("JH5E_BADRANGE", JH5E_BADRANGE);
    ("JH5E_BADSELECT", JH5E_BADSELECT);
    ("JH5E_BADSIZE", JH5E_BADSIZE);
    ("JH5E_BADTYPE", JH5E_BADTYPE);
    ("JH5E_BADVALUE", JH5E_BADVALUE);
    ("JH5E_BTREE", JH5E_BTREE);
    ("JH5E_CACHE", JH5E_CACHE);
    ("JH5E_CALLBACK", JH5E_CALLBACK);
    ("JH5E_CANAPPLY", JH5E_CANAPPLY);
    ("JH5E_CANTCLIP", JH5E_CANTCLIP);
    ("JH5E_CANTCLOSEFILE", JH5E_CANTCLOSEFILE);
    ("JH5E_CANTCONVERT", JH5E_CANTCONVERT);
    ("JH5E_CANTCOPY", JH5E_CANTCOPY);
    ("JH5E_CANTCOUNT", JH5E_CANTCOUNT);
    ("JH5E_CANTCREATE", JH5E_CANTCREATE);
    ("JH5E_CANTDEC", JH5E_CANTDEC);
    ("JH5E_CANTDECODE", JH5E_CANTDECODE);
    ("JH5E_CANTDELETE", JH5E_CANTDELETE);
    ("JH5E_CANTENCODE", JH5E_CANTENCODE);
    ("JH5E_CANTFLUSH", JH5E_CANTFLUSH);
    ("JH5E_CANTFREE", JH5E_CANTFREE);
    ("JH5E_CANTGET", JH5E_CANTGET);
    ("JH5E_CANTINC", JH5E_CANTINC);
    ("JH5E_CANTINIT", JH5E_CANTINIT);
    ("JH5E_CANTINSERT", JH5E_CANTINSERT);
    ("JH5E_CANTLIST", JH5E_CANTLIST);
    ("JH5E_CANTLOAD", JH5E_CANTLOAD);
    ("JH5E_CANTLOCK", JH5E_CANTLOCK);
    ("JH5E_CANTMAKETREE", JH5E_CANTMAKETREE);
    ("JH5E_CANTNEXT", JH5E_CANTNEXT);
    ("JH5E_CANTOPENFILE", JH5E_CANTOPENFILE);
    ("JH5E_CANTOPENOBJ", JH5E_CANTOPENOBJ);
    ("JH5E_CANTREGISTER", JH5E_CANTREGISTER);
    ("JH5E_CANTRELEASE", JH5E_CANTRELEASE);
    ("JH5E_CANTSELECT", JH5E_CANTSELECT);
    ("JH5E_CANTSET", JH5E_CANTSET);
    ("JH5E_CANTSPLIT", JH5E_CANTSPLIT);
    ("JH5E_CANTUNLOCK", JH5E_CANTUNLOCK);
    ("JH5E_CLOSEERROR", JH5E_CLOSEERROR);
    ("JH5E_COMPLEN", JH5E_COMPLEN);
    ("JH5E_DATASET", JH5E_DATASET);
    ("JH5E_DATASPACE", JH5E_DATASPACE);
    ("JH5E_DATATYPE", JH5E_DATATYPE);
    ("JH5E_DUPCLASS", JH5E_DUPCLASS);
    ("JH5E_EFL", JH5E_EFL);
    ("JH5E_EXISTS", JH5E_EXISTS);
    ("JH5E_FCNTL", JH5E_FCNTL);
    ("JH5E_FILE", JH5E_FILE);
    ("JH5E_FILEEXISTS", JH5E_FILEEXISTS);
    ("JH5E_FILEOPEN", JH5E_FILEOPEN);
    ("JH5E_FUNC", JH5E_FUNC);
    ("JH5E_HEAP", JH5E_HEAP);
    ("JH5E_INTERNAL", JH5E_INTERNAL);
    ("JH5E_IO", JH5E_IO);
    ("JH5E_LINK", JH5E_LINK);
    ("JH5E_LINKCOUNT", JH5E_LINKCOUNT);
    ("JH5E_MOUNT", JH5E_MOUNT);
    ("JH5E_MPI", JH5E_MPI);
    ("JH5E_MPIERRSTR", JH5E_MPIERRSTR);
    ("JH5E_NOFILTER", JH5E_NOFILTER);
    ("JH5E_NOIDS", JH5E_NOIDS);
    ("JH5E_NONE_MAJOR", JH5E_NONE_MAJOR);
    ("JH5E_NONE_MINOR", JH5E_NONE_MINOR);
    ("JH5E_NOSPACE", JH5E_NOSPACE);
    ("JH5E_NOTCACHED", JH5E_NOTCACHED);
    ("JH5E_NOTFOUND", JH5E_NOTFOUND);
    ("JH5E_NOTHDF5", JH5E_NOTHDF5);
    ("JH5E_OHDR", JH5E_OHDR);
    ("JH5E_OVERFLOW", JH5E_OVERFLOW);
    ("JH5E_PLINE", JH5E_PLINE);
    ("JH5E_PLIST", JH5E_PLIST);
    ("JH5E_PROTECT", JH5E_PROTECT);
    ("JH5E_READERROR", JH5E_READERROR);
    ("JH5E_REFERENCE", JH5E_REFERENCE);
    ("JH5E_RESOURCE", JH5E_RESOURCE);
    ("JH5E_RS", JH5E_RS);
    ("JH5E_SEEKERROR", JH5E_SEEKERROR);
    ("JH5E_SETLOCAL", JH5E_SETLOCAL);
    ("JH5E_STORAGE", JH5E_STORAGE);
    ("JH5E_SYM", JH5E_SYM);
    ("JH5E_TRUNCATED", JH5E_TRUNCATED);
    ("JH5E_TST", JH5E_TST);
    ("JH5E_UNINITIALIZED", JH5E_UNINITIALIZED);
    ("JH5E_UNSUPPORTED", JH5E_UNSUPPORTED);
    ("JH5E_VERSION", JH5E_VERSION);
    ("JH5E_VFL", JH5E_VFL);
    ("JH5E_WALK_DOWNWARD", JH5E_WALK_DOWNWARD);
    ("JH5E_WALK_UPWARD", JH5E_WALK_UPWARD);
    ("JH5E_WRITEERROR", JH5E_WRITEERROR);
    ("JH5F_ACC_CREAT", JH5F_ACC_CREAT);
    ("JH5F_ACC_DEBUG", JH5F_ACC_DEBUG);
    ("JH5F_ACC_EXCL", JH5F_ACC_EXCL);
    ("JH5F_ACC_RDONLY", JH5F_ACC_RDONLY);
    ("JH5F_ACC_RDWR", JH5F_ACC_RDWR);
    ("JH5F_ACC_TRUNC", JH5F_ACC_TRUNC);
    ("JH5F_CLOSE_DEFAULT", JH5F_CLOSE_DEFAULT);
    ("JH5F_CLOSE_SEMI", JH5F_CLOSE_SEMI);
    ("JH5F_CLOSE_STRONG", JH5F_CLOSE_STRONG);
    ("JH5F_CLOSE_WEAK", JH5F_CLOSE_WEAK);
    ("JH5F_OBJ_ALL", JH5F_OBJ_ALL);
    ("JH5F_OBJ_ATTR", JH5F_OBJ_ATTR);
    ("JH5F_OBJ_DATASET", JH5F_OBJ_DATASET);
    ("JH5F_OBJ_DATATYPE", JH5F_OBJ_DATATYPE);
    ("JH5F_OBJ_FILE", JH5F_OBJ_FILE);
    ("JH5F_OBJ_GROUP", JH5F_OBJ_GROUP);
    ("JH5F_OBJ_LOCAL", JH5F_OBJ_LOCAL);
    ("JH5F_SCOPE_DOWN", JH5F_SCOPE_DOWN);
    ("JH5F_SCOPE_GLOBAL", JH5F_SCOPE_GLOBAL);
    ("JH5F_SCOPE_LOCAL", JH5F_SCOPE_LOCAL);
    ("JH5F_UNLIMITED", JH5F_UNLIMITED);
    ("JH5F_LIBVER_EARLIEST", JH5F_LIBVER_EARLIEST);
    ("JH5F_LIBVER_LATEST", JH5F_LIBVER_LATEST);
    ("JH5G_DATASET", JH5G_DATASET);
    ("JH5G_GROUP", JH5G_GROUP);
    ("JH5G_LINK", JH5G_LINK);
    ("JH5G_LINK_ERROR", JH5G_LINK_ERROR);
    ("JH5G_LINK_HARD", JH5G_LINK_HARD);
    ("JH5G_LINK_SOFT", JH5G_LINK_SOFT);
    ("JH5G_NLIBTYPES", JH5G_NLIBTYPES);
    ("JH5G_NTYPES", JH5G_NTYPES);
    ("JH5G_NUSERTYPES", JH5G_NUSERTYPES);
    ("JH5G_RESERVED_5", JH5G_RESERVED_5);
    ("JH5G_RESERVED_6", JH5G_RESERVED_6);
    ("JH5G_RESERVED_7", JH5G_RESERVED_7);
    ("JH5G_SAME_LOC", JH5G_SAME_LOC);
    ("JH5G_TYPE", JH5G_TYPE);
    ("JH5G_UNKNOWN", JH5G_UNKNOWN);
    ("JH5G_USERTYPE", JH5G_USERTYPE);
    ("JH5I_ATTR", JH5I_ATTR);
    ("JH5I_BADID", JH5I_BADID);
    ("JH5I_DATASET", JH5I_DATASET);
    ("JH5I_DATASPACE", JH5I_DATASPACE);
    ("JH5I_DATATYPE", JH5I_DATATYPE);
    ("JH5I_FILE", JH5I_FILE);
    ("JH5I_FILE_CLOSING", JH5I_FILE_CLOSING);
    ("JH5I_GENPROP_CLS", JH5I_GENPROP_CLS);
    ("JH5I_GENPROP_LST", JH5I_GENPROP_LST);
    ("JH5I_GROUP", JH5I_GROUP);
    ("JH5I_INVALID_HID", JH5I_INVALID_HID);
    ("JH5I_REFERENCE", JH5I_REFERENCE);
    ("JH5I_VFL", JH5I_VFL);
    ("JH5O_TYPE_UNKNOWN", JH5O_TYPE_UNKNOWN);
    ("JH5O_TYPE_GROUP", JH5O_TYPE_GROUP);
    ("JH5O_TYPE_DATASET", JH5O_TYPE_DATASET);
    ("JH5O_TYPE_NAMED_DATATYPE", JH5O_TYPE_NAMED_DATATYPE);
    ("JH5O_TYPE_NTYPES", JH5O_TYPE_NTYPES);
    ("JH5L_TYPE_ERROR", JH5L_TYPE_ERROR);
    ("JH5L_TYPE_HARD", JH5L_TYPE_HARD);
    ("JH5L_TYPE_SOFT", JH5L_TYPE_SOFT);
    ("JH5L_TYPE_EXTERNAL", JH5L_TYPE_EXTERNAL);
    ("JH5L_TYPE_MAX", JH5L_TYPE_MAX);
    ("JH5P_DATASET_CREATE", JH5P_DATASET_CREATE);
    ("JH5P_DATASET_CREATE_DEFAULT", JH5P_DATASET_CREATE_DEFAULT);
    ("JH5P_DATASET_XFER", JH5P_DATASET_XFER);
    ("JH5P_DATASET_XFER_DEFAULT", JH5P_DATASET_XFER_DEFAULT);
    ("JH5P_DEFAULT", JH5P_DEFAULT);
    ("JH5P_FILE_ACCESS", JH5P_FILE_ACCESS);
    ("JH5P_FILE_ACCESS_DEFAULT", JH5P_FILE_ACCESS_DEFAULT);
    ("JH5P_FILE_CREATE", JH5P_FILE_CREATE);
    ("JH5P_FILE_CREATE_DEFAULT", JH5P_FILE_CREATE_DEFAULT);
    ("JH5P_NO_CLASS", JH5P_NO_CLASS);
    ("JH5P_ROOT", JH5P_ROOT);
    ("JH5P_OBJECT_CREATE", JH5P_OBJECT_CREATE);
    ("JH5P_DATASET_ACCESS", JH5P_DATASET_ACCESS);
    ("JH5P_DATASET_ACCESS_DEFAULT", JH5P_DATASET_ACCESS_DEFAULT);
    ("JH5P_FILE_MOUNT", JH5P_FILE_MOUNT);
    ("JH5P_FILE_MOUNT_DEFAULT", JH5P_FILE_MOUNT_DEFAULT);
    ("JH5P_GROUP_CREATE", JH5P_GROUP_CREATE);
    ("JH5P_GROUP_CREATE_DEFAULT", JH5P_GROUP_CREATE_DEFAULT);
    ("JH5P_GROUP_ACCESS", JH5P_GROUP_ACCESS);
    ("JH5P_GROUP_ACCESS_DEFAULT", JH5P_GROUP_ACCESS_DEFAULT);
    ("JH5P_DATATYPE_CREATE", JH5P_DATATYPE_CREATE);
    ("JH5P_DATATYPE_CREATE_DEFAULT", JH5P_DATATYPE_CREATE_DEFAULT);
    ("JH5P_DATATYPE_ACCESS", JH5P_DATATYPE_ACCESS);
    ("JH5P_DATATYPE_ACCESS_DEFAULT", JH5P_DATATYPE_ACCESS_DEFAULT);
    ("JH5P_STRING_CREATE", JH5P_STRING_CREATE);
    ("JH5P_ATTRIBUTE_CREATE", JH5P_ATTRIBUTE_CREATE);
    ("JH5P_ATTRIBUTE_CREATE_DEFAULT", JH5P_ATTRIBUTE_CREATE_DEFAULT);
    ("JH5P_OBJECT_COPY", JH5P_OBJECT_COPY);
    ("JH5P_OBJECT_COPY_DEFAULT", JH5P_OBJECT_COPY_DEFAULT);
    ("JH5P_LINK_CREATE", JH5P_LINK_CREATE);
    ("JH5P_LINK_CREATE_DEFAULT", JH5P_LINK_CREATE_DEFAULT);
    ("JH5P_LINK_ACCESS", JH5P_LINK_ACCESS);
    ("JH5P_LINK_ACCESS_DEFAULT", JH5P_LINK_ACCESS_DEFAULT);
    ("JH5R_BADTYPE", JH5R_BADTYPE);
    ("JH5R_DATASET_REGION", JH5R_DATASET_REGION);
    ("JH5R_MAXTYPE", JH5R_MAXTYPE);
    ("JH5R_OBJ_REF_BUF_SIZE", JH5R_OBJ_REF_BUF_SIZE);
    ("JH5R_OBJECT", JH5R_OBJECT);
    ("JH5S_ALL", JH5S_ALL);
    ("JH5S_MAX_RANK", JH5S_MAX_RANK);
    ("JH5S_NO_CLASS", JH5S_NO_CLASS);
    ("JH5S_NULL", JH5S_NULL);
    ("JH5S_SCALAR", JH5S_SCALAR);
    ("JH5S_SEL_ALL", JH5S_SEL_ALL);
    ("JH5S_SEL_ERROR", JH5S_SEL_ERROR);
    ("JH5S_SEL_HYPERSLABS", JH5S_SEL_HYPERSLABS);
    ("JH5S_SEL_N", JH5S_SEL_N);
    ("JH5S_SEL_NONE", JH5S_SEL_NONE);
    ("JH5S_SEL_POINTS", JH5S_SEL_POINTS);
    ("JH5S_SELECT_AND", JH5S_SELECT_AND);
    ("JH5S_SELECT_APPEND", JH5S_SELECT_APPEND);
    ("JH5S_SELECT_INVALID", JH5S_SELECT_INVALID);
    ("JH5S_SELECT_NOOP", JH5S_SELECT_NOOP);
    ("JH5S_SELECT_NOTA", JH5S_SELECT_NOTA);
    ("JH5S_SELECT_NOTB", JH5S_SELECT_NOTB);
    ("JH5S_SELECT_OR", JH5S_SELECT_OR);
    ("JH5S_SELECT_PREPEND", JH5S_SELECT_PREPEND);
    ("JH5S_SELECT_SET", JH5S_SELECT_SET);
    ("JH5S_SELECT_XOR", JH5S_SELECT_XOR);
    ("JH5S_SIMPLE", JH5S_SIMPLE);
    ("JH5S_UNLIMITED", JH5S_UNLIMITED);
    ("JH5T_ALPHA_B16", JH5T_ALPHA_B16);
    ("JH5T_ALPHA_B32", JH5T_ALPHA_B32);
    ("JH5T_ALPHA_B64", JH5T_ALPHA_B64);
    ("JH5T_ALPHA_B8", JH5T_ALPHA_B8);
    ("JH5T_ALPHA_F32", JH5T_ALPHA_F32);
    ("JH5T_ALPHA_F64", JH5T_ALPHA_F64);
    ("JH5T_ALPHA_I16", JH5T_ALPHA_I16);
    ("JH5T_ALPHA_I32", JH5T_ALPHA_I32);
    ("JH5T_ALPHA_I64", JH5T_ALPHA_I64);
    ("JH5T_ALPHA_I8", JH5T_ALPHA_I8);
    ("JH5T_ALPHA_U16", JH5T_ALPHA_U16);
    ("JH5T_ALPHA_U32", JH5T_ALPHA_U32);
    ("JH5T_ALPHA_U64", JH5T_ALPHA_U64);
    ("JH5T_ALPHA_U8", JH5T_ALPHA_U8);
    ("JH5T_ARRAY", JH5T_ARRAY);
    ("JH5T_BITFIELD", JH5T_BITFIELD);
    ("JH5T_BKG_NO", JH5T_BKG_NO);
    ("JH5T_BKG_YES", JH5T_BKG_YES);
    ("JH5T_C_S1", JH5T_C_S1);
    ("JH5T_COMPOUND", JH5T_COMPOUND);
    ("JH5T_CONV_CONV", JH5T_CONV_CONV);
    ("JH5T_CONV_FREE", JH5T_CONV_FREE);
    ("JH5T_CONV_INIT", JH5T_CONV_INIT);
    ("JH5T_CSET_ASCII", JH5T_CSET_ASCII);
    ("JH5T_CSET_ERROR", JH5T_CSET_ERROR);
    ("JH5T_CSET_RESERVED_10", JH5T_CSET_RESERVED_10);
    ("JH5T_CSET_RESERVED_11", JH5T_CSET_RESERVED_11);
    ("JH5T_CSET_RESERVED_12", JH5T_CSET_RESERVED_12);
    ("JH5T_CSET_RESERVED_13", JH5T_CSET_RESERVED_13);
    ("JH5T_CSET_RESERVED_14", JH5T_CSET_RESERVED_14);
    ("JH5T_CSET_RESERVED_15", JH5T_CSET_RESERVED_15);
    ("JH5T_CSET_RESERVED_2", JH5T_CSET_RESERVED_2);
    ("JH5T_CSET_RESERVED_3", JH5T_CSET_RESERVED_3);
    ("JH5T_CSET_RESERVED_4", JH5T_CSET_RESERVED_4);
    ("JH5T_CSET_RESERVED_5", JH5T_CSET_RESERVED_5);
    ("JH5T_CSET_RESERVED_6", JH5T_CSET_RESERVED_6);
    ("JH5T_CSET_RESERVED_7", JH5T_CSET_RESERVED_7);
    ("JH5T_CSET_RESERVED_8", JH5T_CSET_RESERVED_8);
    ("JH5T_CSET_RESERVED_9", JH5T_CSET_RESERVED_9);
    ("JH5T_DIR_ASCEND", JH5T_DIR_ASCEND);
    ("JH5T_DIR_DEFAULT", JH5T_DIR_DEFAULT);
    ("JH5T_DIR_DESCEND", JH5T_DIR_DESCEND);
    ("JH5T_ENUM", JH5T_ENUM);
    ("JH5T_FLOAT", JH5T_FLOAT);
    ("JH5T_FORTRAN_S1", JH5T_FORTRAN_S1);
    ("JH5T_IEEE_F32BE", JH5T_IEEE_F32BE);
    ("JH5T_IEEE_F32LE", JH5T_IEEE_F32LE);
    ("JH5T_IEEE_F64BE", JH5T_IEEE_F64BE);
    ("JH5T_IEEE_F64LE", JH5T_IEEE_F64LE);
    ("JH5T_INTEGER", JH5T_INTEGER);
    ("JH5T_INTEL_B16", JH5T_INTEL_B16);
    ("JH5T_INTEL_B32", JH5T_INTEL_B32);
    ("JH5T_INTEL_B64", JH5T_INTEL_B64);
    ("JH5T_INTEL_B8", JH5T_INTEL_B8);
    ("JH5T_INTEL_F32", JH5T_INTEL_F32);
    ("JH5T_INTEL_F64", JH5T_INTEL_F64);
    ("JH5T_INTEL_I16", JH5T_INTEL_I16);
    ("JH5T_INTEL_I32", JH5T_INTEL_I32);
    ("JH5T_INTEL_I64", JH5T_INTEL_I64);
    ("JH5T_INTEL_I8", JH5T_INTEL_I8);
    ("JH5T_INTEL_U16", JH5T_INTEL_U16);
    ("JH5T_INTEL_U32", JH5T_INTEL_U32);
    ("JH5T_INTEL_U64", JH5T_INTEL_U64);
    ("JH5T_INTEL_U8", JH5T_INTEL_U8);
    ("JH5T_MIPS_B16", JH5T_MIPS_B16);
    ("JH5T_MIPS_B32", JH5T_MIPS_B32);
    ("JH5T_MIPS_B64", JH5T_MIPS_B64);
    ("JH5T_MIPS_B8", JH5T_MIPS_B8);
    ("JH5T_MIPS_F32", JH5T_MIPS_F32);
    ("JH5T_MIPS_F64", JH5T_MIPS_F64);
    ("JH5T_MIPS_I16", JH5T_MIPS_I16);
    ("JH5T_MIPS_I32", JH5T_MIPS_I32);
    ("JH5T_MIPS_I64", JH5T_MIPS_I64);
    ("JH5T_MIPS_I8", JH5T_MIPS_I8);
    ("JH5T_MIPS_U16", JH5T_MIPS_U16);
    ("JH5T_MIPS_U32", JH5T_MIPS_U32);
    ("JH5T_MIPS_U64", JH5T_MIPS_U64);
    ("JH5T_MIPS_U8", JH5T_MIPS_U8);
    ("JH5T_NATIVE_B16", JH5T_NATIVE_B16);
    ("JH5T_NATIVE_B32", JH5T_NATIVE_B32);
    ("JH5T_NATIVE_B64", JH5T_NATIVE_B64);
    ("JH5T_NATIVE_B8", JH5T_NATIVE_B8);
    ("JH5T_NATIVE_CHAR", JH5T_NATIVE_CHAR);
    ("JH5T_NATIVE_DOUBLE", JH5T_NATIVE_DOUBLE);
    ("JH5T_NATIVE_FLOAT", JH5T_NATIVE_FLOAT);
    ("JH5T_NATIVE_HADDR", JH5T_NATIVE_HADDR);
    ("JH5T_NATIVE_HBOOL", JH5T_NATIVE_HBOOL);
    ("JH5T_NATIVE_HERR", JH5T_NATIVE_HERR);
    ("JH5T_NATIVE_HSIZE", JH5T_NATIVE_HSIZE);
    ("JH5T_NATIVE_HSSIZE", JH5T_NATIVE_HSSIZE);
    ("JH5T_NATIVE_INT", JH5T_NATIVE_INT);
    ("JH5T_NATIVE_INT_FAST16", JH5T_NATIVE_INT_FAST16);
    ("JH5T_NATIVE_INT_FAST32", JH5T_NATIVE_INT_FAST32);
    ("JH5T_NATIVE_INT_FAST64", JH5T_NATIVE_INT_FAST64);
    ("JH5T_NATIVE_INT_FAST8", JH5T_NATIVE_INT_FAST8);
    ("JH5T_NATIVE_INT_LEAST16", JH5T_NATIVE_INT_LEAST16);
    ("JH5T_NATIVE_INT_LEAST32", JH5T_NATIVE_INT_LEAST32);
    ("JH5T_NATIVE_INT_LEAST64", JH5T_NATIVE_INT_LEAST64);
    ("JH5T_NATIVE_INT_LEAST8", JH5T_NATIVE_INT_LEAST8);
    ("JH5T_NATIVE_INT16", JH5T_NATIVE_INT16);
    ("JH5T_NATIVE_INT32", JH5T_NATIVE_INT32);
    ("JH5T_NATIVE_INT64", JH5T_NATIVE_INT64);
    ("JH5T_NATIVE_INT8", JH5T_NATIVE_INT8);
    ("JH5T_NATIVE_LDOUBLE", JH5T_NATIVE_LDOUBLE);
    ("JH5T_NATIVE_LLONG", JH5T_NATIVE_LLONG);
    ("JH5T_NATIVE_LONG", JH5T_NATIVE_LONG);
    ("JH5T_NATIVE_OPAQUE", JH5T_NATIVE_OPAQUE);
    ("JH5T_NATIVE_SCHAR", JH5T_NATIVE_SCHAR);
    ("JH5T_NATIVE_SHORT", JH5T_NATIVE_SHORT);
    ("JH5T_NATIVE_UCHAR", JH5T_NATIVE_UCHAR);
    ("JH5T_NATIVE_UINT", JH5T_NATIVE_UINT);
    ("JH5T_NATIVE_UINT_FAST16", JH5T_NATIVE_UINT_FAST16);
    ("JH5T_NATIVE_UINT_FAST32", JH5T_NATIVE_UINT_FAST32);
    ("JH5T_NATIVE_UINT_FAST64", JH5T_NATIVE_UINT_FAST64);
    ("JH5T_NATIVE_UINT_FAST8", JH5T_NATIVE_UINT_FAST8);
    ("JH5T_NATIVE_UINT_LEAST16", JH5T_NATIVE_UINT_LEAST16);
    ("JH5T_NATIVE_UINT_LEAST32", JH5T_NATIVE_UINT_LEAST32);
    ("JH5T_NATIVE_UINT_LEAST64", JH5T_NATIVE_UINT_LEAST64);
    ("JH5T_NATIVE_UINT_LEAST8", JH5T_NATIVE_UINT_LEAST8);
    ("JH5T_NATIVE_UINT16", JH5T_NATIVE_UINT16);
    ("JH5T_NATIVE_UINT32", JH5T_NATIVE_UINT32);
    ("JH5T_NATIVE_UINT64", JH5T_NATIVE_UINT64);
    ("JH5T_NATIVE_UINT8", JH5T_NATIVE_UINT8);
    ("JH5T_NATIVE_ULLONG", JH5T_NATIVE_ULLONG);
    ("JH5T_NATIVE_ULONG", JH5T_NATIVE_ULONG);
    ("JH5T_NATIVE_USHORT", JH5T_NATIVE_USHORT);
    ("JH5T_NCLASSES", JH5T_NCLASSES);
    ("JH5T_NO_CLASS", JH5T_NO_CLASS);
    ("JH5T_NORM_ERROR", JH5T_NORM_ERROR);
    ("JH5T_NORM_IMPLIED", JH5T_NORM_IMPLIED);
    ("JH5T_NORM_MSBSET", JH5T_NORM_MSBSET);
    ("JH5T_NORM_NONE", JH5T_NORM_NONE);
    ("JH5T_NPAD", JH5T_NPAD);
    ("JH5T_NSGN", JH5T_NSGN);
    ("JH5T_OPAQUE", JH5T_OPAQUE);
    ("JH5T_OPAQUE_TAG_MAX", JH5T_OPAQUE_TAG_MAX);
    ("JH5T_ORDER_BE", JH5T_ORDER_BE);
    ("JH5T_ORDER_ERROR", JH5T_ORDER_ERROR);
    ("JH5T_ORDER_LE", JH5T_ORDER_LE);
    ("JH5T_ORDER_NONE", JH5T_ORDER_NONE);
    ("JH5T_ORDER_VAX", JH5T_ORDER_VAX);
    ("JH5T_PAD_BACKGROUND", JH5T_PAD_BACKGROUND);
    ("JH5T_PAD_ERROR", JH5T_PAD_ERROR);
    ("JH5T_PAD_ONE", JH5T_PAD_ONE);
    ("JH5T_PAD_ZERO", JH5T_PAD_ZERO);
    ("JH5T_PERS_DONTCARE", JH5T_PERS_DONTCARE);
    ("JH5T_PERS_HARD", JH5T_PERS_HARD);
    ("JH5T_PERS_SOFT", JH5T_PERS_SOFT);
    ("JH5T_REFERENCE", JH5T_REFERENCE);
    ("JH5T_SGN_2", JH5T_SGN_2);
    ("JH5T_SGN_ERROR", JH5T_SGN_ERROR);
    ("JH5T_SGN_NONE", JH5T_SGN_NONE);
    ("JH5T_STD_B16BE", JH5T_STD_B16BE);
    ("JH5T_STD_B16LE", JH5T_STD_B16LE);
    ("JH5T_STD_B32BE", JH5T_STD_B32BE);
    ("JH5T_STD_B32LE", JH5T_STD_B32LE);
    ("JH5T_STD_B64BE", JH5T_STD_B64BE);
    ("JH5T_STD_B64LE", JH5T_STD_B64LE);
    ("JH5T_STD_B8BE", JH5T_STD_B8BE);
    ("JH5T_STD_B8LE", JH5T_STD_B8LE);
    ("JH5T_STD_I16BE", JH5T_STD_I16BE);
    ("JH5T_STD_I16LE", JH5T_STD_I16LE);
    ("JH5T_STD_I32BE", JH5T_STD_I32BE);
    ("JH5T_STD_I32LE", JH5T_STD_I32LE);
    ("JH5T_STD_I64BE", JH5T_STD_I64BE);
    ("JH5T_STD_I64LE", JH5T_STD_I64LE);
    ("JH5T_STD_I8BE", JH5T_STD_I8BE);
    ("JH5T_STD_I8LE", JH5T_STD_I8LE);
    ("JH5T_STD_REF_DSETREG", JH5T_STD_REF_DSETREG);
    ("JH5T_STD_REF_OBJ", JH5T_STD_REF_OBJ);
    ("JH5T_STD_U16BE", JH5T_STD_U16BE);
    ("JH5T_STD_U16LE", JH5T_STD_U16LE);
    ("JH5T_STD_U32BE", JH5T_STD_U32BE);
    ("JH5T_STD_U32LE", JH5T_STD_U32LE);
    ("JH5T_STD_U64BE", JH5T_STD_U64BE);
    ("JH5T_STD_U64LE", JH5T_STD_U64LE);
    ("JH5T_STD_U8BE", JH5T_STD_U8BE);
    ("JH5T_STD_U8LE", JH5T_STD_U8LE);
    ("JH5T_STR_ERROR", JH5T_STR_ERROR);
    ("JH5T_STR_NULLPAD", JH5T_STR_NULLPAD);
    ("JH5T_STR_NULLTERM", JH5T_STR_NULLTERM);
    ("JH5T_STR_RESERVED_10", JH5T_STR_RESERVED_10);
    ("JH5T_STR_RESERVED_11", JH5T_STR_RESERVED_11);
    ("JH5T_STR_RESERVED_12", JH5T_STR_RESERVED_12);
    ("JH5T_STR_RESERVED_13", JH5T_STR_RESERVED_13);
    ("JH5T_STR_RESERVED_14", JH5T_STR_RESERVED_14);
    ("JH5T_STR_RESERVED_15", JH5T_STR_RESERVED_15);
    ("JH5T_STR_RESERVED_3", JH5T_STR_RESERVED_3);
    ("JH5T_STR_RESERVED_4", JH5T_STR_RESERVED_4);
    ("JH5T_STR_RESERVED_5", JH5T_STR_RESERVED_5);
    ("JH5T_STR_RESERVED_6", JH5T_STR_RESERVED_6);
    ("JH5T_STR_RESERVED_7", JH5T_STR_RESERVED_7);
    ("JH5T_STR_RESERVED_8", JH5T_STR_RESERVED_8);
    ("JH5T_STR_RESERVED_9", JH5T_STR_RESERVED_9);
    ("JH5T_STR_SPACEPAD", JH5T_STR_SPACEPAD);
    ("JH5T_STRING", JH5T_STRING);
    ("JH5T_TIME", JH5T_TIME);
    ("JH5T_UNIX_D32BE", JH5T_UNIX_D32BE);
    ("JH5T_UNIX_D32LE", JH5T_UNIX_D32LE);
    ("JH5T_UNIX_D64BE", JH5T_UNIX_D64BE);
    ("JH5T_UNIX_D64LE", JH5T_UNIX_D64LE);
    ("JH5T_VARIABLE", JH5T_VARIABLE);
    ("JH5T_VLEN", JH5T_VLEN);
    ("JH5Z_CB_CONT", JH5Z_CB_CONT);
    ("JH5Z_CB_ERROR", JH5Z_CB_ERROR);
    ("JH5Z_CB_FAIL", JH5Z_CB_FAIL);
    ("JH5Z_CB_NO", JH5Z_CB_NO);
    ("JH5Z_DISABLE_EDC", JH5Z_DISABLE_EDC);
    ("JH5Z_ENABLE_EDC", JH5Z_ENABLE_EDC);
    ("JH5Z_ERROR_EDC", JH5Z_ERROR_EDC);
    ("JH5Z_FILTER_DEFLATE", JH5Z_FILTER_DEFLATE);
    ("JH5Z_FILTER_ERROR", JH5Z_FILTER_ERROR);
    ("JH5Z_FILTER_FLETCHER32", JH5Z_FILTER_FLETCHER32);
    ("JH5Z_FILTER_MAX", JH5Z_FILTER_MAX);
    ("JH5Z_FILTER_NONE", JH5Z_FILTER_NONE);
    ("JH5Z_FILTER_RESERVED", JH5Z_FILTER_RESERVED);
    ("JH5Z_FILTER_SHUFFLE", JH5Z_FILTER_SHUFFLE);
    ("JH5Z_FILTER_SZIP", JH5Z_FILTER_SZIP);
    ("JH5Z_FLAG_DEFMASK", JH5Z_FLAG_DEFMASK);
    ("JH5Z_FLAG_INVMASK", JH5Z_FLAG_INVMASK);
    ("JH5Z_FLAG_MANDATORY", JH5Z_FLAG_MANDATORY);
    ("JH5Z_FLAG_OPTIONAL", JH5Z_FLAG_OPTIONAL);
    ("JH5Z_FLAG_REVERSE", JH5Z_FLAG_REVERSE);
    ("JH5Z_FLAG_SKIP_EDC", JH5Z_FLAG_SKIP_EDC);
    ("JH5Z_MAX_NFILTERS", JH5Z_MAX_NFILTERS);
    ("JH5Z_NO_EDC", JH5Z_NO_EDC);
    ("JH5Z_FILTER_CONFIG_ENCODE_ENABLED", JH5Z_FILTER_CONFIG_ENCODE_ENABLED);
    ("JH5Z_FILTER_CONFIG_DECODE_ENABLED", JH5Z_FILTER_CONFIG_DECODE_ENABLED) ].

(** ** Machine integers *)

(** Conversion of an integer value to a 32-bit two's-complement [int]
    ([jint]): the low 32 bits are kept. *)
Definition to_jint (v : Z) : Z := (v + 2 ^ 31) mod 2 ^ 32 - 2 ^ 31.

Definition in_jint (v : Z) : Prop := - 2 ^ 31 <= v < 2 ^ 31.

(** [jni.h] *)
Definition JNI_FALSE : Z := 0.
Definition JNI_TRUE : Z := 1.
Definition JNI_OK : Z := 0.
Definition JNI_ERR : Z := -1.

(** The newline character of the C string literals. *)
Definition nl : string := String (ascii_of_nat 10) EmptyString.

(** ** Data of the two worlds *)

(** An entry of the native error stack ([H5E_error_t]); only the two codes
    are read by the bridge. *)
Record H5E_error_t : Set := mkError { err_maj_num : Z; err_min_num : Z }.

(** [H5E_num_t] of exceptionImp.c: major and minor error numbers. *)
Record H5E_num_t : Set := mkNum { maj_num : Z; min_num : Z }.

(** References handed out by the Java runtime.  A reference is represented
    by what it denotes. *)
Record jclass : Set := mkClass { class_name : string }.
Record jmethodID : Set := mkMethod { m_name : string; m_sig : string }.
Record jstring : Set := mkString { utf : string }.

(** A [jvalue] slot: the [.i] member or the [.l] member (a possibly NULL
    string reference). *)
Inductive jvalue : Set :=
| JI (i : Z)
| JL (l : option jstring).

(** A constructed object: its class, the constructor used and the argument
    array passed to [NewObjectA]. *)
Record jobject : Set :=
  mkObject { obj_class : jclass; obj_ctor : jmethodID; obj_args : list jvalue }.

(** What can be written to a stream: literal text, or the rendering of an
    error stack by the native library. *)
Inductive output : Set :=
| Text (s : string)
| ErrorStack (frames : list H5E_error_t).

(** A C stream: [stderr] or a stream obtained from [fopen]. *)
Inductive stream : Set :=
| c_stderr
| c_file (fd : nat).

(** Every call that leaves the bridge. *)
Inductive Event : Set :=
| H5Ewalk_call (direction : H5sym)
| H5Eget_major_call (n : Z)
| H5Eget_minor_call (n : Z)
| H5Eprint_call (target : option stream)
| JNI_FindClass (name : string)
| JNI_GetMethodID (clazz : jclass) (name sig : string)
| JNI_NewStringUTF (bytes : option string)
| JNI_NewObjectA (clazz : jclass) (ctor : jmethodID) (args : list jvalue)
| JNI_Throw (obj : option jobject) (rval : Z)
| JNI_GetStringUTFChars (str : jstring)
| JNI_ReleaseStringUTFChars (str : jstring)
| C_fopen (path : option string) (mode : string) (result : option nat)
| C_fclose (fd : nat)
| C_fprintf (target : stream) (text : string).

(** Calls into the native HDF5 library. *)
Definition is_native_call (e : Event) : bool :=
  match e with
  | H5Ewalk_call _ | H5Eget_major_call _ | H5Eget_minor_call _
  | H5Eprint_call _ => true
  | _ => false
  end.

(** The Java runtime behind a [JNIEnv *]: which requests it grants. *)
Record JNIEnv : Type := mkEnv {
  loads_class : string -> bool;
  has_method : string -> string -> string -> bool;
  allocs_string : string -> bool;
  allocs_object : jclass -> jmethodID -> list jvalue -> bool;
  accepts_throw : jobject -> bool;
  pins_chars : jstring -> bool
}.

(** The state the bridge runs against.
    - [err_stack]: the thread's native error stack, slot 0 first (slot 0 is
      the entry pushed first, i.e. the innermost failing function);
    - [major_mesg], [minor_mesg]: the native library's message tables;
    - [indeterminate]: the contents found in automatic storage that is
      declared without an initialiser;
    - [thrown]: the exception made pending by a successful [Throw];
    - [stderr_out], [disk]: what has been written to standard error and to
      each file; [can_open], [streams], [next_fd]: the stdio stream table;
    - [trace]: the external calls made so far, oldest first. *)
Record State : Type := mkState {
  err_stack : list H5E_error_t;
  major_mesg : Z -> option string;
  minor_mesg : Z -> option string;
  indeterminate : H5E_num_t;
  thrown : option jobject;
  stderr_out : list output;
  disk : string -> list output;
  can_open : string -> bool;
  streams : list (nat * string);
  next_fd : nat;
  trace : list Event
}.

(** ** The state monad of the embedding *)

Definition M (A : Type) : Type := State -> A * State.

Definition ret {A : Type} (a : A) : M A := fun s => (a, s).

Definition bind {A B : Type} (m : M A) (k : A -> M B) : M B :=
  fun s => let (a, s') := m s in k a s'.

Declare Scope bridge_scope.
Delimit Scope bridge_scope with bridge.
Notation "x <- m ;; k" := (bind m (fun x => k))
  (at level 61, m at next level, right associativity) : bridge_scope.
Notation "m ;;; k" := (bind m (fun _ => k))
  (at level 61, right associativity) : bridge_scope.
Local Open Scope bridge_scope.

Definition gets {A : Type} (f : State -> A) : M A := fun s => (f s, s).

Definition modify (f : State -> State) : M unit := fun s => (tt, f s).

Definition with_trace (f : list Event -> list Event) (s : State) : State :=
  mkState (err_stack s) (major_mesg s) (minor_mesg s) (indeterminate s)
          (thrown s) (stderr_out s) (disk s) (can_open s) (streams s)
          (next_fd s) (f (trace s)).

Definition with_thrown (o : option jobject) (s : State) : State :=
  mkState (err_stack s) (major_mesg s) (minor_mesg s) (indeterminate s)
          o (stderr_out s) (disk s) (can_open s) (streams s)
          (next_fd s) (trace s).

Definition with_stderr (f : list output -> list output) (s : State) : State :=
  mkState (err_stack s) (major_mesg s) (minor_mesg s) (indeterminate s)
          (thrown s) (f (stderr_out s)) (disk s) (can_open s) (streams s)
          (next_fd s) (trace s).

Definition with_disk (d : string -> list output) (s : State) : State :=
  mkState (err_stack s) (major_mesg s) (minor_mesg s) (indeterminate s)
          (thrown s) (stderr_out s) d (can_open s) (streams s)
          (next_fd s) (trace s).

Definition with_streams (t : list (nat * string)) (n : nat) (s : State)
  : State :=
  mkState (err_stack s) (major_mesg s) (minor_mesg s) (indeterminate s)
          (thrown s) (stderr_out s) (disk s) (can_open s) t n (trace s).

Definition emit (e : Event) : M unit :=
  modify (with_trace (fun t => t ++ [e])).

(** ** The C library: stdio *)

Fixpoint stream_path (fd : nat) (t : list (nat * string)) : option string :=
  match t with
  | [] => None
  | (fd', p) :: t' => if Nat.eqb fd fd' then Some p else stream_path fd t'
  end.

Fixpoint drop_stream (fd : nat) (t : list (nat * string))
  : list (nat * string) :=
  match t with
  | [] => []
  | (fd', p) :: t' =>
      if Nat.eqb fd fd' then t' else (fd', p) :: drop_stream fd t'
  end.

(** Writing at the end of a file. *)
Definition append_to (p : string) (o : output) (d : string -> list output)
  : string -> list output :=
  fun q => if String.eqb q p then d q ++ [o] else d q.

Definition truncate (p : string) (d : string -> list output)
  : string -> list output :=
  fun q => if String.eqb q p then [] else d q.

(** Writing to a stream; streams opened by [fopen] write at the end of their
    file.  A descriptor that is not open receives nothing. *)
Definition write (t : stream) (o : output) : M unit :=
  match t with
  | c_stderr => modify (with_stderr (fun l => l ++ [o]))
  | c_file fd =>
      modify (fun s =>
        match stream_path fd (streams s) with
        | Some p => with_disk (append_to p o (disk s)) s
        | None => s
        end)
  end.

(** [fopen]: NULL when the path is NULL or the file cannot be opened;
    otherwise a fresh stream.  The [w] modes empty the file, the [a] modes
    keep its contents. *)
Definition fopen (path : option string) (mode : string) : M (option nat) :=
  fun s =>
    match path with
    | Some p =>
        if can_open s p then
          let fd := next_fd s in
          let d := if String.prefix "w" mode then truncate p (disk s)
                   else disk s in
          (Some fd,
           with_trace (fun t => t ++ [C_fopen path mode (Some fd)])
             (with_streams ((fd, p) :: streams s) (S fd) (with_disk d s)))
        else (None, with_trace (fun t => t ++ [C_fopen path mode None]) s)
    | None => (None, with_trace (fun t => t ++ [C_fopen path mode None]) s)
    end.

Definition fclose (fd : nat) : M unit :=
  emit (C_fclose fd) ;;;
  modify (fun s => with_streams (drop_stream fd (streams s)) (next_fd s) s).

Definition fprintf (t : stream) (text : string) : M unit :=
  emit (C_fprintf t text) ;;;
  write t (Text text).

(** ** The Java runtime: the JNI functions used by the bridge *)

Definition FindClass (env : JNIEnv) (name : string) : M (option jclass) :=
  emit (JNI_FindClass name) ;;;
  ret (if loads_class env name then Some (mkClass name) else None).

Definition GetMethodID (env : JNIEnv) (clazz : jclass) (name sig : string)
  : M (option jmethodID) :=
  emit (JNI_GetMethodID clazz name sig) ;;;
  ret (if has_method env (class_name clazz) name sig
       then Some (mkMethod name sig) else None).

Definition NewStringUTF (env : JNIEnv) (bytes : option string)
  : M (option jstring) :=
  emit (JNI_NewStringUTF bytes) ;;;
  ret (match bytes with
       | Some b => if allocs_string env b then Some (mkString b) else None
       | None => None
       end).

Definition NewObjectA (env : JNIEnv) (clazz : jclass) (ctor : jmethodID)
    (args : list jvalue) : M (option jobject) :=
  emit (JNI_NewObjectA clazz ctor args) ;;;
  ret (if allocs_object env clazz ctor args
       then Some (mkObject clazz ctor args) else None).

(** [Throw]: 0 on success, a negative value on failure; on success the
    object becomes the pending exception.  A NULL reference is not thrown. *)
Definition Throw (env : JNIEnv) (obj : option jobject) : M Z :=
  match obj with
  | Some o =>
      if accepts_throw env o then
        emit (JNI_Throw obj JNI_OK) ;;;
        modify (with_thrown (Some o)) ;;;
        ret JNI_OK
      else emit (JNI_Throw obj JNI_ERR) ;;; ret JNI_ERR
  | None => emit (JNI_Throw obj JNI_ERR) ;;; ret JNI_ERR
  end.

Definition GetStringUTFChars (env : JNIEnv) (str : jstring)
  : M (option string) :=
  emit (JNI_GetStringUTFChars str) ;;;
  ret (if pins_chars env str then Some (utf str) else None).

Definition ReleaseStringUTFChars (env : JNIEnv) (str : jstring) : M unit :=
  emit (JNI_ReleaseStringUTFChars str).

(** ** The native library: the HDF5 error API used by the bridge *)

(** The walk over the entries in visiting order: the callback receives the
    position, the entry and the client data; a negative status stops the
    walk. *)
Fixpoint walk_entries {A : Type}
    (func : Z -> option H5E_error_t -> A -> Z * A)
    (n : Z) (entries : list H5E_error_t) (client_data : A) : Z * A :=
  match entries with
  | [] => (0, client_data)
  | e :: rest =>
      let (status, data') := func n (Some e) client_data in
      if status <? 0 then (status, data')
      else walk_entries func (n + 1) rest data'
  end.

(** The order in which [H5Ewalk] visits the stack: [H5E_WALK_UPWARD] starts
    at slot 0, any other direction starts at the most recent entry and ends
    at slot 0. *)
Definition walk_order (direction : H5sym) (stack : list H5E_error_t)
  : list H5E_error_t :=
  match direction with
  | H5E_WALK_UPWARD => stack
  | _ => rev stack
  end.

(** [H5Ewalk] and [H5Eprint] are always called on [H5E_DEFAULT], the error
    stack of the calling thread; that argument is left implicit. *)
Definition H5Ewalk {A : Type} (direction : H5sym)
    (func : Z -> option H5E_error_t -> A -> Z * A) (client_data : A)
  : M (Z * A) :=
  emit (H5Ewalk_call direction) ;;;
  stack <- gets err_stack ;;
  ret (walk_entries func 0 (walk_order direction stack) client_data).

Definition H5Eget_major (n : Z) : M (option string) :=
  emit (H5Eget_major_call n) ;;;
  gets (fun s => major_mesg s n).

Definition H5Eget_minor (n : Z) : M (option string) :=
  emit (H5Eget_minor_call n) ;;;
  gets (fun s => minor_mesg s n).

(** [H5Eprint] renders the current error stack on the stream; a NULL stream
    stands for [stderr]. *)
Definition H5Eprint (target : option stream) : M unit :=
  emit (H5Eprint_call target) ;;;
  stack <- gets err_stack ;;
  write (match target with Some t => t | None => c_stderr end)
        (ErrorStack stack).

(** Automatic storage declared without an initialiser.  No operation of the
    model changes the [indeterminate] field, so two declarations made in the
    same state find the same contents; in C each declaration has contents of
    its own, and a property that compares separate reads has to hold for
    every contents of each. *)
Definition uninitialised : M H5E_num_t := gets indeterminate.

(** ** exceptionImp.c *)

(** [walk_error_callback]: copies the codes of the visited entry into the
    client data when the descriptor is not NULL; always returns 0. *)
Definition walk_error_callback (n : Z) (err_desc : option H5E_error_t)
    (err_nums : H5E_num_t) : Z * H5E_num_t :=
  match err_desc with
  | Some d => (0, mkNum (err_maj_num d) (err_min_num d))
  | None => (0, err_nums)
  end.

(** [printStackTrace0]: [file_name] is [None] for a NULL reference. *)
Definition Java_ncsa_hdf_hdf5lib_exceptions_HDF5LibraryException_printStackTrace0
    (env : JNIEnv) (file_name : option jstring) : M unit :=
  match file_name with
  | None => H5Eprint (Some c_stderr)
  | Some name =>
      file <- GetStringUTFChars env name ;;
      stream <- fopen file "a+" ;;
      H5Eprint (option_map c_file stream) ;;;
      ReleaseStringUTFChars env name ;;;
      match stream with
      | Some fd => fclose fd
      | None => ret tt
      end
  end.

Definition getMajorErrorNumber : M Z :=
  err_nums <- uninitialised ;;
  r <- H5Ewalk H5E_WALK_DOWNWARD walk_error_callback err_nums ;;
  ret (maj_num (snd r)).

Definition Java_ncsa_hdf_hdf5lib_exceptions_HDF5LibraryException_getMajorErrorNumber
    (env : JNIEnv) : M Z :=
  err_nums <- uninitialised ;;
  r <- H5Ewalk H5E_WALK_DOWNWARD walk_error_callback err_nums ;;
  ret (maj_num (snd r)).

Definition getMinorErrorNumber : M Z :=
  err_nums <- uninitialised ;;
  r <- H5Ewalk H5E_WALK_DOWNWARD walk_error_callback err_nums ;;
  ret (min_num (snd r)).

Definition Java_ncsa_hdf_hdf5lib_exceptions_HDF5LibraryException_getMinorErrorNumber
    (env : JNIEnv) : M Z :=
  getMinorErrorNumber.

(** The raisers.  Each one: look the class up, look the constructor up,
    build the arguments, instantiate, throw. *)

Definition h5outOfMemory (env : JNIEnv) (functName : string) : M Z :=
  jc <- FindClass env "java/lang/OutOfMemoryError" ;;
  match jc with
  | None => ret JNI_FALSE
  | Some jc =>
      jm <- GetMethodID env jc "<init>" "(Ljava/lang/String;)V" ;;
      match jm with
      | None => ret JNI_FALSE
      | Some jm =>
          str <- NewStringUTF env (Some functName) ;;
          let args := [JL str; JL None] in
          ex <- NewObjectA env jc jm args ;;
          rval <- Throw env ex ;;
          if rval <? 0 then
            fprintf c_stderr
              ("FATAL ERROR:  OutOfMemoryError: Throw failed" ++ nl) ;;;
            ret JNI_FALSE
          else ret JNI_TRUE
      end
  end.

Definition h5JNIFatalError (env : JNIEnv) (functName : string) : M Z :=
  jc <- FindClass env "java/lang/InternalError" ;;
  match jc with
  | None => ret JNI_FALSE
  | Some jc =>
      jm <- GetMethodID env jc "<init>" "(Ljava/lang/String;)V" ;;
      match jm with
      | None => ret JNI_FALSE
      | Some jm =>
          str <- NewStringUTF env (Some functName) ;;
          let args := [JL str; JL None] in
          ex <- NewObjectA env jc jm args ;;
          rval <- Throw env ex ;;
          if rval <? 0 then
            fprintf c_stderr ("FATAL ERROR:  JNIFatal: Throw failed" ++ nl) ;;;
            ret JNI_FALSE
          else ret JNI_TRUE
      end
  end.

Definition h5nullArgument (env : JNIEnv) (functName : string) : M Z :=
  jc <- FindClass env "java/lang/NullPointerException" ;;
  match jc with
  | None => ret JNI_FALSE
  | Some jc =>
      jm <- GetMethodID env jc "<init>" "(Ljava/lang/String;)V" ;;
      match jm with
      | None => ret JNI_FALSE
      | Some jm =>
          str <- NewStringUTF env (Some functName) ;;
          let args := [JL str; JL None] in
          ex <- NewObjectA env jc jm args ;;
          rval <- Throw env ex ;;
          if rval <? 0 then
            fprintf c_stderr
              ("FATAL ERROR:  NullPointer: Throw failed" ++ nl) ;;;
            ret JNI_FALSE
          else ret JNI_TRUE
      end
  end.

Definition h5badArgument (env : JNIEnv) (functName : string) : M Z :=
  jc <- FindClass env "java/lang/IllegalArgumentException" ;;
  match jc with
  | None => ret JNI_FALSE
  | Some jc =>
      jm <- GetMethodID env jc "<init>" "(Ljava/lang/String;)V" ;;
      match jm with
      | None => ret JNI_FALSE
      | Some jm =>
          str <- NewStringUTF env (Some functName) ;;
          let args := [JL str; JL None] in
          ex <- NewObjectA env jc jm args ;;
          rval <- Throw env ex ;;
          if rval <? 0 then
            fprintf c_stderr
              ("FATAL ERROR:  BadArgument: Throw failed" ++ nl) ;;;
            ret JNI_FALSE
          else ret JNI_TRUE
      end
  end.

Definition h5unimplemented (env : JNIEnv) (functName : string) : M Z :=
  jc <- FindClass env "java/lang/UnsupportedOperationException" ;;
  match jc with
  | None => ret JNI_FALSE
  | Some jc =>
      jm <- GetMethodID env jc "<init>" "(Ljava/lang/String;)V" ;;
      match jm with
      | None => ret JNI_FALSE
      | Some jm =>
          str <- NewStringUTF env (Some functName) ;;
          let args := [JL str; JL None] in
          ex <- NewObjectA env jc jm args ;;
          rval <- Throw env ex ;;
          if rval <? 0 then
            fprintf c_stderr
              ("FATAL ERROR:  Unsupported: Throw failed" ++ nl) ;;;
            ret JNI_FALSE
          else ret JNI_TRUE
      end
  end.

Definition h5illegalConstantError (env : JNIEnv) : M Z :=
  jc <- FindClass env "java/lang/IllegalArgumentException" ;;
  match jc with
  | None => ret JNI_FALSE
  | Some jc =>
      jm <- GetMethodID env jc "<init>" "(Ljava/lang/String;)V" ;;
      match jm with
      | None => ret JNI_FALSE
      | Some jm =>
          str <- NewStringUTF env (Some "Illegal java constant") ;;
          let args := [JL str; JL None] in
          ex <- NewObjectA env jc jm args ;;
          rval <- Throw env ex ;;
          if rval <? 0 then
            fprintf c_stderr
              ("FATAL ERROR:  Unsupported: Throw failed" ++ nl) ;;;
            ret JNI_FALSE
          else ret JNI_TRUE
      end
  end.

Definition h5raiseException (env : JNIEnv) (exception message : string)
  : M Z :=
  jc <- FindClass env exception ;;
  match jc with
  | None => ret JNI_FALSE
  | Some jc =>
      jm <- GetMethodID env jc "<init>" "(Ljava/lang/String;)V" ;;
      match jm with
      | None => ret JNI_FALSE
      | Some jm =>
          str <- NewStringUTF env (Some message) ;;
          let args := [JL str; JL None] in
          ex <- NewObjectA env jc jm args ;;
          rval <- Throw env ex ;;
          if rval <? 0 then
            fprintf c_stderr
              ("FATAL ERROR:  raiseException: Throw failed" ++ nl) ;;;
            ret JNI_FALSE
          else ret JNI_TRUE
      end
  end.

Section NativeLibrary.

(** The value of each [hdf5.h] symbol in the linked native library, as the C
    expression evaluates in its own type. *)
Variable hdf5 : H5sym -> Z.

(** [defineHDF5LibraryException]: the name of the exception sub-class that
    goes with a major error code. *)
Definition defineHDF5LibraryException (maj_num : Z) : string :=
  let err_num := maj_num in
  if err_num =? hdf5 H5E_ARGS then
    "ncsa/hdf/hdf5lib/exceptions/HDF5FunctionArgumentException"
  else if err_num =? hdf5 H5E_RESOURCE then
    "ncsa/hdf/hdf5lib/exceptions/HDF5ResourceUnavailableException"
  else if err_num =? hdf5 H5E_INTERNAL then
    "ncsa/hdf/hdf5lib/exceptions/HDF5InternalErrorException"
  else if err_num =? hdf5 H5E_FILE then
    "ncsa/hdf/hdf5lib/exceptions/HDF5FileInterfaceException"
  else if err_num =? hdf5 H5E_IO then
    "ncsa/hdf/hdf5lib/exceptions/HDF5LowLevelIOException"
  else if err_num =? hdf5 H5E_FUNC then
    "ncsa/hdf/hdf5lib/exceptions/HDF5FunctionEntryExitException"
  else if err_num =? hdf5 H5E_ATOM then
    "ncsa/hdf/hdf5lib/exceptions/HDF5AtomException"
  else if err_num =? hdf5 H5E_CACHE then
    "ncsa/hdf/hdf5lib/exceptions/HDF5MetaDataCacheException"
  else if err_num =? hdf5 H5E_BTREE then
    "ncsa/hdf/hdf5lib/exceptions/HDF5BtreeException"
  else if err_num =? hdf5 H5E_SYM then
    "ncsa/hdf/hdf5lib/exceptions/HDF5SymbolTableException"
  else if err_num =? hdf5 H5E_HEAP then
    "ncsa/hdf/hdf5lib/exceptions/HDF5HeapException"
  else if err_num =? hdf5 H5E_OHDR then
    "ncsa/hdf/hdf5lib/exceptions/HDF5ObjectHeaderException"
  else if err_num =? hdf5 H5E_DATATYPE then
    "ncsa/hdf/hdf5lib/exceptions/HDF5DatatypeInterfaceException"
  else if err_num =? hdf5 H5E_DATASPACE then
    "ncsa/hdf/hdf5lib/exceptions/HDF5DataspaceInterfaceException"
  else if err_num =? hdf5 H5E_DATASET then
    "ncsa/hdf/hdf5lib/exceptions/HDF5DatasetInterfaceException"
  else if err_num =? hdf5 H5E_STORAGE then
    "ncsa/hdf/hdf5lib/exceptions/HDF5DataStorageException"
  else if err_num =? hdf5 H5E_PLIST then
    "ncsa/hdf/hdf5lib/exceptions/HDF5PropertyListInterfaceException"
  else if err_num =? hdf5 H5E_ATTR then
    "ncsa/hdf/hdf5lib/exceptions/HDF5AttributeException"
  else if err_num =? hdf5 H5E_PLINE then
    "ncsa/hdf/hdf5lib/exceptions/HDF5DataFiltersException"
  else if err_num =? hdf5 H5E_EFL then
    "ncsa/hdf/hdf5lib/exceptions/HDF5ExternalFileListException"
  else if err_num =? hdf5 H5E_REFERENCE then
    "ncsa/hdf/hdf5lib/exceptions/HDF5ReferenceException"
  else
    "ncsa/hdf/hdf5lib/exceptions/HDF5LibraryException".

(** [h5libraryError]: determines the major error code and throws the
    matching sub-class of HDF5LibraryException. *)
Definition h5libraryError (env : JNIEnv) : M Z :=
  maj_num <- getMajorErrorNumber ;;
  maj_msg <- H5Eget_major maj_num ;;
  let exception := defineHDF5LibraryException maj_num in
  jc <- FindClass env exception ;;
  match jc with
  | None => ret JNI_FALSE
  | Some jc =>
      jm <- GetMethodID env jc "<init>"
              "(ILjava/lang/String;ILjava/lang/String;)V" ;;
      match jm with
      | None =>
          fprintf c_stderr
            ("FATAL ERROR:  h5libraryError: Cannot find constructor" ++ nl) ;;;
          ret JNI_FALSE
      | Some jm =>
          min_num <- getMinorErrorNumber ;;
          min_msg <- H5Eget_minor min_num ;;
          maj_msg_str <- NewStringUTF env maj_msg ;;
          min_msg_str <- NewStringUTF env min_msg ;;
          match maj_msg_str, min_msg_str with
          | Some _, Some _ =>
              let args := [JI maj_num; JL maj_msg_str;
                           JI min_num; JL min_msg_str] in
              ex <- NewObjectA env jc jm args ;;
              rval <- Throw env ex ;;
              if rval <? 0 then
                fprintf c_stderr
                  ("FATAL ERROR:  h5libraryError: Throw failed" ++ nl) ;;;
                ret JNI_FALSE
              else ret JNI_TRUE
          | _, _ =>
              fprintf c_stderr
                ("FATAL ERROR: h5libraryError: Out of Memory" ++ nl) ;;;
              ret JNI_FALSE
          end
      end
  end.

(** ** h5Constants.c *)

(** A [switch] whose every case returns: the first matching label decides;
    [None] stands for the [default] label. *)
Fixpoint switch {A : Type} (x : Z) (cases : list (Z * A)) : option A :=
  match cases with
  | [] => None
  | (label, body) :: rest =>
      if x =? label then Some body else switch x rest
  end.

(** The two forms of a case body in [J2C]: [return X;] and
    [return (int)X;]. *)
Inductive arm : Set :=
| return_ (X : H5sym)
| return_int (X : H5sym).

Definition arm_symbol (a : arm) : H5sym :=
  match a with return_ X | return_int X => X end.

(** The value returned by a case body, converted to the [jint] return
    type. *)
Definition eval_arm (a : arm) : Z :=
  match a with
  | return_ X => to_jint (hdf5 X)
  | return_int X => to_jint (to_jint (hdf5 X))
  end.

Definition J2C_cases : list (Z * arm) :=
  [ (JH5_SZIP_MAX_PIXELS_PER_BLOCK, return_ H5_SZIP_MAX_PIXELS_PER_BLOCK);
    (JH5_SZIP_NN_OPTION_MASK, return_ H5_SZIP_NN_OPTION_MASK);
    (JH5_SZIP_EC_OPTION_MASK, return_ H5_SZIP_EC_OPTION_MASK);
    (JH5_SZIP_ALLOW_K13_OPTION_MASK, return_ H5_SZIP_ALLOW_K13_OPTION_MASK);
    (JH5_SZIP_CHIP_OPTION_MASK, return_ H5_SZIP_CHIP_OPTION_MASK);
    (JH5D_ALLOC_TIME_DEFAULT, return_ H5D_ALLOC_TIME_DEFAULT);
    (JH5D_ALLOC_TIME_EARLY, return_ H5D_ALLOC_TIME_EARLY);
    (JH5D_ALLOC_TIME_ERROR, return_ H5D_ALLOC_TIME_ERROR);
    (JH5D_ALLOC_TIME_INCR, return_ H5D_ALLOC_TIME_INCR);
    (JH5D_ALLOC_TIME_LATE, return_ H5D_ALLOC_TIME_LATE);
    (JH5D_CHUNKED, return_ H5D_CHUNKED);
    (JH5D_COMPACT, return_ H5D_COMPACT);
    (JH5D_CONTIGUOUS, return_ H5D_CONTIGUOUS);
    (JH5D_FILL_TIME_ALLOC, return_ H5D_FILL_TIME_ALLOC);
    (JH5D_FILL_TIME_ERROR, return_ H5D_FILL_TIME_ERROR);
    (JH5D_FILL_TIME_NEVER, return_ H5D_FILL_TIME_NEVER);
    (JH5D_FILL_VALUE_DEFAULT, return_ H5D_FILL_VALUE_DEFAULT);
    (JH5D_FILL_VALUE_ERROR, return_ H5D_FILL_VALUE_ERROR);
    (JH5D_FILL_VALUE_UNDEFINED, return_ H5D_FILL_VALUE_UNDEFINED);
    (JH5D_FILL_VALUE_USER_DEFINED, return_ H5D_FILL_VALUE_USER_DEFINED);
    (JH5D_LAYOUT_ERROR, return_ H5D_LAYOUT_ERROR);
    (JH5D_NLAYOUTS, return_ H5D_NLAYOUTS);
    (JH5D_SPACE_STATUS_ALLOCATED, return_ H5D_SPACE_STATUS_ALLOCATED);
    (JH5D_SPACE_STATUS_ERROR, return_ H5D_SPACE_STATUS_ERROR);
    (JH5D_SPACE_STATUS_NOT_ALLOCATED, return_ H5D_SPACE_STATUS_NOT_ALLOCATED);
    (JH5D_SPACE_STATUS_PART_ALLOCATED, return_ H5D_SPACE_STATUS_PART_ALLOCATED);
    (JH5E_ALIGNMENT, return_ H5E_ALIGNMENT);
    (JH5E_ALREADYEXISTS, return_ H5E_ALREADYEXISTS);
    (JH5E_ALREADYINIT, return_ H5E_ALREADYINIT);
    (JH5E_ARGS, return_ H5E_ARGS);
    (JH5E_ATOM, return_ H5E_ATOM);
    (JH5E_ATTR, return_ H5E_ATTR);
    (JH5E_BADATOM, return_ H5E_BADATOM);
    (JH5E_BADFILE, return_ H5E_BADFILE);
    (JH5E_BADGROUP, return_ H5E_BADGROUP);
    (JH5E_BADMESG, return_ H5E_BADMESG);
    (JH5E_BADRANGE, return_ H5E_BADRANGE);
    (JH5E_BADSELECT, return_ H5E_BADSELECT);
    (JH5E_BADSIZE, return_ H5E_BADSIZE);
    (JH5E_BADTYPE, return_ H5E_BADTYPE);
    (JH5E_BADVALUE, return_ H5E_BADVALUE);
    (JH5E_BTREE, return_ H5E_BTREE);
    (JH5E_CACHE, return_ H5E_CACHE);
    (JH5E_CALLBACK, return_ H5E_CALLBACK);
    (JH5E_CANAPPLY, return_ H5E_CANAPPLY);
    (JH5E_CANTCLIP, return_ H5E_CANTCLIP);
    (JH5E_CANTCLOSEFILE, return_ H5E_CANTCLOSEFILE);
    (JH5E_CANTCONVERT, return_ H5E_CANTCONVERT);
    (JH5E_CANTCOPY, return_ H5E_CANTCOPY);
    (JH5E_CANTCOUNT, return_ H5E_CANTCOUNT);
    (JH5E_CANTCREATE, return_ H5E_CANTCREATE);
    (JH5E_CANTDEC, return_ H5E_CANTDEC);
    (JH5E_CANTDECODE, return_ H5E_CANTDECODE);
    (JH5E_CANTDELETE, return_ H5E_CANTDELETE);
    (JH5E_CANTENCODE, return_ H5E_CANTENCODE);
    (JH5E_CANTFLUSH, return_ H5E_CANTFLUSH);
    (JH5E_CANTFREE, return_ H5E_CANTFREE);
    (JH5E_CANTGET, return_ H5E_CANTGET);
    (JH5E_CANTINC, return_ H5E_CANTINC);
    (JH5E_CANTINIT, return_ H5E_CANTINIT);
    (JH5E_CANTINSERT, return_ H5E_CANTINSERT);
    (JH5E_CANTLIST, return_ H5E_CANTLIST);
    (JH5E_CANTLOAD, return_ H5E_CANTLOAD);
    (JH5E_CANTLOCK, return_ H5E_CANTLOCK);
    (JH5E_CANTNEXT, return_ H5E_CANTNEXT);
    (JH5E_CANTOPENFILE, return_ H5E_CANTOPENFILE);
    (JH5E_CANTOPENOBJ, return_ H5E_CANTOPENOBJ);
    (JH5E_CANTREGISTER, return_ H5E_CANTREGISTER);
    (JH5E_CANTRELEASE, return_ H5E_CANTRELEASE);
    (JH5E_CANTSELECT, return_ H5E_CANTSELECT);
    (JH5E_CANTSET, return_ H5E_CANTSET);
    (JH5E_CANTSPLIT, return_ H5E_CANTSPLIT);
    (JH5E_CANTUNLOCK, return_ H5E_CANTUNLOCK);
    (JH5E_CLOSEERROR, return_ H5E_CLOSEERROR);
    (JH5E_COMPLEN, return_ H5E_COMPLEN);
    (JH5E_DATASET, return_ H5E_DATASET);
    (JH5E_DATASPACE, return_ H5E_DATASPACE);
    (JH5E_DATATYPE, return_ H5E_DATATYPE);
    (JH5E_DUPCLASS, return_ H5E_DUPCLASS);
    (JH5E_EFL, return_ H5E_EFL);
    (JH5E_EXISTS, return_ H5E_EXISTS);
    (JH5E_FCNTL, return_ H5E_FCNTL);
    (JH5E_FILE, return_ H5E_FILE);
    (JH5E_FILEEXISTS, return_ H5E_FILEEXISTS);
    (JH5E_FILEOPEN, return_ H5E_FILEOPEN);
    (JH5E_FUNC, return_ H5E_FUNC);
    (JH5E_HEAP, return_ H5E_HEAP);
    (JH5E_INTERNAL, return_ H5E_INTERNAL);
    (JH5E_IO, return_ H5E_IO);
    (JH5E_LINK, return_ H5E_LINK);
    (JH5E_LINKCOUNT, return_ H5E_LINKCOUNT);
    (JH5E_MOUNT, return_ H5E_MOUNT);
    (JH5E_MPI, return_ H5E_MPI);
    (JH5E_MPIERRSTR, return_ H5E_MPIERRSTR);
    (JH5E_NOFILTER, return_ H5E_NOFILTER);
    (JH5E_NOIDS, return_ H5E_NOIDS);
    (JH5E_NONE_MAJOR, return_ H5E_NONE_MAJOR);
    (JH5E_NONE_MINOR, return_ H5E_NONE_MINOR);
    (JH5E_NOSPACE, return_ H5E_NOSPACE);
    (JH5E_NOTCACHED, return_ H5E_NOTCACHED);
    (JH5E_NOTFOUND, return_ H5E_NOTFOUND);
    (JH5E_NOTHDF5, return_ H5E_NOTHDF5);
    (JH5E_OHDR, return_ H5E_OHDR);
    (JH5E_OVERFLOW, return_ H5E_OVERFLOW);
    (JH5E_PLINE, return_ H5E_PLINE);
    (JH5E_PLIST, return_ H5E_PLIST);
    (JH5E_PROTECT, return_ H5E_PROTECT);
    (JH5E_READERROR, return_ H5E_READERROR);
    (JH5E_REFERENCE, return_ H5E_REFERENCE);
    (JH5E_RESOURCE, return_ H5E_RESOURCE);
    (JH5E_RS, return_ H5E_RS);
    (JH5E_SEEKERROR, return_ H5E_SEEKERROR);
    (JH5E_SETLOCAL, return_ H5E_SETLOCAL);
    (JH5E_STORAGE, return_ H5E_STORAGE);
    (JH5E_SYM, return_ H5E_SYM);
    (JH5E_TRUNCATED, return_ H5E_TRUNCATED);
    (JH5E_TST, return_ H5E_TST);
    (JH5E_UNINITIALIZED, return_ H5E_UNINITIALIZED);
    (JH5E_UNSUPPORTED, return_ H5E_UNSUPPORTED);
    (JH5E_VERSION, return_ H5E_VERSION);
    (JH5E_VFL, return_ H5E_VFL);
    (JH5E_WALK_DOWNWARD, return_ H5E_WALK_DOWNWARD);
    (JH5E_WALK_UPWARD, return_ H5E_WALK_UPWARD);
    (JH5E_WRITEERROR, return_ H5E_WRITEERROR);
    (JH5F_ACC_CREAT, return_ H5F_ACC_CREAT);
    (JH5F_ACC_DEBUG, return_ H5F_ACC_DEBUG);
    (JH5F_ACC_EXCL, return_ H5F_ACC_EXCL);
    (JH5F_ACC_RDONLY, return_ H5F_ACC_RDONLY);
    (JH5F_ACC_RDWR, return_ H5F_ACC_RDWR);
    (JH5F_ACC_TRUNC, return_ H5F_ACC_TRUNC);
    (JH5F_CLOSE_DEFAULT, return_ H5F_CLOSE_DEFAULT);
    (JH5F_CLOSE_SEMI, return_ H5F_CLOSE_SEMI);
    (JH5F_CLOSE_STRONG, return_ H5F_CLOSE_STRONG);
    (JH5F_CLOSE_WEAK, return_ H5F_CLOSE_WEAK);
    (JH5F_OBJ_ALL, return_ H5F_OBJ_ALL);
    (JH5F_OBJ_DATASET, return_ H5F_OBJ_DATASET);
    (JH5F_OBJ_DATATYPE, return_ H5F_OBJ_DATATYPE);
    (JH5F_OBJ_FILE, return_ H5F_OBJ_FILE);
    (JH5F_OBJ_ATTR, return_ H5F_OBJ_ATTR);
    (JH5F_OBJ_GROUP, return_ H5F_OBJ_GROUP);
    (JH5F_SCOPE_DOWN, return_ H5F_SCOPE_DOWN);
    (JH5F_SCOPE_GLOBAL, return_ H5F_SCOPE_GLOBAL);
    (JH5F_SCOPE_LOCAL, return_ H5F_SCOPE_LOCAL);
    (JH5F_UNLIMITED, return_int H5F_UNLIMITED);
    (JH5F_LIBVER_EARLIEST, return_ H5F_LIBVER_EARLIEST);
    (JH5F_LIBVER_LATEST, return_ H5F_LIBVER_LATEST);
    (JH5G_DATASET, return_ H5G_DATASET);
    (JH5G_GROUP, return_ H5G_GROUP);
    (JH5G_LINK, return_ H5G_LINK);
    (JH5G_LINK_ERROR, return_ H5G_LINK_ERROR);
    (JH5G_LINK_HARD, return_ H5G_LINK_HARD);
    (JH5G_LINK_SOFT, return_ H5G_LINK_SOFT);
    (JH5G_NLIBTYPES, return_ H5G_NLIBTYPES);
    (JH5G_NTYPES, return_ H5G_NTYPES);
    (JH5G_NUSERTYPES, return_ H5G_NUSERTYPES);
    (JH5G_RESERVED_5, return_ H5G_RESERVED_5);
    (JH5G_RESERVED_6, return_ H5G_RESERVED_6);
    (JH5G_RESERVED_7, return_ H5G_RESERVED_7);
    (JH5G_SAME_LOC, return_ H5G_SAME_LOC);
    (JH5G_TYPE, return_ H5G_TYPE);
    (JH5G_UNKNOWN, return_ H5G_UNKNOWN);
    (JH5I_ATTR, return_ H5I_ATTR);
    (JH5I_BADID, return_ H5I_BADID);
    (JH5I_DATASET, return_ H5I_DATASET);
    (JH5I_DATASPACE, return_ H5I_DATASPACE);
    (JH5I_DATATYPE, return_ H5I_DATATYPE);
    (JH5I_FILE, return_ H5I_FILE);
    (JH5I_GENPROP_CLS, return_ H5I_GENPROP_CLS);
    (JH5I_GENPROP_LST, return_ H5I_GENPROP_LST);
    (JH5I_GROUP, return_ H5I_GROUP);
    (JH5I_INVALID_HID, return_ H5I_INVALID_HID);
    (JH5I_REFERENCE, return_ H5I_REFERENCE);
    (JH5I_VFL, return_ H5I_VFL);
    (JH5O_TYPE_UNKNOWN, return_ H5O_TYPE_UNKNOWN);
    (JH5O_TYPE_GROUP, return_ H5O_TYPE_GROUP);
    (JH5O_TYPE_DATASET, return_ H5O_TYPE_DATASET);
    (JH5O_TYPE_NAMED_DATATYPE, return_ H5O_TYPE_NAMED_DATATYPE);
    (JH5O_TYPE_NTYPES, return_ H5O_TYPE_NTYPES);
    (JH5L_TYPE_ERROR, return_ H5L_TYPE_ERROR);
    (JH5L_TYPE_HARD, return_ H5L_TYPE_HARD);
    (JH5L_TYPE_SOFT, return_ H5L_TYPE_SOFT);
    (JH5L_TYPE_EXTERNAL, return_ H5L_TYPE_EXTERNAL);
    (JH5L_TYPE_MAX, return_ H5L_TYPE_MAX);
    (JH5P_DATASET_CREATE, return_ H5P_DATASET_CREATE);
    (JH5P_DATASET_CREATE_DEFAULT, return_ H5P_DATASET_CREATE_DEFAULT);
    (JH5P_DATASET_XFER, return_ H5P_DATASET_XFER);
    (JH5P_DATASET_XFER_DEFAULT, return_ H5P_DATASET_XFER_DEFAULT);
    (JH5P_FILE_ACCESS, return_ H5P_FILE_ACCESS);
    (JH5P_FILE_ACCESS_DEFAULT, return_ H5P_FILE_ACCESS_DEFAULT);
    (JH5P_FILE_CREATE, return_ H5P_FILE_CREATE);
    (JH5P_FILE_CREATE_DEFAULT, return_ H5P_FILE_CREATE_DEFAULT);
    (JH5P_DEFAULT, return_ H5P_DEFAULT);
    (JH5P_NO_CLASS, return_ H5P_NO_CLASS);
    (JH5P_ROOT, return_ H5P_ROOT);
    (JH5P_OBJECT_CREATE, return_ H5P_OBJECT_CREATE);
    (JH5P_DATASET_ACCESS, return_ H5P_DATASET_ACCESS);
    (JH5P_DATASET_ACCESS_DEFAULT, return_ H5P_DATASET_ACCESS_DEFAULT);
    (JH5P_FILE_MOUNT, return_ H5P_FILE_MOUNT);
    (JH5P_FILE_MOUNT_DEFAULT, return_ H5P_FILE_MOUNT_DEFAULT);
    (JH5P_GROUP_CREATE, return_ H5P_GROUP_CREATE);
    (JH5P_GROUP_CREATE_DEFAULT, return_ H5P_GROUP_CREATE_DEFAULT);
    (JH5P_GROUP_ACCESS, return_ H5P_GROUP_ACCESS);
    (JH5P_GROUP_ACCESS_DEFAULT, return_ H5P_GROUP_ACCESS_DEFAULT);
    (JH5P_DATATYPE_CREATE, return_ H5P_DATATYPE_CREATE);
    (JH5P_DATATYPE_CREATE_DEFAULT, return_ H5P_DATATYPE_CREATE_DEFAULT);
    (JH5P_DATATYPE_ACCESS, return_ H5P_DATATYPE_ACCESS);
    (JH5P_DATATYPE_ACCESS_DEFAULT, return_ H5P_DATATYPE_ACCESS_DEFAULT);
    (JH5P_STRING_CREATE, return_ H5P_STRING_CREATE);
    (JH5P_ATTRIBUTE_CREATE, return_ H5P_ATTRIBUTE_CREATE);
    (JH5P_ATTRIBUTE_CREATE_DEFAULT, return_ H5P_ATTRIBUTE_CREATE_DEFAULT);
    (JH5P_OBJECT_COPY, return_ H5P_OBJECT_COPY);
    (JH5P_OBJECT_COPY_DEFAULT, return_ H5P_OBJECT_COPY_DEFAULT);
    (JH5P_LINK_CREATE, return_ H5P_LINK_CREATE);
    (JH5P_LINK_CREATE_DEFAULT, return_ H5P_LINK_CREATE_DEFAULT);
    (JH5P_LINK_ACCESS, return_ H5P_LINK_ACCESS);
    (JH5P_LINK_ACCESS_DEFAULT, return_ H5P_LINK_ACCESS_DEFAULT);
    (JH5R_BADTYPE, return_ H5R_BADTYPE);
    (JH5R_DATASET_REGION, return_ H5R_DATASET_REGION);
    (JH5R_MAXTYPE, return_ H5R_MAXTYPE);
    (JH5R_OBJ_REF_BUF_SIZE, return_ H5R_OBJ_REF_BUF_SIZE);
    (JH5R_OBJECT, return_ H5R_OBJECT);
    (JH5S_ALL, return_ H5S_ALL);
    (JH5S_MAX_RANK, return_ H5S_MAX_RANK);
    (JH5S_NO_CLASS, return_ H5S_NO_CLASS);
    (JH5S_NULL, return_ H5S_NULL);
    (JH5S_SCALAR, return_ H5S_SCALAR);
    (JH5S_SEL_ALL, return_ H5S_SEL_ALL);
    (JH5S_SEL_ERROR, return_ H5S_SEL_ERROR);
    (JH5S_SEL_HYPERSLABS, return_ H5S_SEL_HYPERSLABS);
    (JH5S_SEL_N, return_ H5S_SEL_N);
    (JH5S_SEL_NONE, return_ H5S_SEL_NONE);
    (JH5S_SEL_POINTS, return_ H5S_SEL_POINTS);
    (JH5S_SELECT_AND, return_ H5S_SELECT_AND);
    (JH5S_SELECT_APPEND, return_ H5S_SELECT_APPEND);
    (JH5S_SELECT_INVALID, return_ H5S_SELECT_INVALID);
    (JH5S_SELECT_NOOP, return_ H5S_SELECT_NOOP);
    (JH5S_SELECT_NOTA, return_ H5S_SELECT_NOTA);
    (JH5S_SELECT_NOTB, return_ H5S_SELECT_NOTB);
    (JH5S_SELECT_OR, return_ H5S_SELECT_OR);
    (JH5S_SELECT_PREPEND, return_ H5S_SELECT_PREPEND);
    (JH5S_SELECT_SET, return_ H5S_SELECT_SET);
    (JH5S_SELECT_XOR, return_ H5S_SELECT_XOR);
    (JH5S_SIMPLE, return_ H5S_SIMPLE);
    (JH5S_UNLIMITED, return_int H5S_UNLIMITED);
    (JH5T_ALPHA_B16, return_ H5T_ALPHA_B16);
    (JH5T_ALPHA_B32, return_ H5T_ALPHA_B32);
    (JH5T_ALPHA_B64, return_ H5T_ALPHA_B64);
    (JH5T_ALPHA_B8, return_ H5T_ALPHA_B8);
    (JH5T_ALPHA_F32, return_ H5T_ALPHA_F32);
    (JH5T_ALPHA_F64, return_ H5T_ALPHA_F64);
    (JH5T_ALPHA_I16, return_ H5T_ALPHA_I16);
    (JH5T_ALPHA_I32, return_ H5T_ALPHA_I32);
    (JH5T_ALPHA_I64, return_ H5T_ALPHA_I64);
    (JH5T_ALPHA_I8, return_ H5T_ALPHA_I8);
    (JH5T_ALPHA_U16, return_ H5T_ALPHA_U16);
    (JH5T_ALPHA_U32, return_ H5T_ALPHA_U32);
    (JH5T_ALPHA_U64, return_ H5T_ALPHA_U64);
    (JH5T_ALPHA_U8, return_ H5T_ALPHA_U8);
    (JH5T_ARRAY, return_ H5T_ARRAY);
    (JH5T_BITFIELD, return_ H5T_BITFIELD);
    (JH5T_BKG_NO, return_ H5T_BKG_NO);
    (JH5T_BKG_YES, return_ H5T_BKG_YES);
    (JH5T_C_S1, return_ H5T_C_S1);
    (JH5T_COMPOUND, return_ H5T_COMPOUND);
    (JH5T_CONV_CONV, return_ H5T_CONV_CONV);
    (JH5T_CONV_FREE, return_ H5T_CONV_FREE);
    (JH5T_CONV_INIT, return_ H5T_CONV_INIT);
    (JH5T_CSET_ASCII, return_ H5T_CSET_ASCII);
    (JH5T_CSET_ERROR, return_ H5T_CSET_ERROR);
    (JH5T_CSET_RESERVED_10, return_ H5T_CSET_RESERVED_10);
    (JH5T_CSET_RESERVED_11, return_ H5T_CSET_RESERVED_11);
    (JH5T_CSET_RESERVED_12, return_ H5T_CSET_RESERVED_12);
    (JH5T_CSET_RESERVED_13, return_ H5T_CSET_RESERVED_13);
    (JH5T_CSET_RESERVED_14, return_ H5T_CSET_RESERVED_14);
    (JH5T_CSET_RESERVED_15, return_ H5T_CSET_RESERVED_15);
    (JH5T_CSET_RESERVED_2, return_ H5T_CSET_RESERVED_2);
    (JH5T_CSET_RESERVED_3, return_ H5T_CSET_RESERVED_3);
    (JH5T_CSET_RESERVED_4, return_ H5T_CSET_RESERVED_4);
    (JH5T_CSET_RESERVED_5, return_ H5T_CSET_RESERVED_5);
    (JH5T_CSET_RESERVED_6, return_ H5T_CSET_RESERVED_6);
    (JH5T_CSET_RESERVED_7, return_ H5T_CSET_RESERVED_7);
    (JH5T_CSET_RESERVED_8, return_ H5T_CSET_RESERVED_8);
    (JH5T_CSET_RESERVED_9, return_ H5T_CSET_RESERVED_9);
    (JH5T_DIR_ASCEND, return_ H5T_DIR_ASCEND);
    (JH5T_DIR_DEFAULT, return_ H5T_DIR_DEFAULT);
    (JH5T_DIR_DESCEND, return_ H5T_DIR_DESCEND);
    (JH5T_ENUM, return_ H5T_ENUM);
    (JH5T_FLOAT, return_ H5T_FLOAT);
    (JH5T_FORTRAN_S1, return_ H5T_FORTRAN_S1);
    (JH5T_IEEE_F32BE, return_ H5T_IEEE_F32BE);
    (JH5T_IEEE_F32LE, return_ H5T_IEEE_F32LE);
    (JH5T_IEEE_F64BE, return_ H5T_IEEE_F64BE);
    (JH5T_IEEE_F64LE, return_ H5T_IEEE_F64LE);
    (JH5T_INTEGER, return_ H5T_INTEGER);
    (JH5T_INTEL_B16, return_ H5T_INTEL_B16);
    (JH5T_INTEL_B32, return_ H5T_INTEL_B32);
    (JH5T_INTEL_B64, return_ H5T_INTEL_B64);
    (JH5T_INTEL_B8, return_ H5T_INTEL_B8);
    (JH5T_INTEL_F32, return_ H5T_INTEL_F32);
    (JH5T_INTEL_F64, return_ H5T_INTEL_F64);
    (JH5T_INTEL_I16, return_ H5T_INTEL_I16);
    (JH5T_INTEL_I32, return_ H5T_INTEL_I32);
    (JH5T_INTEL_I64, return_ H5T_INTEL_I64);
    (JH5T_INTEL_I8, return_ H5T_INTEL_I8);
    (JH5T_INTEL_U16, return_ H5T_INTEL_U16);
    (JH5T_INTEL_U32, return_ H5T_INTEL_U32);
    (JH5T_INTEL_U64, return_ H5T_INTEL_U64);
    (JH5T_INTEL_U8, return_ H5T_INTEL_U8);
    (JH5T_MIPS_B16, return_ H5T_MIPS_B16);
    (JH5T_MIPS_B32, return_ H5T_MIPS_B32);
    (JH5T_MIPS_B64, return_ H5T_MIPS_B64);
    (JH5T_MIPS_B8, return_ H5T_MIPS_B8);
    (JH5T_MIPS_F32, return_ H5T_MIPS_F32);
    (JH5T_MIPS_F64, return_ H5T_MIPS_F64);
    (JH5T_MIPS_I16, return_ H5T_MIPS_I16);
    (JH5T_MIPS_I32, return_ H5T_MIPS_I32);
    (JH5T_MIPS_I64, return_ H5T_MIPS_I64);
    (JH5T_MIPS_I8, return_ H5T_MIPS_I8);
    (JH5T_MIPS_U16, return_ H5T_MIPS_U16);
    (JH5T_MIPS_U32, return_ H5T_MIPS_U32);
    (JH5T_MIPS_U64, return_ H5T_MIPS_U64);
    (JH5T_MIPS_U8, return_ H5T_MIPS_U8);
    (JH5T_NATIVE_B16, return_ H5T_NATIVE_B16);
    (JH5T_NATIVE_B32, return_ H5T_NATIVE_B32);
    (JH5T_NATIVE_B64, return_ H5T_NATIVE_B64);
    (JH5T_NATIVE_B8, return_ H5T_NATIVE_B8);
    (JH5T_NATIVE_CHAR, return_ H5T_NATIVE_CHAR);
    (JH5T_NATIVE_DOUBLE, return_ H5T_NATIVE_DOUBLE);
    (JH5T_NATIVE_FLOAT, return_ H5T_NATIVE_FLOAT);
    (JH5T_NATIVE_HADDR, return_ H5T_NATIVE_HADDR);
    (JH5T_NATIVE_HBOOL, return_ H5T_NATIVE_HBOOL);
    (JH5T_NATIVE_HERR, return_ H5T_NATIVE_HERR);
    (JH5T_NATIVE_HSIZE, return_ H5T_NATIVE_HSIZE);
    (JH5T_NATIVE_HSSIZE, return_ H5T_NATIVE_HSSIZE);
    (JH5T_NATIVE_INT, return_ H5T_NATIVE_INT);
    (JH5T_NATIVE_INT_FAST16, return_ H5T_NATIVE_INT_FAST16);
    (JH5T_NATIVE_INT_FAST32, return_ H5T_NATIVE_INT_FAST32);
    (JH5T_NATIVE_INT_FAST64, return_ H5T_NATIVE_INT_FAST64);
    (JH5T_NATIVE_INT_FAST8, return_ H5T_NATIVE_INT_FAST8);
    (JH5T_NATIVE_INT_LEAST16, return_ H5T_NATIVE_INT_LEAST16);
    (JH5T_NATIVE_INT_LEAST32, return_ H5T_NATIVE_INT_LEAST32);
    (JH5T_NATIVE_INT_LEAST64, return_ H5T_NATIVE_INT_LEAST64);
    (JH5T_NATIVE_INT_LEAST8, return_ H5T_NATIVE_INT_LEAST8);
    (JH5T_NATIVE_INT16, return_ H5T_NATIVE_INT16);
    (JH5T_NATIVE_INT32, return_ H5T_NATIVE_INT32);
    (JH5T_NATIVE_INT64, return_ H5T_NATIVE_INT64);
    (JH5T_NATIVE_INT8, return_ H5T_NATIVE_INT8);
    (JH5T_NATIVE_LDOUBLE, return_ H5T_NATIVE_LDOUBLE);
    (JH5T_NATIVE_LLONG, return_ H5T_NATIVE_LLONG);
    (JH5T_NATIVE_LONG, return_ H5T_NATIVE_LONG);
    (JH5T_NATIVE_OPAQUE, return_ H5T_NATIVE_OPAQUE);
    (JH5T_NATIVE_SCHAR, return_ H5T_NATIVE_SCHAR);
    (JH5T_NATIVE_SHORT, return_ H5T_NATIVE_SHORT);
    (JH5T_NATIVE_UCHAR, return_ H5T_NATIVE_UCHAR);
    (JH5T_NATIVE_UINT, return_ H5T_NATIVE_UINT);
    (JH5T_NATIVE_UINT_FAST16, return_ H5T_NATIVE_UINT_FAST16);
    (JH5T_NATIVE_UINT_FAST32, return_ H5T_NATIVE_UINT_FAST32);
    (JH5T_NATIVE_UINT_FAST64, return_ H5T_NATIVE_UINT_FAST64);
    (JH5T_NATIVE_UINT_FAST8, return_ H5T_NATIVE_UINT_FAST8);
    (JH5T_NATIVE_UINT_LEAST16, return_ H5T_NATIVE_UINT_LEAST16);
    (JH5T_NATIVE_UINT_LEAST32, return_ H5T_NATIVE_UINT_LEAST32);
    (JH5T_NATIVE_UINT_LEAST64, return_ H5T_NATIVE_UINT_LEAST64);
    (JH5T_NATIVE_UINT_LEAST8, return_ H5T_NATIVE_UINT_LEAST8);
    (JH5T_NATIVE_UINT16, return_ H5T_NATIVE_UINT16);
    (JH5T_NATIVE_UINT32, return_ H5T_NATIVE_UINT32);
    (JH5T_NATIVE_UINT64, return_ H5T_NATIVE_UINT64);
    (JH5T_NATIVE_UINT8, return_ H5T_NATIVE_UINT8);
    (JH5T_NATIVE_ULLONG, return_ H5T_NATIVE_ULLONG);
    (JH5T_NATIVE_ULONG, return_ H5T_NATIVE_ULONG);
    (JH5T_NATIVE_USHORT, return_ H5T_NATIVE_USHORT);
    (JH5T_NCLASSES, return_ H5T_NCLASSES);
    (JH5T_NO_CLASS, return_ H5T_NO_CLASS);
    (JH5T_NORM_ERROR, return_ H5T_NORM_ERROR);
    (JH5T_NORM_IMPLIED, return_ H5T_NORM_IMPLIED);
    (JH5T_NORM_MSBSET, return_ H5T_NORM_MSBSET);
    (JH5T_NORM_NONE, return_ H5T_NORM_NONE);
    (JH5T_NPAD, return_ H5T_NPAD);
    (JH5T_NSGN, return_ H5T_NSGN);
    (JH5T_OPAQUE, return_ H5T_OPAQUE);
    (JH5T_OPAQUE_TAG_MAX, return_ H5T_OPAQUE_TAG_MAX);
    (JH5T_ORDER_BE, return_ H5T_ORDER_BE);
    (JH5T_ORDER_ERROR, return_ H5T_ORDER_ERROR);
    (JH5T_ORDER_LE, return_ H5T_ORDER_LE);
    (JH5T_ORDER_NONE, return_ H5T_ORDER_NONE);
    (JH5T_ORDER_VAX, return_ H5T_ORDER_VAX);
    (JH5T_PAD_BACKGROUND, return_ H5T_PAD_BACKGROUND);
    (JH5T_PAD_ERROR, return_ H5T_PAD_ERROR);
    (JH5T_PAD_ONE, return_ H5T_PAD_ONE);
    (JH5T_PAD_ZERO, return_ H5T_PAD_ZERO);
    (JH5T_PERS_DONTCARE, return_ H5T_PERS_DONTCARE);
    (JH5T_PERS_HARD, return_ H5T_PERS_HARD);
    (JH5T_PERS_SOFT, return_ H5T_PERS_SOFT);
    (JH5T_REFERENCE, return_ H5T_REFERENCE);
    (JH5T_SGN_2, return_ H5T_SGN_2);
    (JH5T_SGN_ERROR, return_ H5T_SGN_ERROR);
    (JH5T_SGN_NONE, return_ H5T_SGN_NONE);
    (JH5T_STD_B16BE, return_ H5T_STD_B16BE);
    (JH5T_STD_B16LE, return_ H5T_STD_B16LE);
    (JH5T_STD_B32BE, return_ H5T_STD_B32BE);
    (JH5T_STD_B32LE, return_ H5T_STD_B32LE);
    (JH5T_STD_B64BE, return_ H5T_STD_B64BE);
    (JH5T_STD_B64LE, return_ H5T_STD_B64LE);
    (JH5T_STD_B8BE, return_ H5T_STD_B8BE);
    (JH5T_STD_B8LE, return_ H5T_STD_B8LE);
    (JH5T_STD_I16BE, return_ H5T_STD_I16BE);
    (JH5T_STD_I16LE, return_ H5T_STD_I16LE);
    (JH5T_STD_I32BE, return_ H5T_STD_I32BE);
    (JH5T_STD_I32LE, return_ H5T_STD_I32LE);
    (JH5T_STD_I64BE, return_ H5T_STD_I64BE);
    (JH5T_STD_I64LE, return_ H5T_STD_I64LE);
    (JH5T_STD_I8BE, return_ H5T_STD_I8BE);
    (JH5T_STD_I8LE, return_ H5T_STD_I8LE);
    (JH5T_STD_REF_DSETREG, return_ H5T_STD_REF_DSETREG);
    (JH5T_STD_REF_OBJ, return_ H5T_STD_REF_OBJ);
    (JH5T_STD_U16BE, return_ H5T_STD_U16BE);
    (JH5T_STD_U16LE, return_ H5T_STD_U16LE);
    (JH5T_STD_U32BE, return_ H5T_STD_U32BE);
    (JH5T_STD_U32LE, return_ H5T_STD_U32LE);
    (JH5T_STD_U64BE, return_ H5T_STD_U64BE);
    (JH5T_STD_U64LE, return_ H5T_STD_U64LE);
    (JH5T_STD_U8BE, return_ H5T_STD_U8BE);
    (JH5T_STD_U8LE, return_ H5T_STD_U8LE);
    (JH5T_STR_ERROR, return_ H5T_STR_ERROR);
    (JH5T_STR_NULLPAD, return_ H5T_STR_NULLPAD);
    (JH5T_STR_NULLTERM, return_ H5T_STR_NULLTERM);
    (JH5T_STR_RESERVED_10, return_ H5T_STR_RESERVED_10);
    (JH5T_STR_RESERVED_11, return_ H5T_STR_RESERVED_11);
    (JH5T_STR_RESERVED_12, return_ H5T_STR_RESERVED_12);
    (JH5T_STR_RESERVED_13, return_ H5T_STR_RESERVED_13);
    (JH5T_STR_RESERVED_14, return_ H5T_STR_RESERVED_14);
    (JH5T_STR_RESERVED_15, return_ H5T_STR_RESERVED_15);
    (JH5T_STR_RESERVED_3, return_ H5T_STR_RESERVED_3);
    (JH5T_STR_RESERVED_4, return_ H5T_STR_RESERVED_4);
    (JH5T_STR_RESERVED_5, return_ H5T_STR_RESERVED_5);
    (JH5T_STR_RESERVED_6, return_ H5T_STR_RESERVED_6);
    (JH5T_STR_RESERVED_7, return_ H5T_STR_RESERVED_7);
    (JH5T_STR_RESERVED_8, return_ H5T_STR_RESERVED_8);
    (JH5T_STR_RESERVED_9, return_ H5T_STR_RESERVED_9);
    (JH5T_STR_SPACEPAD, return_ H5T_STR_SPACEPAD);
    (JH5T_STRING, return_ H5T_STRING);
    (JH5T_TIME, return_ H5T_TIME);
    (JH5T_UNIX_D32BE, return_ H5T_UNIX_D32BE);
    (JH5T_UNIX_D32LE, return_ H5T_UNIX_D32LE);
    (JH5T_UNIX_D64BE, return_ H5T_UNIX_D64BE);
    (JH5T_UNIX_D64LE, return_ H5T_UNIX_D64LE);
    (JH5T_VARIABLE, return_ H5T_VARIABLE);
    (JH5T_VLEN, return_ H5T_VLEN);
    (JH5Z_CB_CONT, return_ H5Z_CB_CONT);
    (JH5Z_CB_ERROR, return_ H5Z_CB_ERROR);
    (JH5Z_CB_FAIL, return_ H5Z_CB_FAIL);
    (JH5Z_CB_NO, return_ H5Z_CB_NO);
    (JH5Z_DISABLE_EDC, return_ H5Z_DISABLE_EDC);
    (JH5Z_ENABLE_EDC, return_ H5Z_ENABLE_EDC);
    (JH5Z_ERROR_EDC, return_ H5Z_ERROR_EDC);
    (JH5Z_FILTER_DEFLATE, return_ H5Z_FILTER_DEFLATE);
    (JH5Z_FILTER_ERROR, return_ H5Z_FILTER_ERROR);
    (JH5Z_FILTER_FLETCHER32, return_ H5Z_FILTER_FLETCHER32);
    (JH5Z_FILTER_MAX, return_ H5Z_FILTER_MAX);
    (JH5Z_FILTER_NONE, return_ H5Z_FILTER_NONE);
    (JH5Z_FILTER_RESERVED, return_ H5Z_FILTER_RESERVED);
    (JH5Z_FILTER_SHUFFLE, return_ H5Z_FILTER_SHUFFLE);
    (JH5Z_FILTER_SZIP, return_ H5Z_FILTER_SZIP);
    (JH5Z_FLAG_DEFMASK, return_ H5Z_FLAG_DEFMASK);
    (JH5Z_FLAG_INVMASK, return_ H5Z_FLAG_INVMASK);
    (JH5Z_FLAG_MANDATORY, return_ H5Z_FLAG_MANDATORY);
    (JH5Z_FLAG_OPTIONAL, return_ H5Z_FLAG_OPTIONAL);
    (JH5Z_FLAG_REVERSE, return_ H5Z_FLAG_REVERSE);
    (JH5Z_FLAG_SKIP_EDC, return_ H5Z_FLAG_SKIP_EDC);
    (JH5Z_MAX_NFILTERS, return_ H5Z_MAX_NFILTERS);
    (JH5Z_NO_EDC, return_ H5Z_NO_EDC);
    (JH5Z_FILTER_CONFIG_ENCODE_ENABLED, return_ H5Z_FILTER_CONFIG_ENCODE_ENABLED);
    (JH5Z_FILTER_CONFIG_DECODE_ENABLED, return_ H5Z_FILTER_CONFIG_DECODE_ENABLED) ].

(** [J2C]: converts a Java constant to the native value; an identifier
    without a case raises the illegal-constant error and returns -1. *)
Definition Java_ncsa_hdf_hdf5lib_H5_J2C (env : JNIEnv) (java_constant : Z)
  : M Z :=
  match switch java_constant J2C_cases with
  | Some body => ret (eval_arm body)
  | None =>
      h5illegalConstantError env ;;;
      ret (-1)
  end.

End NativeLibrary.

(** ** What the Java caller observes *)

(** When a native method returns while an exception is pending, the caller
    receives the exception and the returned value is discarded. *)
Inductive Outcome : Set :=
| Returned (value : Z)
| Raised (ex : jobject).

Definition outcome (r : Z * State) : Outcome :=
  match thrown (snd r) with
  | Some ex => Raised ex
  | None => Returned (fst r)
  end.

(** The identifiers [J2C] has a case for. *)
Definition known (java_constant : Z) : Prop :=
  In java_constant (map fst J2C_cases).

(** The exception raised for an identifier without a case. *)
Definition illegal_constant_exception : jobject :=
  mkObject (mkClass "java/lang/IllegalArgumentException")
           (mkMethod "<init>" "(Ljava/lang/String;)V")
           [JL (Some (mkString "Illegal java constant")); JL None].

(** The runtime can raise [ex]: its class loads, its constructor is found,
    its string arguments can be created, the object can be built and the
    throw is accepted. *)
Definition string_args_ok (env : JNIEnv) (args : list jvalue) : bool :=
  forallb (fun a => match a with
                    | JL (Some str) => allocs_string env (utf str)
                    | _ => true
                    end) args.

Definition can_raise (env : JNIEnv) (ex : jobject) : bool :=
  loads_class env (class_name (obj_class ex))
  && has_method env (class_name (obj_class ex))
       (m_name (obj_ctor ex)) (m_sig (obj_ctor ex))
  && string_args_ok env (obj_args ex)
  && allocs_object env (obj_class ex) (obj_ctor ex) (obj_args ex)
  && accepts_throw env ex.

(** ** The raisers, as one family *)

Inductive raiser : Set :=
| OutOfMemory (functName : string)
| JNIFatalError (functName : string)
| NullArgument (functName : string)
| BadArgument (functName : string)
| Unimplemented (functName : string)
| IllegalConstantError
| LibraryError
| RaiseException (exception message : string).

Definition run_raiser (hdf5 : H5sym -> Z) (env : JNIEnv) (r : raiser)
  : M Z :=
  match r with
  | OutOfMemory f => h5outOfMemory env f
  | JNIFatalError f => h5JNIFatalError env f
  | NullArgument f => h5nullArgument env f
  | BadArgument f => h5badArgument env f
  | Unimplemented f => h5unimplemented env f
  | IllegalConstantError => h5illegalConstantError env
  | LibraryError => h5libraryError hdf5 env
  | RaiseException e m => h5raiseException env e m
  end.

(** The class each raiser looks up, the constructor signature it asks for
    and the text it prints when the throw fails. *)
Definition raiser_class (hdf5 : H5sym -> Z) (r : raiser) (s : State)
  : string :=
  match r with
  | OutOfMemory _ => "java/lang/OutOfMemoryError"
  | JNIFatalError _ => "java/lang/InternalError"
  | NullArgument _ => "java/lang/NullPointerException"
  | BadArgument _ => "java/lang/IllegalArgumentException"
  | Unimplemented _ => "java/lang/UnsupportedOperationException"
  | IllegalConstantError => "java/lang/IllegalArgumentException"
  | LibraryError =>
      defineHDF5LibraryException hdf5 (fst (getMajorErrorNumber s))
  | RaiseException e _ => e
  end.

Definition raiser_signature (r : raiser) : string :=
  match r with
  | LibraryError => "(ILjava/lang/String;ILjava/lang/String;)V"
  | _ => "(Ljava/lang/String;)V"
  end.

Definition throw_failed_text (r : raiser) : string :=
  match r with
  | OutOfMemory _ => "FATAL ERROR:  OutOfMemoryError: Throw failed" ++ nl
  | JNIFatalError _ => "FATAL ERROR:  JNIFatal: Throw failed" ++ nl
  | NullArgument _ => "FATAL ERROR:  NullPointer: Throw failed" ++ nl
  | BadArgument _ => "FATAL ERROR:  BadArgument: Throw failed" ++ nl
  | Unimplemented _ => "FATAL ERROR:  Unsupported: Throw failed" ++ nl
  | IllegalConstantError => "FATAL ERROR:  Unsupported: Throw failed" ++ nl
  | LibraryError => "FATAL ERROR:  h5libraryError: Throw failed" ++ nl
  | RaiseException _ _ => "FATAL ERROR:  raiseException: Throw failed" ++ nl
  end.

(** ** The table behind [defineHDF5LibraryException] *)

Definition generic_exception : string :=
  "ncsa/hdf/hdf5lib/exceptions/HDF5LibraryException".

(** The recognised major error categories with their exception classes, in
    the order of the comparisons. *)
Definition major_exceptions : list (H5sym * string) :=
  [ (H5E_ARGS, "ncsa/hdf/hdf5lib/exceptions/HDF5FunctionArgumentException");
    (H5E_RESOURCE,
     "ncsa/hdf/hdf5lib/exceptions/HDF5ResourceUnavailableException");
    (H5E_INTERNAL, "ncsa/hdf/hdf5lib/exceptions/HDF5InternalErrorException");
    (H5E_FILE, "ncsa/hdf/hdf5lib/exceptions/HDF5FileInterfaceException");
    (H5E_IO, "ncsa/hdf/hdf5lib/exceptions/HDF5LowLevelIOException");
    (H5E_FUNC, "ncsa/hdf/hdf5lib/exceptions/HDF5FunctionEntryExitException");
    (H5E_ATOM, "ncsa/hdf/hdf5lib/exceptions/HDF5AtomException");
    (H5E_CACHE, "ncsa/hdf/hdf5lib/exceptions/HDF5MetaDataCacheException");
    (H5E_BTREE, "ncsa/hdf/hdf5lib/exceptions/HDF5BtreeException");
    (H5E_SYM, "ncsa/hdf/hdf5lib/exceptions/HDF5SymbolTableException");
    (H5E_HEAP, "ncsa/hdf/hdf5lib/exceptions/HDF5HeapException");
    (H5E_OHDR, "ncsa/hdf/hdf5lib/exceptions/HDF5ObjectHeaderException");
    (H5E_DATATYPE,
     "ncsa/hdf/hdf5lib/exceptions/HDF5DatatypeInterfaceException");
    (H5E_DATASPACE,
     "ncsa/hdf/hdf5lib/exceptions/HDF5DataspaceInterfaceException");
    (H5E_DATASET,
     "ncsa/hdf/hdf5lib/exceptions/HDF5DatasetInterfaceException");
    (H5E_STORAGE, "ncsa/hdf/hdf5lib/exceptions/HDF5DataStorageException");
    (H5E_PLIST,
     "ncsa/hdf/hdf5lib/exceptions/HDF5PropertyListInterfaceException");
    (H5E_ATTR, "ncsa/hdf/hdf5lib/exceptions/HDF5AttributeException");
    (H5E_PLINE, "ncsa/hdf/hdf5lib/exceptions/HDF5DataFiltersException");
    (H5E_EFL, "ncsa/hdf/hdf5lib/exceptions/HDF5ExternalFileListException");
    (H5E_REFERENCE, "ncsa/hdf/hdf5lib/exceptions/HDF5ReferenceException") ].

(** The native codes of the recognised categories. *)
Definition major_codes (hdf5 : H5sym -> Z) : list Z :=
  map (fun p => hdf5 (fst p)) major_exceptions.

(** ** Sample environments *)

(** A native library for the examples: the recognised major codes are
    1..21, the two walk directions are 0 and 1 and the [UNLIMITED] sentinels
    and [H5T_VARIABLE] are the all-ones 64-bit value. *)
Definition hdf5_sample (X : H5sym) : Z :=
  match X with
  | H5E_ARGS => 1 | H5E_RESOURCE => 2 | H5E_INTERNAL => 3 | H5E_FILE => 4
  | H5E_IO => 5 | H5E_FUNC => 6 | H5E_ATOM => 7 | H5E_CACHE => 8
  | H5E_BTREE => 9 | H5E_SYM => 10 | H5E_HEAP => 11 | H5E_OHDR => 12
  | H5E_DATATYPE => 13 | H5E_DATASPACE => 14 | H5E_DATASET => 15
  | H5E_STORAGE => 16 | H5E_PLIST => 17 | H5E_ATTR => 18 | H5E_PLINE => 19
  | H5E_EFL => 20 | H5E_REFERENCE => 21
  | H5E_WALK_UPWARD => 0 | H5E_WALK_DOWNWARD => 1
  | H5D_CHUNKED => 2
  | H5F_UNLIMITED | H5S_UNLIMITED | H5T_VARIABLE => 2 ^ 64 - 1
  | _ => 0
  end.

(** A runtime that grants every request, one that finds no class and one
    that finds no constructor. *)
Definition jvm_ok : JNIEnv :=
  mkEnv (fun _ => true) (fun _ _ _ => true) (fun _ => true)
        (fun _ _ _ => true) (fun _ => true) (fun _ => true).

Definition jvm_without_classes : JNIEnv :=
  mkEnv (fun _ => false) (fun _ _ _ => true) (fun _ => true)
        (fun _ _ _ => true) (fun _ => true) (fun _ => true).

Definition jvm_without_constructors : JNIEnv :=
  mkEnv (fun _ => true) (fun _ _ _ => false) (fun _ => true)
        (fun _ _ _ => true) (fun _ => true) (fun _ => true).

(** A state with the given error stack and automatic-storage contents:
    nothing written, no stream open, every file can be opened, and message
    tables that name each code. *)
Definition state_with (stack : list H5E_error_t) (garbage : H5E_num_t)
  : State :=
  mkState stack
          (fun n => if n =? 4 then Some "File interface" else Some "major")
          (fun n => if n =? 7 then Some "Unable to open file"
                    else Some "minor")
          garbage None [] (fun _ => []) (fun _ => true) [] 3%nat [].

Definition state0 : State := state_with [] (mkNum 0 0).

(** A failed file open: the innermost entry is pushed first. *)
Definition sample_stack : list H5E_error_t :=
  [mkError 4 7; mkError 10 8; mkError 1 9].

(** The exception [h5libraryError] builds from the codes and messages. *)
Definition library_exception (hdf5 : H5sym -> Z)
    (maj : Z) (maj_msg : string) (min : Z) (min_msg : string) : jobject :=
  mkObject (mkClass (defineHDF5LibraryException hdf5 maj))
           (mkMethod "<init>" "(ILjava/lang/String;ILjava/lang/String;)V")
           [JI maj; JL (Some (mkString maj_msg));
            JI min; JL (Some (mkString min_msg))].

(** The two identifiers whose case applies the [(int)] cast. *)
Definition unlimited_cases : list (Z * H5sym) :=
  [(JH5F_UNLIMITED, H5F_UNLIMITED); (JH5S_UNLIMITED, H5S_UNLIMITED)].

(** ** Decision procedures used by the proofs *)

(** No label occurs twice. *)
Fixpoint distinct (l : list Z) : bool :=
  match l with
  | [] => true
  | x :: rest => negb (existsb (Z.eqb x) rest) && distinct rest
  end.

(** The identifiers defined in the header that have no case in [J2C]
    because the case is commented out in the switch. *)
Definition commented_out_cases : list string :=
  ["JH5E_CANTMAKETREE"; "JH5G_USERTYPE"; "JH5I_FILE_CLOSING"].

Definition has_case (java_constant : Z) : bool :=
  match switch java_constant J2C_cases with
  | Some _ => true
  | None => false
  end.

Definition named_in (names : list string) (n : string) : bool :=
  existsb (String.eqb n) names.

(** ** Names, expected exceptions and further sample environments *)

(** The name of each symbol, as it is written in the source. *)
Definition H5sym_name (X : H5sym) : string :=
  match X with
  | H5_SZIP_MAX_PIXELS_PER_BLOCK => "H5_SZIP_MAX_PIXELS_PER_BLOCK"
  | H5_SZIP_NN_OPTION_MASK => "H5_SZIP_NN_OPTION_MASK"
  | H5_SZIP_EC_OPTION_MASK => "H5_SZIP_EC_OPTION_MASK"
  | H5_SZIP_ALLOW_K13_OPTION_MASK => "H5_SZIP_ALLOW_K13_OPTION_MASK"
  | H5_SZIP_CHIP_OPTION_MASK => "H5_SZIP_CHIP_OPTION_MASK"
  | H5D_ALLOC_TIME_DEFAULT => "H5D_ALLOC_TIME_DEFAULT"
  | H5D_ALLOC_TIME_EARLY => "H5D_ALLOC_TIME_EARLY"
  | H5D_ALLOC_TIME_ERROR => "H5D_ALLOC_TIME_ERROR"
  | H5D_ALLOC_TIME_INCR => "H5D_ALLOC_TIME_INCR"
  | H5D_ALLOC_TIME_LATE => "H5D_ALLOC_TIME_LATE"
  | H5D_CHUNKED => "H5D_CHUNKED"
  | H5D_COMPACT => "H5D_COMPACT"
  | H5D_CONTIGUOUS => "H5D_CONTIGUOUS"
  | H5D_FILL_TIME_ALLOC => "H5D_FILL_TIME_ALLOC"
  | H5D_FILL_TIME_ERROR => "H5D_FILL_TIME_ERROR"
  | H5D_FILL_TIME_NEVER => "H5D_FILL_TIME_NEVER"
  | H5D_FILL_VALUE_DEFAULT => "H5D_FILL_VALUE_DEFAULT"
  | H5D_FILL_VALUE_ERROR => "H5D_FILL_VALUE_ERROR"
  | H5D_FILL_VALUE_UNDEFINED => "H5D_FILL_VALUE_UNDEFINED"
  | H5D_FILL_VALUE_USER_DEFINED => "H5D_FILL_VALUE_USER_DEFINED"
  | H5D_LAYOUT_ERROR => "H5D_LAYOUT_ERROR"
  | H5D_NLAYOUTS => "H5D_NLAYOUTS"
  | H5D_SPACE_STATUS_ALLOCATED => "H5D_SPACE_STATUS_ALLOCATED"
  | H5D_SPACE_STATUS_ERROR => "H5D_SPACE_STATUS_ERROR"
  | H5D_SPACE_STATUS_NOT_ALLOCATED => "H5D_SPACE_STATUS_NOT_ALLOCATED"
  | H5D_SPACE_STATUS_PART_ALLOCATED => "H5D_SPACE_STATUS_PART_ALLOCATED"
  | H5E_ALIGNMENT => "H5E_ALIGNMENT"
  | H5E_ALREADYEXISTS => "H5E_ALREADYEXISTS"
  | H5E_ALREADYINIT => "H5E_ALREADYINIT"
  | H5E_ARGS => "H5E_ARGS"
  | H5E_ATOM => "H5E_ATOM"
  | H5E_ATTR => "H5E_ATTR"
  | H5E_BADATOM => "H5E_BADATOM"
  | H5E_BADFILE => "H5E_BADFILE"
  | H5E_BADGROUP => "H5E_BADGROUP"
  | H5E_BADMESG => "H5E_BADMESG"
  | H5E_BADRANGE => "H5E_BADRANGE"
  | H5E_BADSELECT => "H5E_BADSELECT"
  | H5E_BADSIZE => "H5E_BADSIZE"
  | H5E_BADTYPE => "H5E_BADTYPE"
  | H5E_BADVALUE => "H5E_BADVALUE"
  | H5E_BTREE => "H5E_BTREE"
  | H5E_CACHE => "H5E_CACHE"
  | H5E_CALLBACK => "H5E_CALLBACK"
  | H5E_CANAPPLY => "H5E_CANAPPLY"
  | H5E_CANTCLIP => "H5E_CANTCLIP"
  | H5E_CANTCLOSEFILE => "H5E_CANTCLOSEFILE"
  | H5E_CANTCONVERT => "H5E_CANTCONVERT"
  | H5E_CANTCOPY => "H5E_CANTCOPY"
  | H5E_CANTCOUNT => "H5E_CANTCOUNT"
  | H5E_CANTCREATE => "H5E_CANTCREATE"
  | H5E_CANTDEC => "H5E_CANTDEC"
  | H5E_CANTDECODE => "H5E_CANTDECODE"
  | H5E_CANTDELETE => "H5E_CANTDELETE"
  | H5E_CANTENCODE => "H5E_CANTENCODE"
  | H5E_CANTFLUSH => "H5E_CANTFLUSH"
  | H5E_CANTFREE => "H5E_CANTFREE"
  | H5E_CANTGET => "H5E_CANTGET"
  | H5E_CANTINC => "H5E_CANTINC"
  | H5E_CANTINIT => "H5E_CANTINIT"
  | H5E_CANTINSERT => "H5E_CANTINSERT"
  | H5E_CANTLIST => "H5E_CANTLIST"
  | H5E_CANTLOAD => "H5E_CANTLOAD"
  | H5E_CANTLOCK => "H5E_CANTLOCK"
  | H5E_CANTNEXT => "H5E_CANTNEXT"
  | H5E_CANTOPENFILE => "H5E_CANTOPENFILE"
  | H5E_CANTOPENOBJ => "H5E_CANTOPENOBJ"
  | H5E_CANTREGISTER => "H5E_CANTREGISTER"
  | H5E_CANTRELEASE => "H5E_CANTRELEASE"
  | H5E_CANTSELECT => "H5E_CANTSELECT"
  | H5E_CANTSET => "H5E_CANTSET"
  | H5E_CANTSPLIT => "H5E_CANTSPLIT"
  | H5E_CANTUNLOCK => "H5E_CANTUNLOCK"
  | H5E_CLOSEERROR => "H5E_CLOSEERROR"
  | H5E_COMPLEN => "H5E_COMPLEN"
  | H5E_DATASET => "H5E_DATASET"
  | H5E_DATASPACE => "H5E_DATASPACE"
  | H5E_DATATYPE => "H5E_DATATYPE"
  | H5E_DUPCLASS => "H5E_DUPCLASS"
  | H5E_EFL => "H5E_EFL"
  | H5E_EXISTS => "H5E_EXISTS"
  | H5E_FCNTL => "H5E_FCNTL"
  | H5E_FILE => "H5E_FILE"
  | H5E_FILEEXISTS => "H5E_FILEEXISTS"
  | H5E_FILEOPEN => "H5E_FILEOPEN"
  | H5E_FUNC => "H5E_FUNC"
  | H5E_HEAP => "H5E_HEAP"
  | H5E_INTERNAL => "H5E_INTERNAL"
  | H5E_IO => "H5E_IO"
  | H5E_LINK => "H5E_LINK"
  | H5E_LINKCOUNT => "H5E_LINKCOUNT"
  | H5E_MOUNT => "H5E_MOUNT"
  | H5E_MPI => "H5E_MPI"
  | H5E_MPIERRSTR => "H5E_MPIERRSTR"
  | H5E_NOFILTER => "H5E_NOFILTER"
  | H5E_NOIDS => "H5E_NOIDS"
  | H5E_NONE_MAJOR => "H5E_NONE_MAJOR"
  | H5E_NONE_MINOR => "H5E_NONE_MINOR"
  | H5E_NOSPACE => "H5E_NOSPACE"
  | H5E_NOTCACHED => "H5E_NOTCACHED"
  | H5E_NOTFOUND => "H5E_NOTFOUND"
  | H5E_NOTHDF5 => "H5E_NOTHDF5"
  | H5E_OHDR => "H5E_OHDR"
  | H5E_OVERFLOW => "H5E_OVERFLOW"
  | H5E_PLINE => "H5E_PLINE"
  | H5E_PLIST => "H5E_PLIST"
  | H5E_PROTECT => "H5E_PROTECT"
  | H5E_READERROR => "H5E_READERROR"
  | H5E_REFERENCE => "H5E_REFERENCE"
  | H5E_RESOURCE => "H5E_RESOURCE"
  | H5E_RS => "H5E_RS"
  | H5E_SEEKERROR => "H5E_SEEKERROR"
  | H5E_SETLOCAL => "H5E_SETLOCAL"
  | H5E_STORAGE => "H5E_STORAGE"
  | H5E_SYM => "H5E_SYM"
  | H5E_TRUNCATED => "H5E_TRUNCATED"
  | H5E_TST => "H5E_TST"
  | H5E_UNINITIALIZED => "H5E_UNINITIALIZED"
  | H5E_UNSUPPORTED => "H5E_UNSUPPORTED"
  | H5E_VERSION => "H5E_VERSION"
  | H5E_VFL => "H5E_VFL"
  | H5E_WALK_DOWNWARD => "H5E_WALK_DOWNWARD"
  | H5E_WALK_UPWARD => "H5E_WALK_UPWARD"
  | H5E_WRITEERROR => "H5E_WRITEERROR"
  | H5F_ACC_CREAT => "H5F_ACC_CREAT"
  | H5F_ACC_DEBUG => "H5F_ACC_DEBUG"
  | H5F_ACC_EXCL => "H5F_ACC_EXCL"
  | H5F_ACC_RDONLY => "H5F_ACC_RDONLY"
  | H5F_ACC_RDWR => "H5F_ACC_RDWR"
  | H5F_ACC_TRUNC => "H5F_ACC_TRUNC"
  | H5F_CLOSE_DEFAULT => "H5F_CLOSE_DEFAULT"
  | H5F_CLOSE_SEMI => "H5F_CLOSE_SEMI"
  | H5F_CLOSE_STRONG => "H5F_CLOSE_STRONG"
  | H5F_CLOSE_WEAK => "H5F_CLOSE_WEAK"
  | H5F_OBJ_ALL => "H5F_OBJ_ALL"
  | H5F_OBJ_DATASET => "H5F_OBJ_DATASET"
  | H5F_OBJ_DATATYPE => "H5F_OBJ_DATATYPE"
  | H5F_OBJ_FILE => "H5F_OBJ_FILE"
  | H5F_OBJ_ATTR => "H5F_OBJ_ATTR"
  | H5F_OBJ_GROUP => "H5F_OBJ_GROUP"
  | H5F_SCOPE_DOWN => "H5F_SCOPE_DOWN"
  | H5F_SCOPE_GLOBAL => "H5F_SCOPE_GLOBAL"
  | H5F_SCOPE_LOCAL => "H5F_SCOPE_LOCAL"
  | H5F_UNLIMITED => "H5F_UNLIMITED"
  | H5F_LIBVER_EARLIEST => "H5F_LIBVER_EARLIEST"
  | H5F_LIBVER_LATEST => "H5F_LIBVER_LATEST"
  | H5G_DATASET => "H5G_DATASET"
  | H5G_GROUP => "H5G_GROUP"
  | H5G_LINK => "H5G_LINK"
  | H5G_LINK_ERROR => "H5G_LINK_ERROR"
  | H5G_LINK_HARD => "H5G_LINK_HARD"
  | H5G_LINK_SOFT => "H5G_LINK_SOFT"
  | H5G_NLIBTYPES => "H5G_NLIBTYPES"
  | H5G_NTYPES => "H5G_NTYPES"
  | H5G_NUSERTYPES => "H5G_NUSERTYPES"
  | H5G_RESERVED_5 => "H5G_RESERVED_5"
  | H5G_RESERVED_6 => "H5G_RESERVED_6"
  | H5G_RESERVED_7 => "H5G_RESERVED_7"
  | H5G_SAME_LOC => "H5G_SAME_LOC"
  | H5G_TYPE => "H5G_TYPE"
  | H5G_UNKNOWN => "H5G_UNKNOWN"
  | H5I_ATTR => "H5I_ATTR"
  | H5I_BADID => "H5I_BADID"
  | H5I_DATASET => "H5I_DATASET"
  | H5I_DATASPACE => "H5I_DATASPACE"
  | H5I_DATATYPE => "H5I_DATATYPE"
  | H5I_FILE => "H5I_FILE"
  | H5I_GENPROP_CLS => "H5I_GENPROP_CLS"
  | H5I_GENPROP_LST => "H5I_GENPROP_LST"
  | H5I_GROUP => "H5I_GROUP"
  | H5I_INVALID_HID => "H5I_INVALID_HID"
  | H5I_REFERENCE => "H5I_REFERENCE"
  | H5I_VFL => "H5I_VFL"
  | H5O_TYPE_UNKNOWN => "H5O_TYPE_UNKNOWN"
  | H5O_TYPE_GROUP => "H5O_TYPE_GROUP"
  | H5O_TYPE_DATASET => "H5O_TYPE_DATASET"
  | H5O_TYPE_NAMED_DATATYPE => "H5O_TYPE_NAMED_DATATYPE"
  | H5O_TYPE_NTYPES => "H5O_TYPE_NTYPES"
  | H5L_TYPE_ERROR => "H5L_TYPE_ERROR"
  | H5L_TYPE_HARD => "H5L_TYPE_HARD"
  | H5L_TYPE_SOFT => "H5L_TYPE_SOFT"
  | H5L_TYPE_EXTERNAL => "H5L_TYPE_EXTERNAL"
  | H5L_TYPE_MAX => "H5L_TYPE_MAX"
  | H5P_DATASET_CREATE => "H5P_DATASET_CREATE"
  | H5P_DATASET_CREATE_DEFAULT => "H5P_DATASET_CREATE_DEFAULT"
  | H5P_DATASET_XFER => "H5P_DATASET_XFER"
  | H5P_DATASET_XFER_DEFAULT => "H5P_DATASET_XFER_DEFAULT"
  | H5P_FILE_ACCESS => "H5P_FILE_ACCESS"
  | H5P_FILE_ACCESS_DEFAULT => "H5P_FILE_ACCESS_DEFAULT"
  | H5P_FILE_CREATE => "H5P_FILE_CREATE"
  | H5P_FILE_CREATE_DEFAULT => "H5P_FILE_CREATE_DEFAULT"
  | H5P_DEFAULT => "H5P_DEFAULT"
  | H5P_NO_CLASS => "H5P_NO_CLASS"
  | H5P_ROOT => "H5P_ROOT"
  | H5P_OBJECT_CREATE => "H5P_OBJECT_CREATE"
  | H5P_DATASET_ACCESS => "H5P_DATASET_ACCESS"
  | H5P_DATASET_ACCESS_DEFAULT => "H5P_DATASET_ACCESS_DEFAULT"
  | H5P_FILE_MOUNT => "H5P_FILE_MOUNT"
  | H5P_FILE_MOUNT_DEFAULT => "H5P_FILE_MOUNT_DEFAULT"
  | H5P_GROUP_CREATE => "H5P_GROUP_CREATE"
  | H5P_GROUP_CREATE_DEFAULT => "H5P_GROUP_CREATE_DEFAULT"
  | H5P_GROUP_ACCESS => "H5P_GROUP_ACCESS"
  | H5P_GROUP_ACCESS_DEFAULT => "H5P_GROUP_ACCESS_DEFAULT"
  | H5P_DATATYPE_CREATE => "H5P_DATATYPE_CREATE"
  | H5P_DATATYPE_CREATE_DEFAULT => "H5P_DATATYPE_CREATE_DEFAULT"
  | H5P_DATATYPE_ACCESS => "H5P_DATATYPE_ACCESS"
  | H5P_DATATYPE_ACCESS_DEFAULT => "H5P_DATATYPE_ACCESS_DEFAULT"
  | H5P_STRING_CREATE => "H5P_STRING_CREATE"
  | H5P_ATTRIBUTE_CREATE => "H5P_ATTRIBUTE_CREATE"
  | H5P_ATTRIBUTE_CREATE_DEFAULT => "H5P_ATTRIBUTE_CREATE_DEFAULT"
  | H5P_OBJECT_COPY => "H5P_OBJECT_COPY"
  | H5P_OBJECT_COPY_DEFAULT => "H5P_OBJECT_COPY_DEFAULT"
  | H5P_LINK_CREATE => "H5P_LINK_CREATE"
  | H5P_LINK_CREATE_DEFAULT => "H5P_LINK_CREATE_DEFAULT"
  | H5P_LINK_ACCESS => "H5P_LINK_ACCESS"
  | H5P_LINK_ACCESS_DEFAULT => "H5P_LINK_ACCESS_DEFAULT"
  | H5R_BADTYPE => "H5R_BADTYPE"
  | H5R_DATASET_REGION => "H5R_DATASET_REGION"
  | H5R_MAXTYPE => "H5R_MAXTYPE"
  | H5R_OBJ_REF_BUF_SIZE => "H5R_OBJ_REF_BUF_SIZE"
  | H5R_OBJECT => "H5R_OBJECT"
  | H5S_ALL => "H5S_ALL"
  | H5S_MAX_RANK => "H5S_MAX_RANK"
  | H5S_NO_CLASS => "H5S_NO_CLASS"
  | H5S_NULL => "H5S_NULL"
  | H5S_SCALAR => "H5S_SCALAR"
  | H5S_SEL_ALL => "H5S_SEL_ALL"
  | H5S_SEL_ERROR => "H5S_SEL_ERROR"
  | H5S_SEL_HYPERSLABS => "H5S_SEL_HYPERSLABS"
  | H5S_SEL_N => "H5S_SEL_N"
  | H5S_SEL_NONE => "H5S_SEL_NONE"
  | H5S_SEL_POINTS => "H5S_SEL_POINTS"
  | H5S_SELECT_AND => "H5S_SELECT_AND"
  | H5S_SELECT_APPEND => "H5S_SELECT_APPEND"
  | H5S_SELECT_INVALID => "H5S_SELECT_INVALID"
  | H5S_SELECT_NOOP => "H5S_SELECT_NOOP"
  | H5S_SELECT_NOTA => "H5S_SELECT_NOTA"
  | H5S_SELECT_NOTB => "H5S_SELECT_NOTB"
  | H5S_SELECT_OR => "H5S_SELECT_OR"
  | H5S_SELECT_PREPEND => "H5S_SELECT_PREPEND"
  | H5S_SELECT_SET => "H5S_SELECT_SET"
  | H5S_SELECT_XOR => "H5S_SELECT_XOR"
  | H5S_SIMPLE => "H5S_SIMPLE"
  | H5S_UNLIMITED => "H5S_UNLIMITED"
  | H5T_ALPHA_B16 => "H5T_ALPHA_B16"
  | H5T_ALPHA_B32 => "H5T_ALPHA_B32"
  | H5T_ALPHA_B64 => "H5T_ALPHA_B64"
  | H5T_ALPHA_B8 => "H5T_ALPHA_B8"
  | H5T_ALPHA_F32 => "H5T_ALPHA_F32"
  | H5T_ALPHA_F64 => "H5T_ALPHA_F64"
  | H5T_ALPHA_I16 => "H5T_ALPHA_I16"
  | H5T_ALPHA_I32 => "H5T_ALPHA_I32"
  | H5T_ALPHA_I64 => "H5T_ALPHA_I64"
  | H5T_ALPHA_I8 => "H5T_ALPHA_I8"
  | H5T_ALPHA_U16 => "H5T_ALPHA_U16"
  | H5T_ALPHA_U32 => "H5T_ALPHA_U32"
  | H5T_ALPHA_U64 => "H5T_ALPHA_U64"
  | H5T_ALPHA_U8 => "H5T_ALPHA_U8"
  | H5T_ARRAY => "H5T_ARRAY"
  | H5T_BITFIELD => "H5T_BITFIELD"
  | H5T_BKG_NO => "H5T_BKG_NO"
  | H5T_BKG_YES => "H5T_BKG_YES"
  | H5T_C_S1 => "H5T_C_S1"
  | H5T_COMPOUND => "H5T_COMPOUND"
  | H5T_CONV_CONV => "H5T_CONV_CONV"
  | H5T_CONV_FREE => "H5T_CONV_FREE"
  | H5T_CONV_INIT => "H5T_CONV_INIT"
  | H5T_CSET_ASCII => "H5T_CSET_ASCII"
  | H5T_CSET_ERROR => "H5T_CSET_ERROR"
  | H5T_CSET_RESERVED_10 => "H5T_CSET_RESERVED_10"
  | H5T_CSET_RESERVED_11 => "H5T_CSET_RESERVED_11"
  | H5T_CSET_RESERVED_12 => "H5T_CSET_RESERVED_12"
  | H5T_CSET_RESERVED_13 => "H5T_CSET_RESERVED_13"
  | H5T_CSET_RESERVED_14 => "H5T_CSET_RESERVED_14"
  | H5T_CSET_RESERVED_15 => "H5T_CSET_RESERVED_15"
  | H5T_CSET_RESERVED_2 => "H5T_CSET_RESERVED_2"
  | H5T_CSET_RESERVED_3 => "H5T_CSET_RESERVED_3"
  | H5T_CSET_RESERVED_4 => "H5T_CSET_RESERVED_4"
  | H5T_CSET_RESERVED_5 => "H5T_CSET_RESERVED_5"
  | H5T_CSET_RESERVED_6 => "H5T_CSET_RESERVED_6"
  | H5T_CSET_RESERVED_7 => "H5T_CSET_RESERVED_7"
  | H5T_CSET_RESERVED_8 => "H5T_CSET_RESERVED_8"
  | H5T_CSET_RESERVED_9 => "H5T_CSET_RESERVED_9"
  | H5T_DIR_ASCEND => "H5T_DIR_ASCEND"
  | H5T_DIR_DEFAULT => "H5T_DIR_DEFAULT"
  | H5T_DIR_DESCEND => "H5T_DIR_DESCEND"
  | H5T_ENUM => "H5T_ENUM"
  | H5T_FLOAT => "H5T_FLOAT"
  | H5T_FORTRAN_S1 => "H5T_FORTRAN_S1"
  | H5T_IEEE_F32BE => "H5T_IEEE_F32BE"
  | H5T_IEEE_F32LE => "H5T_IEEE_F32LE"
  | H5T_IEEE_F64BE => "H5T_IEEE_F64BE"
  | H5T_IEEE_F64LE => "H5T_IEEE_F64LE"
  | H5T_INTEGER => "H5T_INTEGER"
  | H5T_INTEL_B16 => "H5T_INTEL_B16"
  | H5T_INTEL_B32 => "H5T_INTEL_B32"
  | H5T_INTEL_B64 => "H5T_INTEL_B64"
  | H5T_INTEL_B8 => "H5T_INTEL_B8"
  | H5T_INTEL_F32 => "H5T_INTEL_F32"
  | H5T_INTEL_F64 => "H5T_INTEL_F64"
  | H5T_INTEL_I16 => "H5T_INTEL_I16"
  | H5T_INTEL_I32 => "H5T_INTEL_I32"
  | H5T_INTEL_I64 => "H5T_INTEL_I64"
  | H5T_INTEL_I8 => "H5T_INTEL_I8"
  | H5T_INTEL_U16 => "H5T_INTEL_U16"
  | H5T_INTEL_U32 => "H5T_INTEL_U32"
  | H5T_INTEL_U64 => "H5T_INTEL_U64"
  | H5T_INTEL_U8 => "H5T_INTEL_U8"
  | H5T_MIPS_B16 => "H5T_MIPS_B16"
  | H5T_MIPS_B32 => "H5T_MIPS_B32"
  | H5T_MIPS_B64 => "H5T_MIPS_B64"
  | H5T_MIPS_B8 => "H5T_MIPS_B8"
  | H5T_MIPS_F32 => "H5T_MIPS_F32"
  | H5T_MIPS_F64 => "H5T_MIPS_F64"
  | H5T_MIPS_I16 => "H5T_MIPS_I16"
  | H5T_MIPS_I32 => "H5T_MIPS_I32"
  | H5T_MIPS_I64 => "H5T_MIPS_I64"
  | H5T_MIPS_I8 => "H5T_MIPS_I8"
  | H5T_MIPS_U16 => "H5T_MIPS_U16"
  | H5T_MIPS_U32 => "H5T_MIPS_U32"
  | H5T_MIPS_U64 => "H5T_MIPS_U64"
  | H5T_MIPS_U8 => "H5T_MIPS_U8"
  | H5T_NATIVE_B16 => "H5T_NATIVE_B16"
  | H5T_NATIVE_B32 => "H5T_NATIVE_B32"
  | H5T_NATIVE_B64 => "H5T_NATIVE_B64"
  | H5T_NATIVE_B8 => "H5T_NATIVE_B8"
  | H5T_NATIVE_CHAR => "H5T_NATIVE_CHAR"
  | H5T_NATIVE_DOUBLE => "H5T_NATIVE_DOUBLE"
  | H5T_NATIVE_FLOAT => "H5T_NATIVE_FLOAT"
  | H5T_NATIVE_HADDR => "H5T_NATIVE_HADDR"
  | H5T_NATIVE_HBOOL => "H5T_NATIVE_HBOOL"
  | H5T_NATIVE_HERR => "H5T_NATIVE_HERR"
  | H5T_NATIVE_HSIZE => "H5T_NATIVE_HSIZE"
  | H5T_NATIVE_HSSIZE => "H5T_NATIVE_HSSIZE"
  | H5T_NATIVE_INT => "H5T_NATIVE_INT"
  | H5T_NATIVE_INT_FAST16 => "H5T_NATIVE_INT_FAST16"
  | H5T_NATIVE_INT_FAST32 => "H5T_NATIVE_INT_FAST32"
  | H5T_NATIVE_INT_FAST64 => "H5T_NATIVE_INT_FAST64"
  | H5T_NATIVE_INT_FAST8 => "H5T_NATIVE_INT_FAST8"
  | H5T_NATIVE_INT_LEAST16 => "H5T_NATIVE_INT_LEAST16"
  | H5T_NATIVE_INT_LEAST32 => "H5T_NATIVE_INT_LEAST32"
  | H5T_NATIVE_INT_LEAST64 => "H5T_NATIVE_INT_LEAST64"
  | H5T_NATIVE_INT_LEAST8 => "H5T_NATIVE_INT_LEAST8"
  | H5T_NATIVE_INT16 => "H5T_NATIVE_INT16"
  | H5T_NATIVE_INT32 => "H5T_NATIVE_INT32"
  | H5T_NATIVE_INT64 => "H5T_NATIVE_INT64"
  | H5T_NATIVE_INT8 => "H5T_NATIVE_INT8"
  | H5T_NATIVE_LDOUBLE => "H5T_NATIVE_LDOUBLE"
  | H5T_NATIVE_LLONG => "H5T_NATIVE_LLONG"
  | H5T_NATIVE_LONG => "H5T_NATIVE_LONG"
  | H5T_NATIVE_OPAQUE => "H5T_NATIVE_OPAQUE"
  | H5T_NATIVE_SCHAR => "H5T_NATIVE_SCHAR"
  | H5T_NATIVE_SHORT => "H5T_NATIVE_SHORT"
  | H5T_NATIVE_UCHAR => "H5T_NATIVE_UCHAR"
  | H5T_NATIVE_UINT => "H5T_NATIVE_UINT"
  | H5T_NATIVE_UINT_FAST16 => "H5T_NATIVE_UINT_FAST16"
  | H5T_NATIVE_UINT_FAST32 => "H5T_NATIVE_UINT_FAST32"
  | H5T_NATIVE_UINT_FAST64 => "H5T_NATIVE_UINT_FAST64"
  | H5T_NATIVE_UINT_FAST8 => "H5T_NATIVE_UINT_FAST8"
  | H5T_NATIVE_UINT_LEAST16 => "H5T_NATIVE_UINT_LEAST16"
  | H5T_NATIVE_UINT_LEAST32 => "H5T_NATIVE_UINT_LEAST32"
  | H5T_NATIVE_UINT_LEAST64 => "H5T_NATIVE_UINT_LEAST64"
  | H5T_NATIVE_UINT_LEAST8 => "H5T_NATIVE_UINT_LEAST8"
  | H5T_NATIVE_UINT16 => "H5T_NATIVE_UINT16"
  | H5T_NATIVE_UINT32 => "H5T_NATIVE_UINT32"
  | H5T_NATIVE_UINT64 => "H5T_NATIVE_UINT64"
  | H5T_NATIVE_UINT8 => "H5T_NATIVE_UINT8"
  | H5T_NATIVE_ULLONG => "H5T_NATIVE_ULLONG"
  | H5T_NATIVE_ULONG => "H5T_NATIVE_ULONG"
  | H5T_NATIVE_USHORT => "H5T_NATIVE_USHORT"
  | H5T_NCLASSES => "H5T_NCLASSES"
  | H5T_NO_CLASS => "H5T_NO_CLASS"
  | H5T_NORM_ERROR => "H5T_NORM_ERROR"
  | H5T_NORM_IMPLIED => "H5T_NORM_IMPLIED"
  | H5T_NORM_MSBSET => "H5T_NORM_MSBSET"
  | H5T_NORM_NONE => "H5T_NORM_NONE"
  | H5T_NPAD => "H5T_NPAD"
  | H5T_NSGN => "H5T_NSGN"
  | H5T_OPAQUE => "H5T_OPAQUE"
  | H5T_OPAQUE_TAG_MAX => "H5T_OPAQUE_TAG_MAX"
  | H5T_ORDER_BE => "H5T_ORDER_BE"
  | H5T_ORDER_ERROR => "H5T_ORDER_ERROR"
  | H5T_ORDER_LE => "H5T_ORDER_LE"
  | H5T_ORDER_NONE => "H5T_ORDER_NONE"
  | H5T_ORDER_VAX => "H5T_ORDER_VAX"
  | H5T_PAD_BACKGROUND => "H5T_PAD_BACKGROUND"
  | H5T_PAD_ERROR => "H5T_PAD_ERROR"
  | H5T_PAD_ONE => "H5T_PAD_ONE"
  | H5T_PAD_ZERO => "H5T_PAD_ZERO"
  | H5T_PERS_DONTCARE => "H5T_PERS_DONTCARE"
  | H5T_PERS_HARD => "H5T_PERS_HARD"
  | H5T_PERS_SOFT => "H5T_PERS_SOFT"
  | H5T_REFERENCE => "H5T_REFERENCE"
  | H5T_SGN_2 => "H5T_SGN_2"
  | H5T_SGN_ERROR => "H5T_SGN_ERROR"
  | H5T_SGN_NONE => "H5T_SGN_NONE"
  | H5T_STD_B16BE => "H5T_STD_B16BE"
  | H5T_STD_B16LE => "H5T_STD_B16LE"
  | H5T_STD_B32BE => "H5T_STD_B32BE"
  | H5T_STD_B32LE => "H5T_STD_B32LE"
  | H5T_STD_B64BE => "H5T_STD_B64BE"
  | H5T_STD_B64LE => "H5T_STD_B64LE"
  | H5T_STD_B8BE => "H5T_STD_B8BE"
  | H5T_STD_B8LE => "H5T_STD_B8LE"
  | H5T_STD_I16BE => "H5T_STD_I16BE"
  | H5T_STD_I16LE => "H5T_STD_I16LE"
  | H5T_STD_I32BE => "H5T_STD_I32BE"
  | H5T_STD_I32LE => "H5T_STD_I32LE"
  | H5T_STD_I64BE => "H5T_STD_I64BE"
  | H5T_STD_I64LE => "H5T_STD_I64LE"
  | H5T_STD_I8BE => "H5T_STD_I8BE"
  | H5T_STD_I8LE => "H5T_STD_I8LE"
  | H5T_STD_REF_DSETREG => "H5T_STD_REF_DSETREG"
  | H5T_STD_REF_OBJ => "H5T_STD_REF_OBJ"
  | H5T_STD_U16BE => "H5T_STD_U16BE"
  | H5T_STD_U16LE => "H5T_STD_U16LE"
  | H5T_STD_U32BE => "H5T_STD_U32BE"
  | H5T_STD_U32LE => "H5T_STD_U32LE"
  | H5T_STD_U64BE => "H5T_STD_U64BE"
  | H5T_STD_U64LE => "H5T_STD_U64LE"
  | H5T_STD_U8BE => "H5T_STD_U8BE"
  | H5T_STD_U8LE => "H5T_STD_U8LE"
  | H5T_STR_ERROR => "H5T_STR_ERROR"
  | H5T_STR_NULLPAD => "H5T_STR_NULLPAD"
  | H5T_STR_NULLTERM => "H5T_STR_NULLTERM"
  | H5T_STR_RESERVED_10 => "H5T_STR_RESERVED_10"
  | H5T_STR_RESERVED_11 => "H5T_STR_RESERVED_11"
  | H5T_STR_RESERVED_12 => "H5T_STR_RESERVED_12"
  | H5T_STR_RESERVED_13 => "H5T_STR_RESERVED_13"
  | H5T_STR_RESERVED_14 => "H5T_STR_RESERVED_14"
  | H5T_STR_RESERVED_15 => "H5T_STR_RESERVED_15"
  | H5T_STR_RESERVED_3 => "H5T_STR_RESERVED_3"
  | H5T_STR_RESERVED_4 => "H5T_STR_RESERVED_4"
  | H5T_STR_RESERVED_5 => "H5T_STR_RESERVED_5"
  | H5T_STR_RESERVED_6 => "H5T_STR_RESERVED_6"
  | H5T_STR_RESERVED_7 => "H5T_STR_RESERVED_7"
  | H5T_STR_RESERVED_8 => "H5T_STR_RESERVED_8"
  | H5T_STR_RESERVED_9 => "H5T_STR_RESERVED_9"
  | H5T_STR_SPACEPAD => "H5T_STR_SPACEPAD"
  | H5T_STRING => "H5T_STRING"
  | H5T_TIME => "H5T_TIME"
  | H5T_UNIX_D32BE => "H5T_UNIX_D32BE"
  | H5T_UNIX_D32LE => "H5T_UNIX_D32LE"
  | H5T_UNIX_D64BE => "H5T_UNIX_D64BE"
  | H5T_UNIX_D64LE => "H5T_UNIX_D64LE"
  | H5T_VARIABLE => "H5T_VARIABLE"
  | H5T_VLEN => "H5T_VLEN"
  | H5Z_CB_CONT => "H5Z_CB_CONT"
  | H5Z_CB_ERROR => "H5Z_CB_ERROR"
  | H5Z_CB_FAIL => "H5Z_CB_FAIL"
  | H5Z_CB_NO => "H5Z_CB_NO"
  | H5Z_DISABLE_EDC => "H5Z_DISABLE_EDC"
  | H5Z_ENABLE_EDC => "H5Z_ENABLE_EDC"
  | H5Z_ERROR_EDC => "H5Z_ERROR_EDC"
  | H5Z_FILTER_DEFLATE => "H5Z_FILTER_DEFLATE"
  | H5Z_FILTER_ERROR => "H5Z_FILTER_ERROR"
  | H5Z_FILTER_FLETCHER32 => "H5Z_FILTER_FLETCHER32"
  | H5Z_FILTER_MAX => "H5Z_FILTER_MAX"
  | H5Z_FILTER_NONE => "H5Z_FILTER_NONE"
  | H5Z_FILTER_RESERVED => "H5Z_FILTER_RESERVED"
  | H5Z_FILTER_SHUFFLE => "H5Z_FILTER_SHUFFLE"
  | H5Z_FILTER_SZIP => "H5Z_FILTER_SZIP"
  | H5Z_FLAG_DEFMASK => "H5Z_FLAG_DEFMASK"
  | H5Z_FLAG_INVMASK => "H5Z_FLAG_INVMASK"
  | H5Z_FLAG_MANDATORY => "H5Z_FLAG_MANDATORY"
  | H5Z_FLAG_OPTIONAL => "H5Z_FLAG_OPTIONAL"
  | H5Z_FLAG_REVERSE => "H5Z_FLAG_REVERSE"
  | H5Z_FLAG_SKIP_EDC => "H5Z_FLAG_SKIP_EDC"
  | H5Z_MAX_NFILTERS => "H5Z_MAX_NFILTERS"
  | H5Z_NO_EDC => "H5Z_NO_EDC"
  | H5Z_FILTER_CONFIG_ENCODE_ENABLED => "H5Z_FILTER_CONFIG_ENCODE_ENABLED"
  | H5Z_FILTER_CONFIG_DECODE_ENABLED => "H5Z_FILTER_CONFIG_DECODE_ENABLED"
  end.

(** Every symbol, in the order of the declaration of [H5sym]. *)
Definition H5sym_all : list H5sym :=
  [H5_SZIP_MAX_PIXELS_PER_BLOCK; H5_SZIP_NN_OPTION_MASK;
    H5_SZIP_EC_OPTION_MASK; H5_SZIP_ALLOW_K13_OPTION_MASK;
    H5_SZIP_CHIP_OPTION_MASK; H5D_ALLOC_TIME_DEFAULT; H5D_ALLOC_TIME_EARLY;
    H5D_ALLOC_TIME_ERROR; H5D_ALLOC_TIME_INCR; H5D_ALLOC_TIME_LATE;
    H5D_CHUNKED; H5D_COMPACT; H5D_CONTIGUOUS; H5D_FILL_TIME_ALLOC;
    H5D_FILL_TIME_ERROR; H5D_FILL_TIME_NEVER; H5D_FILL_VALUE_DEFAULT;
    H5D_FILL_VALUE_ERROR; H5D_FILL_VALUE_UNDEFINED;
    H5D_FILL_VALUE_USER_DEFINED; H5D_LAYOUT_ERROR; H5D_NLAYOUTS;
    H5D_SPACE_STATUS_ALLOCATED; H5D_SPACE_STATUS_ERROR;
    H5D_SPACE_STATUS_NOT_ALLOCATED; H5D_SPACE_STATUS_PART_ALLOCATED;
    H5E_ALIGNMENT; H5E_ALREADYEXISTS; H5E_ALREADYINIT; H5E_ARGS; H5E_ATOM;
    H5E_ATTR; H5E_BADATOM; H5E_BADFILE; H5E_BADGROUP; H5E_BADMESG;
    H5E_BADRANGE; H5E_BADSELECT; H5E_BADSIZE; H5E_BADTYPE; H5E_BADVALUE;
    H5E_BTREE; H5E_CACHE; H5E_CALLBACK; H5E_CANAPPLY; H5E_CANTCLIP;
    H5E_CANTCLOSEFILE; H5E_CANTCONVERT; H5E_CANTCOPY; H5E_CANTCOUNT;
    H5E_CANTCREATE; H5E_CANTDEC; H5E_CANTDECODE; H5E_CANTDELETE;
    H5E_CANTENCODE; H5E_CANTFLUSH; H5E_CANTFREE; H5E_CANTGET; H5E_CANTINC;
    H5E_CANTINIT; H5E_CANTINSERT; H5E_CANTLIST; H5E_CANTLOAD; H5E_CANTLOCK;
    H5E_CANTNEXT; H5E_CANTOPENFILE; H5E_CANTOPENOBJ; H5E_CANTREGISTER;
    H5E_CANTRELEASE; H5E_CANTSELECT; H5E_CANTSET; H5E_CANTSPLIT;
    H5E_CANTUNLOCK; H5E_CLOSEERROR; H5E_COMPLEN; H5E_DATASET; H5E_DATASPACE;
    H5E_DATATYPE; H5E_DUPCLASS; H5E_EFL; H5E_EXISTS; H5E_FCNTL; H5E_FILE;
    H5E_FILEEXISTS; H5E_FILEOPEN; H5E_FUNC; H5E_HEAP; H5E_INTERNAL; H5E_IO;
    H5E_LINK; H5E_LINKCOUNT; H5E_MOUNT; H5E_MPI; H5E_MPIERRSTR; H5E_NOFILTER;
    H5E_NOIDS; H5E_NONE_MAJOR; H5E_NONE_MINOR; H5E_NOSPACE; H5E_NOTCACHED;
    H5E_NOTFOUND; H5E_NOTHDF5; H5E_OHDR; H5E_OVERFLOW; H5E_PLINE; H5E_PLIST;
    H5E_PROTECT; H5E_READERROR; H5E_REFERENCE; H5E_RESOURCE; H5E_RS;
    H5E_SEEKERROR; H5E_SETLOCAL; H5E_STORAGE; H5E_SYM; H5E_TRUNCATED;
    H5E_TST; H5E_UNINITIALIZED; H5E_UNSUPPORTED; H5E_VERSION; H5E_VFL;
    H5E_WALK_DOWNWARD; H5E_WALK_UPWARD; H5E_WRITEERROR; H5F_ACC_CREAT;
    H5F_ACC_DEBUG; H5F_ACC_EXCL; H5F_ACC_RDONLY; H5F_ACC_RDWR; H5F_ACC_TRUNC;
    H5F_CLOSE_DEFAULT; H5F_CLOSE_SEMI; H5F_CLOSE_STRONG; H5F_CLOSE_WEAK;
    H5F_OBJ_ALL; H5F_OBJ_DATASET; H5F_OBJ_DATATYPE; H5F_OBJ_FILE;
    H5F_OBJ_ATTR; H5F_OBJ_GROUP; H5F_SCOPE_DOWN; H5F_SCOPE_GLOBAL;
    H5F_SCOPE_LOCAL; H5F_UNLIMITED; H5F_LIBVER_EARLIEST; H5F_LIBVER_LATEST;
    H5G_DATASET; H5G_GROUP; H5G_LINK; H5G_LINK_ERROR; H5G_LINK_HARD;
    H5G_LINK_SOFT; H5G_NLIBTYPES; H5G_NTYPES; H5G_NUSERTYPES; H5G_RESERVED_5;
    H5G_RESERVED_6; H5G_RESERVED_7; H5G_SAME_LOC; H5G_TYPE; H5G_UNKNOWN;
    H5I_ATTR; H5I_BADID; H5I_DATASET; H5I_DATASPACE; H5I_DATATYPE; H5I_FILE;
    H5I_GENPROP_CLS; H5I_GENPROP_LST; H5I_GROUP; H5I_INVALID_HID;
    H5I_REFERENCE; H5I_VFL; H5O_TYPE_UNKNOWN; H5O_TYPE_GROUP;
    H5O_TYPE_DATASET; H5O_TYPE_NAMED_DATATYPE; H5O_TYPE_NTYPES;
    H5L_TYPE_ERROR; H5L_TYPE_HARD; H5L_TYPE_SOFT; H5L_TYPE_EXTERNAL;
    H5L_TYPE_MAX; H5P_DATASET_CREATE; H5P_DATASET_CREATE_DEFAULT;
    H5P_DATASET_XFER; H5P_DATASET_XFER_DEFAULT; H5P_FILE_ACCESS;
    H5P_FILE_ACCESS_DEFAULT; H5P_FILE_CREATE; H5P_FILE_CREATE_DEFAULT;
    H5P_DEFAULT; H5P_NO_CLASS; H5P_ROOT; H5P_OBJECT_CREATE;
    H5P_DATASET_ACCESS; H5P_DATASET_ACCESS_DEFAULT; H5P_FILE_MOUNT;
    H5P_FILE_MOUNT_DEFAULT; H5P_GROUP_CREATE; H5P_GROUP_CREATE_DEFAULT;
    H5P_GROUP_ACCESS; H5P_GROUP_ACCESS_DEFAULT; H5P_DATATYPE_CREATE;
    H5P_DATATYPE_CREATE_DEFAULT; H5P_DATATYPE_ACCESS;
    H5P_DATATYPE_ACCESS_DEFAULT; H5P_STRING_CREATE; H5P_ATTRIBUTE_CREATE;
    H5P_ATTRIBUTE_CREATE_DEFAULT; H5P_OBJECT_COPY; H5P_OBJECT_COPY_DEFAULT;
    H5P_LINK_CREATE; H5P_LINK_CREATE_DEFAULT; H5P_LINK_ACCESS;
    H5P_LINK_ACCESS_DEFAULT; H5R_BADTYPE; H5R_DATASET_REGION; H5R_MAXTYPE;
    H5R_OBJ_REF_BUF_SIZE; H5R_OBJECT; H5S_ALL; H5S_MAX_RANK; H5S_NO_CLASS;
    H5S_NULL; H5S_SCALAR; H5S_SEL_ALL; H5S_SEL_ERROR; H5S_SEL_HYPERSLABS;
    H5S_SEL_N; H5S_SEL_NONE; H5S_SEL_POINTS; H5S_SELECT_AND;
    H5S_SELECT_APPEND; H5S_SELECT_INVALID; H5S_SELECT_NOOP; H5S_SELECT_NOTA;
    H5S_SELECT_NOTB; H5S_SELECT_OR; H5S_SELECT_PREPEND; H5S_SELECT_SET;
    H5S_SELECT_XOR; H5S_SIMPLE; H5S_UNLIMITED; H5T_ALPHA_B16; H5T_ALPHA_B32;
    H5T_ALPHA_B64; H5T_ALPHA_B8; H5T_ALPHA_F32; H5T_ALPHA_F64; H5T_ALPHA_I16;
    H5T_ALPHA_I32; H5T_ALPHA_I64; H5T_ALPHA_I8; H5T_ALPHA_U16; H5T_ALPHA_U32;
    H5T_ALPHA_U64; H5T_ALPHA_U8; H5T_ARRAY; H5T_BITFIELD; H5T_BKG_NO;
    H5T_BKG_YES; H5T_C_S1; H5T_COMPOUND; H5T_CONV_CONV; H5T_CONV_FREE;
    H5T_CONV_INIT; H5T_CSET_ASCII; H5T_CSET_ERROR; H5T_CSET_RESERVED_10;
    H5T_CSET_RESERVED_11; H5T_CSET_RESERVED_12; H5T_CSET_RESERVED_13;
    H5T_CSET_RESERVED_14; H5T_CSET_RESERVED_15; H5T_CSET_RESERVED_2;
    H5T_CSET_RESERVED_3; H5T_CSET_RESERVED_4; H5T_CSET_RESERVED_5;
    H5T_CSET_RESERVED_6; H5T_CSET_RESERVED_7; H5T_CSET_RESERVED_8;
    H5T_CSET_RESERVED_9; H5T_DIR_ASCEND; H5T_DIR_DEFAULT; H5T_DIR_DESCEND;
    H5T_ENUM; H5T_FLOAT; H5T_FORTRAN_S1; H5T_IEEE_F32BE; H5T_IEEE_F32LE;
    H5T_IEEE_F64BE; H5T_IEEE_F64LE; H5T_INTEGER; H5T_INTEL_B16;
    H5T_INTEL_B32; H5T_INTEL_B64; H5T_INTEL_B8; H5T_INTEL_F32; H5T_INTEL_F64;
    H5T_INTEL_I16; H5T_INTEL_I32; H5T_INTEL_I64; H5T_INTEL_I8; H5T_INTEL_U16;
    H5T_INTEL_U32; H5T_INTEL_U64; H5T_INTEL_U8; H5T_MIPS_B16; H5T_MIPS_B32;
    H5T_MIPS_B64; H5T_MIPS_B8; H5T_MIPS_F32; H5T_MIPS_F64; H5T_MIPS_I16;
    H5T_MIPS_I32; H5T_MIPS_I64; H5T_MIPS_I8; H5T_MIPS_U16; H5T_MIPS_U32;
    H5T_MIPS_U64; H5T_MIPS_U8; H5T_NATIVE_B16; H5T_NATIVE_B32;
    H5T_NATIVE_B64; H5T_NATIVE_B8; H5T_NATIVE_CHAR; H5T_NATIVE_DOUBLE;
    H5T_NATIVE_FLOAT; H5T_NATIVE_HADDR; H5T_NATIVE_HBOOL; H5T_NATIVE_HERR;
    H5T_NATIVE_HSIZE; H5T_NATIVE_HSSIZE; H5T_NATIVE_INT;
    H5T_NATIVE_INT_FAST16; H5T_NATIVE_INT_FAST32; H5T_NATIVE_INT_FAST64;
    H5T_NATIVE_INT_FAST8; H5T_NATIVE_INT_LEAST16; H5T_NATIVE_INT_LEAST32;
    H5T_NATIVE_INT_LEAST64; H5T_NATIVE_INT_LEAST8; H5T_NATIVE_INT16;
    H5T_NATIVE_INT32; H5T_NATIVE_INT64; H5T_NATIVE_INT8; H5T_NATIVE_LDOUBLE;
    H5T_NATIVE_LLONG; H5T_NATIVE_LONG; H5T_NATIVE_OPAQUE; H5T_NATIVE_SCHAR;
    H5T_NATIVE_SHORT; H5T_NATIVE_UCHAR; H5T_NATIVE_UINT;
    H5T_NATIVE_UINT_FAST16; H5T_NATIVE_UINT_FAST32; H5T_NATIVE_UINT_FAST64;
    H5T_NATIVE_UINT_FAST8; H5T_NATIVE_UINT_LEAST16; H5T_NATIVE_UINT_LEAST32;
    H5T_NATIVE_UINT_LEAST64; H5T_NATIVE_UINT_LEAST8; H5T_NATIVE_UINT16;
    H5T_NATIVE_UINT32; H5T_NATIVE_UINT64; H5T_NATIVE_UINT8;
    H5T_NATIVE_ULLONG; H5T_NATIVE_ULONG; H5T_NATIVE_USHORT; H5T_NCLASSES;
    H5T_NO_CLASS; H5T_NORM_ERROR; H5T_NORM_IMPLIED; H5T_NORM_MSBSET;
    H5T_NORM_NONE; H5T_NPAD; H5T_NSGN; H5T_OPAQUE; H5T_OPAQUE_TAG_MAX;
    H5T_ORDER_BE; H5T_ORDER_ERROR; H5T_ORDER_LE; H5T_ORDER_NONE;
    H5T_ORDER_VAX; H5T_PAD_BACKGROUND; H5T_PAD_ERROR; H5T_PAD_ONE;
    H5T_PAD_ZERO; H5T_PERS_DONTCARE; H5T_PERS_HARD; H5T_PERS_SOFT;
    H5T_REFERENCE; H5T_SGN_2; H5T_SGN_ERROR; H5T_SGN_NONE; H5T_STD_B16BE;
    H5T_STD_B16LE; H5T_STD_B32BE; H5T_STD_B32LE; H5T_STD_B64BE;
    H5T_STD_B64LE; H5T_STD_B8BE; H5T_STD_B8LE; H5T_STD_I16BE; H5T_STD_I16LE;
    H5T_STD_I32BE; H5T_STD_I32LE; H5T_STD_I64BE; H5T_STD_I64LE; H5T_STD_I8BE;
    H5T_STD_I8LE; H5T_STD_REF_DSETREG; H5T_STD_REF_OBJ; H5T_STD_U16BE;
    H5T_STD_U16LE; H5T_STD_U32BE; H5T_STD_U32LE; H5T_STD_U64BE;
    H5T_STD_U64LE; H5T_STD_U8BE; H5T_STD_U8LE; H5T_STR_ERROR;
    H5T_STR_NULLPAD; H5T_STR_NULLTERM; H5T_STR_RESERVED_10;
    H5T_STR_RESERVED_11; H5T_STR_RESERVED_12; H5T_STR_RESERVED_13;
    H5T_STR_RESERVED_14; H5T_STR_RESERVED_15; H5T_STR_RESERVED_3;
    H5T_STR_RESERVED_4; H5T_STR_RESERVED_5; H5T_STR_RESERVED_6;
    H5T_STR_RESERVED_7; H5T_STR_RESERVED_8; H5T_STR_RESERVED_9;
    H5T_STR_SPACEPAD; H5T_STRING; H5T_TIME; H5T_UNIX_D32BE; H5T_UNIX_D32LE;
    H5T_UNIX_D64BE; H5T_UNIX_D64LE; H5T_VARIABLE; H5T_VLEN; H5Z_CB_CONT;
    H5Z_CB_ERROR; H5Z_CB_FAIL; H5Z_CB_NO; H5Z_DISABLE_EDC; H5Z_ENABLE_EDC;
    H5Z_ERROR_EDC; H5Z_FILTER_DEFLATE; H5Z_FILTER_ERROR;
    H5Z_FILTER_FLETCHER32; H5Z_FILTER_MAX; H5Z_FILTER_NONE;
    H5Z_FILTER_RESERVED; H5Z_FILTER_SHUFFLE; H5Z_FILTER_SZIP;
    H5Z_FLAG_DEFMASK; H5Z_FLAG_INVMASK; H5Z_FLAG_MANDATORY;
    H5Z_FLAG_OPTIONAL; H5Z_FLAG_REVERSE; H5Z_FLAG_SKIP_EDC; H5Z_MAX_NFILTERS;
    H5Z_NO_EDC; H5Z_FILTER_CONFIG_ENCODE_ENABLED;
    H5Z_FILTER_CONFIG_DECODE_ENABLED ].

(** The symbol that bears a given name. *)
Definition H5sym_of_name (n : string) : option H5sym :=
  find (fun X => String.eqb n (H5sym_name X)) H5sym_all.

(** The exception a raiser with one string argument builds: the message is
    [None] when the string reference it passes is NULL. *)
Definition string_exception (cls : string) (message : option string)
  : jobject :=
  mkObject (mkClass cls) (mkMethod "<init>" "(Ljava/lang/String;)V")
           [JL (option_map mkString message); JL None].

(** The text a raiser passes to the one-string constructor; [h5libraryError]
    has none. *)
Definition raiser_message (r : raiser) : option string :=
  match r with
  | OutOfMemory f | JNIFatalError f | NullArgument f | BadArgument f
  | Unimplemented f => Some f
  | IllegalConstantError => Some "Illegal java constant"
  | LibraryError => None
  | RaiseException _ m => Some m
  end.

(** The same state with other contents in the automatic storage. *)
Definition with_indeterminate (garbage : H5E_num_t) (s : State) : State :=
  mkState (err_stack s) (major_mesg s) (minor_mesg s) garbage
          (thrown s) (stderr_out s) (disk s) (can_open s) (streams s)
          (next_fd s) (trace s).

(** The line [h5libraryError] prints when a message string is missing. *)
Definition out_of_memory_text : string :=
  "FATAL ERROR: h5libraryError: Out of Memory" ++ nl.

(** The smallest and the largest case label of [J2C]. *)
Definition lowest_label : Z := JH5_SZIP_MAX_PIXELS_PER_BLOCK.
Definition highest_label : Z := JH5P_LINK_ACCESS_DEFAULT.

(** The identifiers of the header that have no case in [J2C]. *)
Definition without_case : list string :=
  "JH5F_OBJ_LOCAL" :: commented_out_cases.

(** No string occurs twice. *)
Fixpoint distinct_names (l : list string) : bool :=
  match l with
  | [] => true
  | x :: rest => negb (existsb (String.eqb x) rest) && distinct_names rest
  end.

(** A runtime that cannot create strings, a state whose library has no
    message for any code, and a state in which no file can be opened. *)
Definition jvm_without_strings : JNIEnv :=
  mkEnv (fun _ => true) (fun _ _ _ => true) (fun _ => false)
        (fun _ _ _ => true) (fun _ => true) (fun _ => true).

Definition jvm_without_objects : JNIEnv :=
  mkEnv (fun _ => true) (fun _ _ _ => true) (fun _ => true)
        (fun _ _ _ => false) (fun _ => true) (fun _ => true).

Definition state_without_messages : State :=
  mkState sample_stack (fun _ => None) (fun _ => None) (mkNum 0 0) None []
          (fun _ => []) (fun _ => true) [] 3%nat [].

Definition state_without_files : State :=
  mkState sample_stack (fun _ => Some "major") (fun _ => Some "minor")
          (mkNum 0 0) None [] (fun _ => []) (fun _ => false) [] 3%nat [].

(** * Properties *)

(** ** Machine integers *)

Lemma to_jint_range (v : Z) : in_jint (to_jint v).
Proof.
  unfold in_jint, to_jint.
  pose proof (Z.mod_pos_bound (v + 2 ^ 31) (2 ^ 32) ltac:(lia)). lia.
Qed.

Lemma to_jint_id (v : Z) : in_jint v -> to_jint v = v.
Proof.
  unfold in_jint, to_jint. intros Hv.
  rewrite Z.mod_small by lia. lia.
Qed.

Lemma to_jint_idem (v : Z) : to_jint (to_jint v) = to_jint v.
Proof. apply to_jint_id, to_jint_range. Qed.

Lemma to_jint_congruent (v : Z) : to_jint v mod 2 ^ 32 = v mod 2 ^ 32.
Proof.
  unfold to_jint.
  rewrite Zminus_mod, Z.mod_mod by lia.
  rewrite <- Zminus_mod. f_equal. lia.
Qed.

Lemma to_jint_bits (v i : Z) :
  0 <= i < 32 -> Z.testbit (to_jint v) i = Z.testbit v i.
Proof.
  intros Hi.
  rewrite <- (Z.mod_pow2_bits_low (to_jint v) 32 i) by lia.
  rewrite <- (Z.mod_pow2_bits_low v 32 i) by lia.
  now rewrite to_jint_congruent.
Qed.

(** ** The [switch] construct *)

Lemma switch_None {A : Type} (x : Z) (cases : list (Z * A)) :
  switch x cases = None <-> ~ In x (map fst cases).
Proof.
  induction cases as [| [label body] rest IH]; simpl.
  - tauto.
  - destruct (Z.eqb_spec x label) as [-> | Hne].
    + split; [discriminate | intros H; exfalso; apply H; now left].
    + rewrite IH. split.
      * intros H [Heq | Hin]; [congruence | tauto].
      * intros H Hin. apply H. now right.
Qed.

Lemma switch_Some_In {A : Type} (x : Z) (cases : list (Z * A)) (body : A) :
  switch x cases = Some body -> In (x, body) cases.
Proof.
  induction cases as [| [label b] rest IH]; simpl; [discriminate |].
  destruct (Z.eqb_spec x label) as [-> | Hne].
  - intros [= ->]. now left.
  - intros H. right. now apply IH.
Qed.

Lemma switch_In {A : Type} (x : Z) (cases : list (Z * A)) (body : A) :
  NoDup (map fst cases) -> In (x, body) cases -> switch x cases = Some body.
Proof.
  induction cases as [| [label b] rest IH]; simpl; [tauto |].
  intros Hnd Hin. inversion Hnd as [| ? ? Hnotin Hnd']; subst.
  destruct Hin as [[= -> ->] | Hin].
  - now rewrite Z.eqb_refl.
  - destruct (Z.eqb_spec x label) as [-> | Hne].
    + exfalso. apply Hnotin.
      change label with (fst (label, body)). now apply in_map.
    + now apply IH.
Qed.

Lemma distinct_NoDup (l : list Z) : distinct l = true -> NoDup l.
Proof.
  induction l as [| x rest IH]; simpl; intros H; constructor.
  - apply andb_prop in H. destruct H as [H _].
    intros Hin. apply negb_true_iff in H.
    assert (existsb (Z.eqb x) rest = true) as Hex.
    { apply existsb_exists. exists x. split; [exact Hin | apply Z.eqb_refl]. }
    congruence.
  - apply IH. apply andb_prop in H. tauto.
Qed.

(** The case labels of [J2C] are pairwise distinct. *)
Lemma J2C_labels_distinct : NoDup (map fst J2C_cases).
Proof. apply distinct_NoDup. vm_compute. reflexivity. Qed.

(** ** The constant translator *)

(** A case of the switch returns at once, leaving the state as it was. *)
Lemma J2C_case_returns
    (hdf5 : H5sym -> Z) (env : JNIEnv) (java_constant : Z) (body : arm)
    (s : State) :
  In (java_constant, body) J2C_cases ->
  Java_ncsa_hdf_hdf5lib_H5_J2C hdf5 env java_constant s
    = (to_jint (hdf5 (arm_symbol body)), s).
Proof.
  intros Hin. unfold Java_ncsa_hdf_hdf5lib_H5_J2C.
  rewrite (switch_In _ _ _ J2C_labels_distinct Hin).
  destruct body; simpl; unfold ret; [reflexivity |].
  now rewrite to_jint_idem.
Qed.

(** Names determine symbols. *)
Lemma H5sym_of_name_name (X : H5sym) : H5sym_of_name (H5sym_name X) = Some X.
Proof. destruct X; vm_compute; reflexivity. Qed.

Lemma H5sym_name_injective (X Y : H5sym) :
  H5sym_name X = H5sym_name Y -> X = Y.
Proof.
  intros Heq.
  pose proof (H5sym_of_name_name X) as HX.
  rewrite Heq, H5sym_of_name_name in HX. now injection HX.
Qed.

(** An identifier with a case is defined in the header. *)
Lemma case_label_defined (java_constant : Z) :
  known java_constant ->
  exists name body,
    In (name, java_constant) h5Constants_h
    /\ In (java_constant, body) J2C_cases.
Proof.
  intros Hknown. unfold known in Hknown.
  apply in_map_iff in Hknown. destruct Hknown as [[k body] [Hk Hin]].
  cbn in Hk. subst k.
  assert (forallb (fun c : Z * arm =>
            existsb (fun d : string * Z => snd d =? fst c) h5Constants_h)
            J2C_cases = true) as Hall
    by (vm_compute; reflexivity).
  rewrite forallb_forall in Hall. specialize (Hall _ Hin).
  apply existsb_exists in Hall. destruct Hall as [[name k] [Hd Hk]].
  cbn [fst snd] in Hk. apply Z.eqb_eq in Hk. subst k.
  exists name, body. split; assumption.
Qed.

(** The symbol returned by a case bears the name of the identifier of the
    case, without the leading J. *)
Lemma case_symbol_named (name : string) (java_constant : Z) (body : arm) :
  In (name, java_constant) h5Constants_h ->
  In (java_constant, body) J2C_cases ->
  name = ("J" ++ H5sym_name (arm_symbol body))%string.
Proof.
  intros Hdef Hcase.
  assert (forallb (fun c : Z * arm =>
            forallb (fun d : string * Z =>
                       negb (snd d =? fst c)
                       || String.eqb (fst d)
                            ("J" ++ H5sym_name (arm_symbol (snd c)))%string)%bool
                    h5Constants_h) J2C_cases = true) as Hall
    by (vm_compute; reflexivity).
  rewrite forallb_forall in Hall. specialize (Hall _ Hcase).
  rewrite forallb_forall in Hall. specialize (Hall _ Hdef).
  cbn [fst snd] in Hall. rewrite Z.eqb_refl in Hall. cbn in Hall.
  now apply String.eqb_eq in Hall.
Qed.

(** C1.  For every identifier that has a case in the [J2C] switch, the
    header defines the identifier under a name JH5x, H5x being the name of a
    native symbol, and [J2C] returns the native library's value of that very
    symbol H5x, as a [jint]: the call changes nothing (no exception, no
    output, no external call), and the returned number is the native value
    itself whenever that value is representable in [jint]. *)
Theorem J2C_known_returns_native
    (hdf5 : H5sym -> Z) (env : JNIEnv) (java_constant : Z) (s : State) :
  known java_constant ->
  (exists name X,
      In (name, java_constant) h5Constants_h
      /\ name = ("J" ++ H5sym_name X)%string)
  /\ (forall name X,
        In (name, java_constant) h5Constants_h ->
        name = ("J" ++ H5sym_name X)%string ->
        Java_ncsa_hdf_hdf5lib_H5_J2C hdf5 env java_constant s
          = (to_jint (hdf5 X), s)
        /\ (in_jint (hdf5 X) ->
            fst (Java_ncsa_hdf_hdf5lib_H5_J2C hdf5 env java_constant s)
              = hdf5 X)).
Proof.
  intros Hknown.
  destruct (case_label_defined java_constant Hknown)
    as [name0 [body [Hdef0 Hcase]]].
  split.
  - exists name0, (arm_symbol body). split; [exact Hdef0 |].
    exact (case_symbol_named name0 java_constant body Hdef0 Hcase).
  - intros name X Hdef Hname.
    pose proof (case_symbol_named name java_constant body Hdef Hcase) as Hbody.
    rewrite Hname in Hbody. cbn in Hbody. injection Hbody as Hsame.
    apply H5sym_name_injective in Hsame. subst X.
    pose proof (J2C_case_returns hdf5 env java_constant body s Hcase) as Heq.
    split; [exact Heq |].
    intros Hrange. rewrite Heq. simpl. now apply to_jint_id.
Qed.

(** Unfolding the operations of the embedding down to state transformers. *)
Ltac run_bridge :=
  unfold h5outOfMemory, h5JNIFatalError, h5nullArgument, h5badArgument,
    h5unimplemented, h5illegalConstantError, h5raiseException, h5libraryError,
    getMajorErrorNumber, getMinorErrorNumber, uninitialised,
    H5Ewalk, H5Eget_major, H5Eget_minor, H5Eprint,
    FindClass, GetMethodID, NewStringUTF, NewObjectA, Throw,
    GetStringUTFChars, ReleaseStringUTFChars, fprintf, fclose, write,
    emit, modify, gets, bind, ret;
  cbn.

(** Splitting a conjunction of boolean tests into its components. *)
Ltac split_andb H :=
  repeat match type of H with
         | (_ && _)%bool = true =>
             let H' := fresh H in
             apply andb_prop in H; destruct H as [H H']
         end.

(** C2.  For every identifier without a case, [J2C] makes no call into the
    native library and writes nothing; and, the runtime being able to raise
    it, the caller receives the IllegalArgumentException built by the
    one-string constructor from the message [Illegal java constant],
    instead of a returned value. *)
Theorem J2C_unknown_raises_illegal_constant
    (hdf5 : H5sym -> Z) (env : JNIEnv) (java_constant : Z) (s : State) :
  ~ known java_constant ->
  let r := Java_ncsa_hdf_hdf5lib_H5_J2C hdf5 env java_constant s in
  (exists events,
      trace (snd r) = trace s ++ events
      /\ filter is_native_call events = [])
  /\ (can_raise env illegal_constant_exception = true ->
      outcome r = Raised illegal_constant_exception
      /\ stderr_out (snd r) = stderr_out s).
Proof.
  intros Hunknown. apply switch_None in Hunknown.
  unfold Java_ncsa_hdf_hdf5lib_H5_J2C. rewrite Hunknown. split.
  - run_bridge.
    destruct (loads_class env _); cbn;
      [| eexists; split; [reflexivity | reflexivity]].
    destruct (has_method env _ _ _); cbn;
      [| eexists; split; [rewrite <- !app_assoc; reflexivity | reflexivity]].
    destruct (allocs_string env _); cbn;
      destruct (allocs_object env _ _ _); cbn;
      try destruct (accepts_throw env _); cbn;
      eexists; (split; [rewrite <- !app_assoc; reflexivity | reflexivity]).
  - intros Hcan. unfold can_raise in Hcan. cbn in Hcan. split_andb Hcan.
    rewrite andb_true_r in Hcan2.
    unfold outcome. run_bridge.
    rewrite Hcan. cbn. rewrite Hcan3. cbn. rewrite Hcan2. cbn.
    rewrite Hcan1. cbn.
    change (mkObject _ _ _) with illegal_constant_exception.
    rewrite Hcan0. cbn. split; reflexivity.
Qed.

(** C5 as amended.  Every identifier defined in [h5Constants.h], other than
    JH5E_CANTMAKETREE, JH5G_USERTYPE and JH5I_FILE_CLOSING (whose cases are
    commented out in the switch) and leaving JH5F_OBJ_LOCAL aside, has a case
    in [J2C], so that [J2C] returns the native value for it and raises
    nothing; for the three identifiers whose cases are commented out the
    switch reaches the default label. *)
Theorem header_identifiers_translated (name : string) (java_constant : Z) :
  In (name, java_constant) h5Constants_h ->
  (named_in ("JH5F_OBJ_LOCAL" :: commented_out_cases) name = false ->
   exists body,
     In (java_constant, body) J2C_cases
     /\ forall hdf5 env s,
         Java_ncsa_hdf_hdf5lib_H5_J2C hdf5 env java_constant s
           = (to_jint (hdf5 (arm_symbol body)), s))
  /\ (named_in commented_out_cases name = true ->
      switch java_constant J2C_cases = None).
Proof.
  intros Hin.
  assert (forallb (fun d =>
            (named_in ("JH5F_OBJ_LOCAL" :: commented_out_cases) (fst d)
             || has_case (snd d))
            && (negb (named_in commented_out_cases (fst d))
                || negb (has_case (snd d))))%bool h5Constants_h = true)
    as Hall by (vm_compute; reflexivity).
  rewrite forallb_forall in Hall. specialize (Hall _ Hin). cbn [fst snd] in Hall.
  apply andb_prop in Hall. destruct Hall as [Hhas Habsent]. split.
  - intros Hname. rewrite Hname in Hhas. cbn in Hhas.
    unfold has_case in Hhas.
    destruct (switch java_constant J2C_cases) as [body |] eqn:E;
      [| discriminate].
    exists body. apply switch_Some_In in E. split; [exact E |].
    intros hdf5 env s.
    apply (J2C_case_returns hdf5 env java_constant body s E).
  - intros Hname. rewrite Hname in Habsent. cbn in Habsent.
    unfold has_case in Habsent.
    destruct (switch java_constant J2C_cases); [discriminate | reflexivity].
Qed.

(** C10.  For JH5F_UNLIMITED and JH5S_UNLIMITED the case applies the
    [(int)] cast to the unsigned 64-bit native value: the returned [jint]
    has the bits of the native value in each of its 32 positions, it is not
    the native number when the top bit of the native value is set, and the
    all-ones sentinel comes back as -1. *)
Theorem unlimited_cast_keeps_bits
    (hdf5 : H5sym -> Z) (env : JNIEnv) (s : State)
    (java_constant : Z) (X : H5sym) :
  In (java_constant, X) unlimited_cases ->
  0 <= hdf5 X < 2 ^ 64 ->
  In (java_constant, return_int X) J2C_cases
  /\ exists r,
      Java_ncsa_hdf_hdf5lib_H5_J2C hdf5 env java_constant s = (r, s)
      /\ in_jint r
      /\ (forall i, 0 <= i < 32 -> Z.testbit r i = Z.testbit (hdf5 X) i)
      /\ (Z.testbit (hdf5 X) 63 = true -> r <> hdf5 X)
      /\ (hdf5 X = 2 ^ 64 - 1 -> r = -1).
Proof.
  intros Hin Hunsigned.
  assert (In (java_constant, return_int X) J2C_cases) as Hcase.
  { destruct Hin as [[= <- <-] | [[= <- <-] | []]];
      apply switch_Some_In; vm_compute; reflexivity. }
  split; [exact Hcase |].
  exists (to_jint (hdf5 X)).
  split; [exact (J2C_case_returns hdf5 env _ _ s Hcase) |].
  split; [apply to_jint_range |].
  split; [intros i Hi; now apply to_jint_bits |].
  split.
  - intros Htop Heq.
    pose proof (to_jint_range (hdf5 X)) as Hr. unfold in_jint in Hr.
    rewrite Heq in Hr.
    assert (Z.testbit (hdf5 X) 63 = false) as Hfalse.
    { apply Z.testbit_false; [lia |].
      rewrite Z.div_small by lia. reflexivity. }
    congruence.
  - intros ->. vm_compute. reflexivity.
Qed.

(** ** The error stack *)

Lemma walk_keeps_last (entries : list H5E_error_t) (e : H5E_error_t)
    (n : Z) (d : H5E_num_t) :
  walk_entries walk_error_callback n (entries ++ [e]) d
    = (0, mkNum (err_maj_num e) (err_min_num e)).
Proof.
  revert n d. induction entries as [| e' rest IH]; intros n d.
  - reflexivity.
  - cbn. apply IH.
Qed.

Lemma walk_nonempty (entries : list H5E_error_t) (e0 : H5E_error_t)
    (n : Z) (d : H5E_num_t) :
  entries <> [] ->
  walk_entries walk_error_callback n entries d
    = (0, mkNum (err_maj_num (last entries e0)) (err_min_num (last entries e0))).
Proof.
  intros Hne.
  destruct (exists_last Hne) as [front [e ->]].
  rewrite last_last. apply walk_keeps_last.
Qed.

Lemma last_rev_hd {A : Type} (l : list A) (d : A) : last (rev l) d = hd d l.
Proof.
  destruct l as [| a l]; [reflexivity |].
  cbn [rev hd]. apply last_last.
Qed.

(** C4.  With a non-empty error stack, [getMajorErrorNumber] and
    [getMinorErrorNumber] walk the stack downward and return the major and
    the minor code of the last entry the walk visits, which is slot 0 of the
    stack, the entry pushed first. *)
Theorem error_numbers_of_last_visited (s : State) (d : H5E_error_t) :
  err_stack s <> [] ->
  let visited := walk_order H5E_WALK_DOWNWARD (err_stack s) in
  fst (getMajorErrorNumber s) = err_maj_num (last visited d)
  /\ fst (getMinorErrorNumber s) = err_min_num (last visited d)
  /\ last visited d = hd d (err_stack s)
  /\ trace (snd (getMajorErrorNumber s))
       = trace s ++ [H5Ewalk_call H5E_WALK_DOWNWARD]
  /\ trace (snd (getMinorErrorNumber s))
       = trace s ++ [H5Ewalk_call H5E_WALK_DOWNWARD].
Proof.
  intros Hne visited. subst visited. cbn [walk_order].
  assert (rev (err_stack s) <> []) as Hvisited.
  { intros Hrev.
    apply (f_equal (@rev _)) in Hrev. rewrite rev_involutive in Hrev.
    contradiction. }
  run_bridge.
  rewrite (walk_nonempty (rev (err_stack s)) d 0 (indeterminate s) Hvisited).
  cbn. repeat split. apply last_rev_hd.
Qed.

(** C7 on the code.  With an empty error stack the callback is never
    invoked, and both functions return what the automatic storage of
    [err_nums] happened to contain: the result is not fixed by the error
    stack, whatever the rest of the state. *)
Theorem error_numbers_of_empty_stack
    (mm mn : Z -> option string) (garbage : H5E_num_t)
    (th : option jobject) (err : list output) (d : string -> list output)
    (co : string -> bool) (st : list (nat * string)) (nf : nat)
    (tr : list Event) :
  let s := mkState [] mm mn garbage th err d co st nf tr in
  fst (getMajorErrorNumber s) = maj_num garbage
  /\ fst (getMinorErrorNumber s) = min_num garbage.
Proof. split; reflexivity. Qed.

(** ** Classification of major codes *)

Lemma define_as_switch (hdf5 : H5sym -> Z) (n : Z) :
  defineHDF5LibraryException hdf5 n
    = match switch n (map (fun p => (hdf5 (fst p), snd p)) major_exceptions)
      with
      | Some name => name
      | None => generic_exception
      end.
Proof.
  unfold defineHDF5LibraryException. cbn [major_exceptions map switch fst snd].
  repeat (destruct (n =? _); [reflexivity |]). reflexivity.
Qed.

(** C3.  [defineHDF5LibraryException] yields a class name for every major
    code: the class of the category when the code is that of one of the 21
    recognised categories (the native codes of the categories being
    pairwise distinct), and HDF5LibraryException for every other code. *)
Theorem defineHDF5LibraryException_total (hdf5 : H5sym -> Z) :
  (forall n,
      In (defineHDF5LibraryException hdf5 n)
         (generic_exception :: map snd major_exceptions))
  /\ (NoDup (major_codes hdf5) ->
      forall X name,
        In (X, name) major_exceptions ->
        defineHDF5LibraryException hdf5 (hdf5 X) = name)
  /\ (forall n,
        ~ In n (major_codes hdf5) ->
        defineHDF5LibraryException hdf5 n = generic_exception).
Proof.
  set (table := map (fun p => (hdf5 (fst p), snd p)) major_exceptions).
  assert (map fst table = major_codes hdf5) as Hkeys.
  { unfold table, major_codes. rewrite map_map. reflexivity. }
  split; [| split].
  - intros n. rewrite define_as_switch. fold table.
    destruct (switch n table) as [name |] eqn:E; [| now left].
    right. apply switch_Some_In in E.
    unfold table in E. apply in_map_iff in E.
    destruct E as [[X name'] [[= _ <-] Hin]].
    change name' with (snd (X, name')). now apply in_map.
  - intros Hdistinct X name Hin. rewrite define_as_switch. fold table.
    rewrite (switch_In (hdf5 X) table name); [reflexivity | |].
    + now rewrite Hkeys.
    + unfold table.
      change (hdf5 X, name)
        with ((fun p : H5sym * string => (hdf5 (fst p), snd p)) (X, name)).
      now apply in_map.
  - intros n Hnot. rewrite define_as_switch. fold table.
    rewrite <- Hkeys in Hnot. apply switch_None in Hnot.
    now rewrite Hnot.
Qed.

(** ** Dumping the error stack *)

(** C9.  [printStackTrace0] leaves the table of open streams as it found
    it.  With a NULL file name it prints the error stack on [stderr] and
    touches no file.  With a file name it calls [fopen] on the name with mode
    [a+], prints on the stream obtained, and closes that stream as its last
    step whenever one was obtained; when the file opens, the stack is added
    at the end of that file and nothing goes to [stderr]. *)
Theorem printStackTrace0_closes_its_stream
    (env : JNIEnv) (file_name : option jstring) (s : State) :
  let r :=
    Java_ncsa_hdf_hdf5lib_exceptions_HDF5LibraryException_printStackTrace0
      env file_name s in
  streams (snd r) = streams s
  /\ match file_name with
     | None =>
         stderr_out (snd r) = stderr_out s ++ [ErrorStack (err_stack s)]
         /\ disk (snd r) = disk s
         /\ trace (snd r) = trace s ++ [H5Eprint_call (Some c_stderr)]
     | Some name =>
         exists opened : option nat,
           trace (snd r)
             = trace s
               ++ [JNI_GetStringUTFChars name;
                   C_fopen (if pins_chars env name then Some (utf name)
                            else None) "a+" opened;
                   H5Eprint_call (option_map c_file opened);
                   JNI_ReleaseStringUTFChars name]
               ++ match opened with
                  | Some fd => [C_fclose fd]
                  | None => []
                  end
           /\ (pins_chars env name = true ->
               can_open s (utf name) = true ->
               opened = Some (next_fd s)
               /\ disk (snd r)
                    = append_to (utf name) (ErrorStack (err_stack s)) (disk s)
               /\ stderr_out (snd r) = stderr_out s)
     end.
Proof.
  unfold
    Java_ncsa_hdf_hdf5lib_exceptions_HDF5LibraryException_printStackTrace0.
  destruct file_name as [name |].
  - run_bridge. unfold fopen.
    destruct (pins_chars env name) eqn:Hpin; cbn.
    + destruct (can_open s (utf name)) eqn:Hopen; cbn.
      * rewrite Nat.eqb_refl. cbn. rewrite Nat.eqb_refl. split; [reflexivity |].
        exists (Some (next_fd s)). rewrite <- !app_assoc. cbn.
        split; [reflexivity |]. intros _ _. repeat split.
      * split; [reflexivity |]. exists None. rewrite <- !app_assoc. cbn.
        split; [reflexivity |]. intros _ Habs. discriminate.
    + split; [reflexivity |]. exists None. rewrite <- !app_assoc. cbn.
      split; [reflexivity |]. intros Habs. discriminate.
  - run_bridge. repeat split.
Qed.

(** ** Raising *)

(** The two shapes of the trace of [h5libraryError]: no instantiation was
    requested, or exactly one. *)
Ltac trace_prefix :=
  eexists; rewrite <- ?app_assoc; cbn; split; [reflexivity |];
  split; [cbn; tauto |].

Ltac no_object :=
  trace_prefix; split;
  [ cbn; let H := fresh "H" in
    intros ? ? ? H;
    repeat destruct H as [H | H]; discriminate || contradiction
  | ].

Ltac one_object mj mn :=
  trace_prefix; split;
  [ cbn; let H := fresh "H" in
    intros ? ? ? H;
    repeat destruct H as [H | H]; try discriminate; try contradiction;
    injection H as <- <- <-; split; [tauto |];
    exists mj, mn; repeat split
  | ].

(** C8.  [h5libraryError] asks the native library for the two messages
    ([H5Eget_major], [H5Eget_minor]) during the call; whenever it
    instantiates an exception it does so through the constructor of
    signature (int, String, int, String) of the class chosen for the major
    code, with the arguments major code, major message, minor code, minor
    message, the messages being those of the library's tables in the state
    of the call; and when the runtime can raise that exception it becomes
    the pending exception and the result is JNI_TRUE. *)
Theorem h5libraryError_constructor_arguments
    (hdf5 : H5sym -> Z) (env : JNIEnv) (s : State) :
  let maj := fst (getMajorErrorNumber s) in
  let min := fst (getMinorErrorNumber s) in
  let r := h5libraryError hdf5 env s in
  exists events,
    trace (snd r) = trace s ++ events
    /\ In (H5Eget_major_call maj) events
    /\ (forall clazz ctor args,
          In (JNI_NewObjectA clazz ctor args) events ->
          In (H5Eget_minor_call min) events
          /\ exists maj_msg min_msg,
              major_mesg s maj = Some maj_msg
              /\ minor_mesg s min = Some min_msg
              /\ mkObject clazz ctor args
                   = library_exception hdf5 maj maj_msg min min_msg)
    /\ (forall maj_msg min_msg,
          major_mesg s maj = Some maj_msg ->
          minor_mesg s min = Some min_msg ->
          can_raise env (library_exception hdf5 maj maj_msg min min_msg)
            = true ->
          fst r = JNI_TRUE
          /\ thrown (snd r)
               = Some (library_exception hdf5 maj maj_msg min min_msg)
          /\ In (JNI_NewObjectA
                   (mkClass (defineHDF5LibraryException hdf5 maj))
                   (mkMethod "<init>"
                      "(ILjava/lang/String;ILjava/lang/String;)V")
                   [JI maj; JL (Some (mkString maj_msg));
                    JI min; JL (Some (mkString min_msg))]) events).
Proof.
  run_bridge.
  set (codes := snd (walk_entries walk_error_callback 0 (rev (err_stack s))
                                  (indeterminate s))).
  set (maj := maj_num codes). set (min := min_num codes).
  unfold can_raise, library_exception. cbn.
  destruct (loads_class env (defineHDF5LibraryException hdf5 maj)); cbn;
    [| no_object; intros ? ? _ _ H; discriminate].
  destruct (has_method env (defineHDF5LibraryException hdf5 maj) "<init>"
              "(ILjava/lang/String;ILjava/lang/String;)V"); cbn;
    [| no_object; intros ? ? _ _ H; discriminate].
  change (snd (walk_entries walk_error_callback 0 (rev (err_stack s))
                            (indeterminate s))) with codes.
  change (min_num codes) with min.
  destruct (major_mesg s maj) as [mj |] eqn:Emj; cbn;
    [| destruct (minor_mesg s min) as [mn |]; cbn;
       [destruct (allocs_string env mn); cbn |];
       no_object; intros ? ? H; discriminate].
  destruct (minor_mesg s min) as [mn |] eqn:Emn; cbn;
    [| destruct (allocs_string env mj); cbn;
       no_object; intros ? ? _ H; discriminate].
  destruct (allocs_string env mj) eqn:Esj; cbn;
    [| destruct (allocs_string env mn); cbn;
       no_object; intros ? ? [= <-] [= <-] H;
       rewrite ?andb_true_r in H; split_andb H; congruence].
  destruct (allocs_string env mn) eqn:Esn; cbn;
    [| no_object; intros ? ? [= <-] [= <-] H;
       rewrite ?andb_true_r in H; split_andb H; congruence].
  destruct (allocs_object env _ _ _) eqn:Eobj; cbn;
    [| one_object mj mn; intros ? ? [= <-] [= <-] H;
       rewrite ?andb_true_r in H; split_andb H; congruence].
  destruct (accepts_throw env _) eqn:Ethrow; cbn;
    [| one_object mj mn; intros ? ? [= <-] [= <-] H;
       rewrite ?andb_true_r in H; split_andb H; congruence].
  one_object mj mn. intros ? ? [= <-] [= <-] _. cbn. repeat split. tauto.
Qed.

(** Case analysis on membership in an explicit list of events. *)
Ltac in_cases H :=
  cbn in H;
  repeat (destruct H as [H | H]; [try discriminate H |]);
  try contradiction.

(** One conjunct of the contract of a raiser, on one path through it. *)
Ltac contract_item :=
  cbn; intros;
  repeat match goal with
         | H : exists _, _ |- _ => destruct H
         | H : _ /\ _ |- _ => destruct H
         end;
  repeat match goal with
         | H : In _ _ |- _ => in_cases H
         | H : _ \/ _ |- _ => in_cases H
         | H : False |- _ => contradiction
         end;
  repeat match goal with
         | H : JNI_Throw _ _ = JNI_Throw _ _ |- _ =>
             injection H as ? ?; subst
         end;
  try congruence; try discriminate; try lia;
  try (repeat split; reflexivity);
  try (left; reflexivity); try (right; reflexivity);
  try (eexists; split; [cbn; auto 12 | reflexivity]).

Ltac contract_path :=
  eexists; rewrite <- ?app_assoc; cbn;
  split; [reflexivity |];
  split; [contract_item |];
  split; [contract_item |];
  split; [contract_item |];
  split; [contract_item |];
  split; [split; contract_item |];
  contract_item.

(** The raisers that take one string: every path through them. *)
Ltac contract_one_string env :=
  run_bridge;
  destruct (loads_class env _) eqn:?; cbn; [| contract_path];
  destruct (has_method env _ _ _) eqn:?; cbn; [| contract_path];
  destruct (allocs_string env _) eqn:?; cbn;
  (destruct (allocs_object env _ _ _) eqn:?; cbn;
   [destruct (accepts_throw env _) eqn:?; cbn |]);
  contract_path.

(** C6 as amended.  For every raiser: the result is JNI_TRUE or JNI_FALSE;
    when the class is not found the result is JNI_FALSE, nothing is written
    to [stderr] and nothing is thrown; when the constructor is not found the
    result is JNI_FALSE and nothing is thrown; when the throw fails the
    result is JNI_FALSE, the raiser's own [Throw failed] line is written to
    [stderr] and nothing is thrown; the result is JNI_TRUE exactly when a
    throw was issued and succeeded; and every object handed to [Throw] is of
    the class the raiser looked up, built by the constructor it asked
    for. *)
Theorem raiser_failure_contract
    (hdf5 : H5sym -> Z) (env : JNIEnv) (r : raiser) (s : State) :
  let res := run_raiser hdf5 env r s in
  let cls := raiser_class hdf5 r s in
  exists events,
    trace (snd res) = trace s ++ events
    /\ (fst res = JNI_TRUE \/ fst res = JNI_FALSE)
    /\ (loads_class env cls = false ->
        fst res = JNI_FALSE
        /\ stderr_out (snd res) = stderr_out s
        /\ thrown (snd res) = thrown s)
    /\ (has_method env cls "<init>" (raiser_signature r) = false ->
        fst res = JNI_FALSE /\ thrown (snd res) = thrown s)
    /\ (forall obj rval,
          In (JNI_Throw obj rval) events -> rval < 0 ->
          fst res = JNI_FALSE
          /\ stderr_out (snd res)
               = stderr_out s ++ [Text (throw_failed_text r)]
          /\ thrown (snd res) = thrown s)
    /\ (fst res = JNI_TRUE <->
        exists ex,
          In (JNI_Throw (Some ex) JNI_OK) events
          /\ thrown (snd res) = Some ex)
    /\ (forall ex rval,
          In (JNI_Throw (Some ex) rval) events ->
          obj_class ex = mkClass cls
          /\ m_sig (obj_ctor ex) = raiser_signature r).
Proof.
  destruct r; cbn [run_raiser raiser_class raiser_signature throw_failed_text].
  - contract_one_string env.
  - contract_one_string env.
  - contract_one_string env.
  - contract_one_string env.
  - contract_one_string env.
  - contract_one_string env.
  - run_bridge.
    destruct (loads_class env _) eqn:?; cbn; [| contract_path].
    destruct (has_method env _ _ _) eqn:?; cbn; [| contract_path].
    destruct (major_mesg s _) as [mj |]; cbn;
      [destruct (allocs_string env mj) eqn:?; cbn |];
      (destruct (minor_mesg s _) as [mn |]; cbn;
       [destruct (allocs_string env mn) eqn:?; cbn |]);
      try contract_path;
      (destruct (allocs_object env _ _ _) eqn:?; cbn;
       [destruct (accepts_throw env _) eqn:?; cbn |]);
      contract_path.
  - contract_one_string env.
Qed.

(** * Sample runs *)

(** A known identifier, and the two sentinels. *)
Example J2C_JH5D_CHUNKED :
  outcome (Java_ncsa_hdf_hdf5lib_H5_J2C hdf5_sample jvm_ok JH5D_CHUNKED state0)
    = Returned 2.
Proof. reflexivity. Qed.

Example J2C_JH5S_UNLIMITED :
  outcome (Java_ncsa_hdf_hdf5lib_H5_J2C hdf5_sample jvm_ok JH5S_UNLIMITED
             state0)
    = Returned (-1).
Proof. reflexivity. Qed.

(** JH5F_OBJ_LOCAL is defined in the header between JH5F_OBJ_GROUP and
    JH5F_SCOPE_DOWN, but the switch has no case for it. *)
Example J2C_JH5F_OBJ_LOCAL :
  In ("JH5F_OBJ_LOCAL", JH5F_OBJ_LOCAL) h5Constants_h
  /\ switch JH5F_OBJ_LOCAL J2C_cases = None
  /\ outcome (Java_ncsa_hdf_hdf5lib_H5_J2C hdf5_sample jvm_ok JH5F_OBJ_LOCAL
                state0)
       = Raised illegal_constant_exception.
Proof.
  split; [| split; reflexivity].
  cbn. do 141 right. left. reflexivity.
Qed.

(** Without a class to instantiate, the translation of an unknown
    identifier hands -1 back. *)
Example J2C_unknown_without_classes :
  Java_ncsa_hdf_hdf5lib_H5_J2C hdf5_sample jvm_without_classes 7 state0
    = (-1, with_trace
             (fun _ => [JNI_FindClass "java/lang/IllegalArgumentException"])
             state0).
Proof. reflexivity. Qed.

(** With an empty stack the error numbers are whatever the storage of
    [err_nums] held: here 77 and 88, there the code of an argument error. *)
Example error_numbers_of_empty_stack_vary :
  fst (getMajorErrorNumber (state_with [] (mkNum 77 88))) = 77
  /\ fst (getMinorErrorNumber (state_with [] (mkNum 77 88))) = 88
  /\ fst (getMajorErrorNumber (state_with [] (mkNum 1 0)))
       = hdf5_sample H5E_ARGS.
Proof. repeat split. Qed.

(** The failed file open of the sample stack is raised as the file-interface
    exception with the codes and messages of slot 0. *)
Example h5libraryError_on_sample_stack :
  let r := h5libraryError hdf5_sample jvm_ok
             (state_with sample_stack (mkNum 0 0)) in
  fst r = JNI_TRUE
  /\ thrown (snd r)
       = Some (mkObject
                 (mkClass
                    "ncsa/hdf/hdf5lib/exceptions/HDF5FileInterfaceException")
                 (mkMethod "<init>"
                    "(ILjava/lang/String;ILjava/lang/String;)V")
                 [JI 4; JL (Some (mkString "File interface"));
                  JI 7; JL (Some (mkString "Unable to open file"))]).
Proof. split; reflexivity. Qed.

(** A major code outside the table is raised as the generic exception. *)
Example defineHDF5LibraryException_unrecognised :
  defineHDF5LibraryException hdf5_sample 22 = generic_exception.
Proof. reflexivity. Qed.

(** A missing constructor is reported by [h5libraryError] only. *)
Example missing_constructor_diagnostics :
  stderr_out (snd (h5libraryError hdf5_sample jvm_without_constructors
                     (state_with sample_stack (mkNum 0 0))))
    = [Text ("FATAL ERROR:  h5libraryError: Cannot find constructor" ++ nl)]
  /\ stderr_out (snd (h5nullArgument jvm_without_constructors "H5Dread"
                        state0))
       = [].
Proof. split; reflexivity. Qed.

(** Dumping the sample stack twice into the same file: the second dump
    follows the first and no stream stays open. *)
Example printStackTrace0_appends :
  let dump :=
    Java_ncsa_hdf_hdf5lib_exceptions_HDF5LibraryException_printStackTrace0
      jvm_ok (Some (mkString "hdf5.log")) in
  let s1 := snd (dump (state_with sample_stack (mkNum 0 0))) in
  let s2 := snd (dump s1) in
  disk s2 "hdf5.log" = [ErrorStack sample_stack; ErrorStack sample_stack]
  /\ streams s2 = []
  /\ stderr_out s2 = [].
Proof. repeat split. Qed.

(** * The properties on sample inputs *)

(** JH5D_CHUNKED has a case and is translated to the value of H5D_CHUNKED;
    JH5E_ARGS to the value of H5E_ARGS. *)
Lemma J2C_known_returns_native_witness :
  known JH5D_CHUNKED
  /\ Java_ncsa_hdf_hdf5lib_H5_J2C hdf5_sample jvm_ok JH5D_CHUNKED state0
       = (hdf5_sample H5D_CHUNKED, state0)
  /\ Java_ncsa_hdf_hdf5lib_H5_J2C hdf5_sample jvm_ok JH5E_ARGS state0
       = (hdf5_sample H5E_ARGS, state0).
Proof.
  assert (forall k, has_case k = true -> known k) as Hdecide.
  { intros k Hk. unfold has_case in Hk.
    destruct (switch k J2C_cases) as [body |] eqn:E; [| discriminate].
    apply switch_Some_In in E. unfold known.
    change k with (fst (k, body)). now apply in_map. }
  assert (known JH5D_CHUNKED) as Hchunked by (apply Hdecide; reflexivity).
  assert (known JH5E_ARGS) as Hargs by (apply Hdecide; reflexivity).
  split; [exact Hchunked |]. split.
  - refine (proj1 (proj2 (J2C_known_returns_native hdf5_sample jvm_ok
                            JH5D_CHUNKED state0 Hchunked)
                     "JH5D_CHUNKED" H5D_CHUNKED _ eq_refl)).
    cbn. do 10 right. left. reflexivity.
  - refine (proj1 (proj2 (J2C_known_returns_native hdf5_sample jvm_ok
                            JH5E_ARGS state0 Hargs)
                     "JH5E_ARGS" H5E_ARGS _ eq_refl)).
    cbn. do 29 right. left. reflexivity.
Defined.

(** 7 has no case: the caller receives the exception. *)
Lemma J2C_unknown_raises_illegal_constant_witness :
  ~ known 7
  /\ outcome (Java_ncsa_hdf_hdf5lib_H5_J2C hdf5_sample jvm_ok 7 state0)
       = Raised illegal_constant_exception.
Proof.
  assert (~ known 7) as Hunknown
    by (apply (proj1 (switch_None 7 J2C_cases)); vm_compute; reflexivity).
  split; [exact Hunknown |].
  destruct (J2C_unknown_raises_illegal_constant hdf5_sample jvm_ok 7 state0
              Hunknown) as [_ Hraise].
  apply Hraise. vm_compute. reflexivity.
Defined.

(** The sample library has distinct major codes; the file category is
    classified as the file-interface exception. *)
Lemma defineHDF5LibraryException_total_witness :
  NoDup (major_codes hdf5_sample)
  /\ defineHDF5LibraryException hdf5_sample (hdf5_sample H5E_FILE)
       = "ncsa/hdf/hdf5lib/exceptions/HDF5FileInterfaceException".
Proof.
  assert (NoDup (major_codes hdf5_sample)) as Hdistinct
    by (apply distinct_NoDup; vm_compute; reflexivity).
  split; [exact Hdistinct |].
  destruct (defineHDF5LibraryException_total hdf5_sample) as [_ [Hknown _]].
  apply (Hknown Hdistinct H5E_FILE). cbn. tauto.
Defined.

(** On the sample stack the codes returned are those of slot 0. *)
Lemma error_numbers_of_last_visited_witness :
  err_stack (state_with sample_stack (mkNum 0 0)) <> []
  /\ fst (getMajorErrorNumber (state_with sample_stack (mkNum 0 0))) = 4
  /\ fst (getMinorErrorNumber (state_with sample_stack (mkNum 0 0))) = 7.
Proof.
  assert (err_stack (state_with sample_stack (mkNum 0 0)) <> []) as Hne
    by (cbn; discriminate).
  split; [exact Hne |].
  destruct (error_numbers_of_last_visited
              (state_with sample_stack (mkNum 0 0)) (mkError 0 0) Hne)
    as [Hmaj [Hmin _]].
  split; [exact Hmaj | exact Hmin].
Defined.

(** C5 as stated fails: JH5E_CANTMAKETREE is defined in the header, has no
    case in the switch, and its translation raises the illegal-constant
    error. *)
Lemma header_identifier_without_case :
  In ("JH5E_CANTMAKETREE", JH5E_CANTMAKETREE) h5Constants_h
  /\ ~ known JH5E_CANTMAKETREE
  /\ outcome (Java_ncsa_hdf_hdf5lib_H5_J2C hdf5_sample jvm_ok
                JH5E_CANTMAKETREE state0)
       = Raised illegal_constant_exception.
Proof.
  split; [| split].
  - cbn. do 64 right. left. reflexivity.
  - apply (proj1 (switch_None _ J2C_cases)). vm_compute. reflexivity.
  - vm_compute. reflexivity.
Qed.

(** JH5D_CHUNKED is defined in the header and has a case. *)
Lemma header_identifiers_translated_witness :
  In ("JH5D_CHUNKED", JH5D_CHUNKED) h5Constants_h
  /\ exists body, In (JH5D_CHUNKED, body) J2C_cases.
Proof.
  assert (In ("JH5D_CHUNKED", JH5D_CHUNKED) h5Constants_h) as Hin
    by (cbn; do 10 right; left; reflexivity).
  split; [exact Hin |].
  destruct (header_identifiers_translated "JH5D_CHUNKED" JH5D_CHUNKED Hin)
    as [Hcase _].
  destruct (Hcase eq_refl) as [body [Hbody _]].
  exists body. exact Hbody.
Defined.

(** C6 as stated fails: when the class is not found, and likewise when the
    constructor is not found, [h5outOfMemory] returns JNI_FALSE and nothing
    at all is written to [stderr]. *)
Lemma missing_class_gives_no_diagnostic :
  (loads_class jvm_without_classes "java/lang/OutOfMemoryError" = false
   /\ fst (h5outOfMemory jvm_without_classes "H5Dread" state0) = JNI_FALSE
   /\ stderr_out (snd (h5outOfMemory jvm_without_classes "H5Dread" state0))
        = [])
  /\ (has_method jvm_without_constructors "java/lang/OutOfMemoryError"
        "<init>" "(Ljava/lang/String;)V" = false
      /\ fst (h5outOfMemory jvm_without_constructors "H5Dread" state0)
           = JNI_FALSE
      /\ stderr_out
           (snd (h5outOfMemory jvm_without_constructors "H5Dread" state0))
           = []).
Proof. repeat split. Qed.

(** The all-ones sentinel of the sample library comes back as -1. *)
Lemma unlimited_cast_keeps_bits_witness :
  In (JH5F_UNLIMITED, H5F_UNLIMITED) unlimited_cases
  /\ 0 <= hdf5_sample H5F_UNLIMITED < 2 ^ 64
  /\ Java_ncsa_hdf_hdf5lib_H5_J2C hdf5_sample jvm_ok JH5F_UNLIMITED state0
       = (-1, state0).
Proof.
  assert (In (JH5F_UNLIMITED, H5F_UNLIMITED) unlimited_cases) as Hin
    by (left; reflexivity).
  assert (0 <= hdf5_sample H5F_UNLIMITED < 2 ^ 64) as Hrange
    by (cbn; lia).
  split; [exact Hin |]. split; [exact Hrange |].
  destruct (unlimited_cast_keeps_bits hdf5_sample jvm_ok state0
              JH5F_UNLIMITED H5F_UNLIMITED Hin Hrange)
    as [_ [r [Heq [_ [_ [_ Hones]]]]]].
  rewrite Heq. f_equal. apply Hones. reflexivity.
Defined.

(** * Further properties of the bridge *)

(** ** Reasoning along the paths of a raiser *)

(** A property of a run is proved on each result the run can have. *)
Lemma by_result {A : Type} (P : A -> Prop) (x : A) :
  (forall y, x = y -> P y) -> P x.
Proof. intros H. apply H. reflexivity. Qed.

(** Names the result of [run] and leaves [run = result -> ...] as goal. *)
Ltac name_result run :=
  cbv zeta; pattern run; apply by_result; intro.

(** Follows every path of a raiser: each request to the runtime and each
    lookup in the message tables is decided in turn; [tac] closes the
    goal of each path once the result is explicit. *)
Ltac decide_grant :=
  match goal with
  | |- context [loads_class ?e ?c] =>
      destruct (loads_class e c) eqn:?
  | |- context [has_method ?e ?c ?n ?g] =>
      destruct (has_method e c n g) eqn:?
  | |- context [major_mesg ?s ?n] =>
      destruct (major_mesg s n) eqn:?
  | |- context [minor_mesg ?s ?n] =>
      destruct (minor_mesg s n) eqn:?
  | |- context [allocs_string ?e ?b] =>
      destruct (allocs_string e b) eqn:?
  | |- context [allocs_object ?e ?c ?m ?a] =>
      destruct (allocs_object e c m a) eqn:?
  | |- context [accepts_throw ?e ?o] =>
      destruct (accepts_throw e o) eqn:?
  end; cbn.

Ltac follow_paths tac :=
  run_bridge; repeat decide_grant; intros <-; cbn; tac.

Ltac every_raiser hdf5 env r s tac :=
  name_result (run_raiser hdf5 env r s);
  destruct r; cbn [run_raiser]; follow_paths tac.

(** Rewrites with what is known of the runtime's answers. *)
Ltac grant :=
  repeat match goal with
         | H : ?b = true |- context [?b] => rewrite H; cbn
         | H : ?b = false |- context [?b] => rewrite H; cbn
         end.

(** One path, for a statement about the final state. *)
Ltac frame_path :=
  repeat split; intros;
  try reflexivity; try discriminate;
  try (left; reflexivity);
  try (right; eexists; reflexivity).

(** ** What the raisers leave alone *)

Lemma run_raiser_frame
    (hdf5 : H5sym -> Z) (env : JNIEnv) (r : raiser) (s : State) :
  let res := run_raiser hdf5 env r s in
  err_stack (snd res) = err_stack s
  /\ major_mesg (snd res) = major_mesg s
  /\ minor_mesg (snd res) = minor_mesg s
  /\ indeterminate (snd res) = indeterminate s
  /\ disk (snd res) = disk s
  /\ can_open (snd res) = can_open s
  /\ streams (snd res) = streams s
  /\ next_fd (snd res) = next_fd s
  /\ (stderr_out (snd res) = stderr_out s
      \/ exists line, stderr_out (snd res) = stderr_out s ++ [Text line])
  /\ (fst res = JNI_TRUE -> stderr_out (snd res) = stderr_out s)
  /\ (fst res = JNI_FALSE -> thrown (snd res) = thrown s).
Proof.
  every_raiser hdf5 env r s frame_path.
Qed.

(** X4.  No raiser touches the native side or the files: the error stack,
    the message tables, the files and the stream table are as before; at
    most one line is added to [stderr], none when the result is JNI_TRUE;
    and a JNI_FALSE result leaves the pending exception as it was. *)
Theorem raisers_keep_the_native_state
    (hdf5 : H5sym -> Z) (env : JNIEnv) (r : raiser) (s : State) :
  let res := run_raiser hdf5 env r s in
  err_stack (snd res) = err_stack s
  /\ major_mesg (snd res) = major_mesg s
  /\ minor_mesg (snd res) = minor_mesg s
  /\ indeterminate (snd res) = indeterminate s
  /\ disk (snd res) = disk s
  /\ can_open (snd res) = can_open s
  /\ streams (snd res) = streams s
  /\ next_fd (snd res) = next_fd s
  /\ (stderr_out (snd res) = stderr_out s
      \/ exists line, stderr_out (snd res) = stderr_out s ++ [Text line])
  /\ (fst res = JNI_TRUE -> stderr_out (snd res) = stderr_out s)
  /\ (fst res = JNI_FALSE -> thrown (snd res) = thrown s).
Proof. exact (run_raiser_frame hdf5 env r s). Qed.

(** ** The raisers with one string argument *)

(** X1.  When the runtime can raise it, each raiser with a string argument
    (the six fixed ones and [h5raiseException]) makes pending the exception
    of its class built from its message, returns JNI_TRUE, writes nothing
    to [stderr], and makes exactly the five JNI calls FindClass,
    GetMethodID, NewStringUTF, NewObjectA, Throw. *)
Theorem string_raisers_raise
    (hdf5 : H5sym -> Z) (env : JNIEnv) (r : raiser) (message : string)
    (s : State) :
  raiser_message r = Some message ->
  can_raise env (string_exception (raiser_class hdf5 r s) (Some message))
    = true ->
  let res := run_raiser hdf5 env r s in
  let cls := raiser_class hdf5 r s in
  let ex := string_exception cls (Some message) in
  fst res = JNI_TRUE
  /\ thrown (snd res) = Some ex
  /\ stderr_out (snd res) = stderr_out s
  /\ trace (snd res)
       = trace s
         ++ [JNI_FindClass cls;
             JNI_GetMethodID (mkClass cls) "<init>" "(Ljava/lang/String;)V";
             JNI_NewStringUTF (Some message);
             JNI_NewObjectA (obj_class ex) (obj_ctor ex) (obj_args ex);
             JNI_Throw (Some ex) JNI_OK].
Proof.
  intros Hmsg Hcan.
  destruct r; cbn in Hmsg; try discriminate; injection Hmsg as <-;
    unfold can_raise, string_exception in *; cbn in Hcan |- *;
    rewrite ?andb_true_r in Hcan; split_andb Hcan;
    run_bridge; grant; rewrite <- ?app_assoc; repeat split.
Qed.

(** X2.  The string raisers do not check the string they create: when
    [NewStringUTF] fails while the object can still be built and thrown,
    the exception is raised with a NULL message and the result is
    JNI_TRUE. *)
Theorem string_raisers_raise_without_message
    (hdf5 : H5sym -> Z) (env : JNIEnv) (r : raiser) (message : string)
    (s : State) :
  raiser_message r = Some message ->
  allocs_string env message = false ->
  can_raise env (string_exception (raiser_class hdf5 r s) None) = true ->
  let res := run_raiser hdf5 env r s in
  fst res = JNI_TRUE
  /\ thrown (snd res)
       = Some (string_exception (raiser_class hdf5 r s) None)
  /\ stderr_out (snd res) = stderr_out s.
Proof.
  intros Hmsg Hstr Hcan.
  destruct r; cbn in Hmsg; try discriminate; injection Hmsg as <-;
    unfold can_raise, string_exception in *; cbn in Hcan |- *;
    rewrite ?andb_true_r in Hcan; split_andb Hcan;
    run_bridge; grant; repeat split.
Qed.

(** X3.  No raiser checks the object it builds: whenever [NewObjectA] was
    called and returned NULL, [Throw] is called on that NULL reference. *)
Theorem failed_construction_reaches_Throw
    (hdf5 : H5sym -> Z) (env : JNIEnv) (r : raiser) (s : State) :
  let res := run_raiser hdf5 env r s in
  exists events,
    trace (snd res) = trace s ++ events
    /\ forall clazz ctor args,
        In (JNI_NewObjectA clazz ctor args) events ->
        allocs_object env clazz ctor args = false ->
        exists rval, In (JNI_Throw None rval) events.
Proof.
  every_raiser hdf5 env r s
    ltac:(eexists; rewrite <- ?app_assoc; cbn;
          (split; [reflexivity |]);
          let H := fresh "H" in
          intros ? ? ? H ?; in_cases H;
          try (injection H as <- <- <-; congruence);
          eexists; cbn; auto 12).
Qed.

(** X5.  [h5raiseException], given the class and the message of any of the
    fixed string raisers, returns what that raiser returns and leaves the
    same exception pending; the two final states are equal when the result
    is JNI_TRUE, and otherwise differ at most in the one line written to
    [stderr]. *)
Theorem h5raiseException_generalises
    (hdf5 : H5sym -> Z) (env : JNIEnv) (r : raiser) (message : string)
    (s : State) :
  raiser_message r = Some message ->
  let a := h5raiseException env (raiser_class hdf5 r s) message s in
  let b := run_raiser hdf5 env r s in
  fst a = fst b
  /\ thrown (snd a) = thrown (snd b)
  /\ (fst b = JNI_TRUE -> snd a = snd b)
  /\ (stderr_out (snd a) = stderr_out (snd b)
      \/ exists line_a line_b,
          stderr_out (snd a) = stderr_out s ++ [Text line_a]
          /\ stderr_out (snd b) = stderr_out s ++ [Text line_b]).
Proof.
  intros Hmsg.
  destruct r; cbn in Hmsg; try discriminate; injection Hmsg as <-;
    cbn [run_raiser raiser_class];
    run_bridge; repeat decide_grant;
    repeat split; intros; try reflexivity; try discriminate;
    try (left; reflexivity);
    try (right; eexists; eexists; split; reflexivity).
Qed.

(** ** Raising a library error *)

Lemma walk_from_slot0 (e : H5E_error_t) (rest : list H5E_error_t)
    (d : H5E_num_t) :
  walk_entries walk_error_callback 0 (rev (e :: rest)) d
    = (0, mkNum (err_maj_num e) (err_min_num e)).
Proof.
  rewrite (walk_nonempty (rev (e :: rest)) e 0 d).
  - now rewrite last_rev_hd.
  - cbn [rev]. intros H. now apply app_eq_nil in H.
Qed.

Lemma define_recognised (hdf5 : H5sym -> Z) (X : H5sym) (name : string) :
  NoDup (major_codes hdf5) ->
  In (X, name) major_exceptions ->
  defineHDF5LibraryException hdf5 (hdf5 X) = name.
Proof.
  intros Hdistinct Hin. rewrite define_as_switch.
  rewrite (switch_In (hdf5 X) _ name); [reflexivity | |].
  - rewrite map_map. exact Hdistinct.
  - change (hdf5 X, name)
      with ((fun p : H5sym * string => (hdf5 (fst p), snd p)) (X, name)).
    now apply in_map.
Qed.

Lemma define_unrecognised (hdf5 : H5sym -> Z) (n : Z) :
  ~ In n (major_codes hdf5) ->
  defineHDF5LibraryException hdf5 n = generic_exception.
Proof.
  intros Hnot. rewrite define_as_switch.
  assert (switch n (map (fun p => (hdf5 (fst p), snd p)) major_exceptions)
          = None) as ->; [| reflexivity].
  apply switch_None. now rewrite map_map.
Qed.

(** X6.  With a non-empty error stack whose slot 0 has messages in the
    library's tables, and a runtime that can raise it, [h5libraryError]
    makes pending the exception carrying the major and minor codes of
    slot 0 with their messages, returns JNI_TRUE, writes nothing to [stderr]
    and leaves the error stack in place.  The class of the exception is the
    one of the category whose code is the major code of slot 0 (the category
    codes being pairwise distinct), and HDF5LibraryException when that code
    is the code of no category. *)
Theorem h5libraryError_raises_slot0
    (hdf5 : H5sym -> Z) (env : JNIEnv) (s : State)
    (e : H5E_error_t) (rest : list H5E_error_t) (maj_msg min_msg : string) :
  err_stack s = e :: rest ->
  major_mesg s (err_maj_num e) = Some maj_msg ->
  minor_mesg s (err_min_num e) = Some min_msg ->
  can_raise env
    (library_exception hdf5 (err_maj_num e) maj_msg (err_min_num e) min_msg)
    = true ->
  let res := h5libraryError hdf5 env s in
  let ex :=
    library_exception hdf5 (err_maj_num e) maj_msg (err_min_num e) min_msg in
  fst res = JNI_TRUE
  /\ thrown (snd res) = Some ex
  /\ stderr_out (snd res) = stderr_out s
  /\ err_stack (snd res) = err_stack s
  /\ (forall X name,
        NoDup (major_codes hdf5) ->
        In (X, name) major_exceptions ->
        err_maj_num e = hdf5 X ->
        class_name (obj_class ex) = name)
  /\ (~ In (err_maj_num e) (major_codes hdf5) ->
      class_name (obj_class ex) = generic_exception).
Proof.
  intros Hstack Hmaj Hmin Hcan.
  unfold can_raise, library_exception in *. cbn in Hcan |- *.
  rewrite ?andb_true_r in Hcan. split_andb Hcan.
  apply andb_prop in Hcan2. destruct Hcan2 as [Hstr_maj Hstr_min].
  run_bridge.
  repeat (progress (rewrite ?Hstack, ?walk_from_slot0, ?Hmaj, ?Hmin;
                    cbn; grant)).
  do 4 (split; [reflexivity |]). split.
  - intros X name Hdistinct Hin ->. now apply define_recognised.
  - apply define_unrecognised.
Qed.

(** X7.  When the class and the constructor are found but one of the two
    message strings cannot be obtained (the library has no message for the
    code, or the string cannot be created), [h5libraryError] returns
    JNI_FALSE, writes its [Out of Memory] line to [stderr], leaves the
    pending exception as it was, and calls neither [NewObjectA] nor
    [Throw]. *)
Theorem h5libraryError_without_message
    (hdf5 : H5sym -> Z) (env : JNIEnv) (s : State) :
  let maj := fst (getMajorErrorNumber s) in
  let min := fst (getMinorErrorNumber s) in
  let cls := defineHDF5LibraryException hdf5 maj in
  loads_class env cls = true ->
  has_method env cls "<init>" "(ILjava/lang/String;ILjava/lang/String;)V"
    = true ->
  fst (NewStringUTF env (major_mesg s maj) s) = None
  \/ fst (NewStringUTF env (minor_mesg s min) s) = None ->
  let res := h5libraryError hdf5 env s in
  fst res = JNI_FALSE
  /\ thrown (snd res) = thrown s
  /\ stderr_out (snd res) = stderr_out s ++ [Text out_of_memory_text]
  /\ exists events,
      trace (snd res) = trace s ++ events
      /\ (forall clazz ctor args,
            ~ In (JNI_NewObjectA clazz ctor args) events)
      /\ (forall obj rval, ~ In (JNI_Throw obj rval) events).
Proof.
  cbv zeta. run_bridge. intros Hclass Hctor Hmissing.
  rewrite Hclass. cbn. rewrite Hctor. cbn.
  destruct (major_mesg s _) as [mj |]; cbn in *;
    [destruct (allocs_string env mj); cbn in * |];
    (destruct (minor_mesg s _) as [mn |]; cbn in *;
     [destruct (allocs_string env mn); cbn in * |]);
    try (destruct Hmissing; discriminate);
    (split; [reflexivity |]); (split; [reflexivity |]);
    (split; [reflexivity |]);
    eexists; rewrite <- ?app_assoc; cbn; (split; [reflexivity |]);
    split; intros; intros Hin; in_cases Hin.
Qed.

(** ** Dumping, and dumping after raising *)

(** X8.  When the file name cannot be read or the file cannot be opened,
    [printStackTrace0] changes no file and closes no stream: it calls
    [H5Eprint] with the NULL stream, so that the stack is printed on
    [stderr], and still releases the characters of the name. *)
Theorem printStackTrace0_unopened_file
    (env : JNIEnv) (name : jstring) (s : State) :
  pins_chars env name = false \/ can_open s (utf name) = false ->
  let res :=
    Java_ncsa_hdf_hdf5lib_exceptions_HDF5LibraryException_printStackTrace0
      env (Some name) s in
  disk (snd res) = disk s
  /\ streams (snd res) = streams s
  /\ next_fd (snd res) = next_fd s
  /\ stderr_out (snd res) = stderr_out s ++ [ErrorStack (err_stack s)]
  /\ trace (snd res)
       = trace s
         ++ [JNI_GetStringUTFChars name;
             C_fopen (if pins_chars env name then Some (utf name) else None)
                     "a+" None;
             H5Eprint_call None;
             JNI_ReleaseStringUTFChars name].
Proof.
  intros Hfail.
  unfold
    Java_ncsa_hdf_hdf5lib_exceptions_HDF5LibraryException_printStackTrace0.
  run_bridge. unfold fopen.
  destruct (pins_chars env name); cbn.
  - destruct Hfail as [Hfail | Hfail]; [discriminate |].
    rewrite Hfail. cbn. rewrite <- !app_assoc. repeat split.
  - rewrite <- !app_assoc. repeat split.
Qed.

Lemma dump_to_file (env : JNIEnv) (name : jstring) (s : State) :
  pins_chars env name = true ->
  can_open s (utf name) = true ->
  let res :=
    Java_ncsa_hdf_hdf5lib_exceptions_HDF5LibraryException_printStackTrace0
      env (Some name) s in
  disk (snd res) = append_to (utf name) (ErrorStack (err_stack s)) (disk s)
  /\ streams (snd res) = streams s
  /\ err_stack (snd res) = err_stack s
  /\ can_open (snd res) = can_open s
  /\ stderr_out (snd res) = stderr_out s
  /\ thrown (snd res) = thrown s.
Proof.
  intros Hpin Hopen.
  unfold
    Java_ncsa_hdf_hdf5lib_exceptions_HDF5LibraryException_printStackTrace0.
  run_bridge. unfold fopen. rewrite Hpin. cbn. rewrite Hopen. cbn.
  rewrite Nat.eqb_refl. cbn. rewrite Nat.eqb_refl. repeat split.
Qed.

(** X9.  Two dumps into the same file that can be opened: the file ends
    with the two renderings of the stack, in order, after its previous
    contents; every other file is untouched; no stream stays open and
    nothing is written to [stderr]. *)
Theorem printStackTrace0_twice
    (env : JNIEnv) (name : jstring) (s : State) :
  pins_chars env name = true ->
  can_open s (utf name) = true ->
  let dump :=
    Java_ncsa_hdf_hdf5lib_exceptions_HDF5LibraryException_printStackTrace0
      env (Some name) in
  let s2 := snd (dump (snd (dump s))) in
  disk s2 (utf name)
    = disk s (utf name)
      ++ [ErrorStack (err_stack s); ErrorStack (err_stack s)]
  /\ (forall other, other <> utf name -> disk s2 other = disk s other)
  /\ streams s2 = streams s
  /\ stderr_out s2 = stderr_out s.
Proof.
  intros Hpin Hopen dump s2.
  destruct (dump_to_file env name s Hpin Hopen)
    as [Hdisk1 [Hstr1 [Hstack1 [Hopen1 [Herr1 _]]]]].
  fold dump in Hdisk1, Hstr1, Hstack1, Hopen1, Herr1.
  assert (can_open (snd (dump s)) (utf name) = true) as Hopen'
    by (now rewrite Hopen1).
  destruct (dump_to_file env name (snd (dump s)) Hpin Hopen')
    as [Hdisk2 [Hstr2 [_ [_ [Herr2 _]]]]].
  fold dump in Hdisk2, Hstr2, Herr2. fold s2 in Hdisk2, Hstr2, Herr2.
  rewrite Hdisk2, Hdisk1, Hstack1, Hstr2, Hstr1, Herr2, Herr1.
  unfold append_to. repeat split.
  - rewrite String.eqb_refl, <- app_assoc. reflexivity.
  - intros other Hother.
    apply String.eqb_neq in Hother. now rewrite Hother.
Qed.

(** X10.  Raising does not consume the error stack: after any raiser, a
    dump on [stderr] prints the stack that was there before the raiser ran;
    and when that stack is not empty, the error numbers read after the
    raiser are those read before it, the codes of slot 0, whatever the
    automatic storage of either read holds. *)
Theorem stack_survives_raising
    (hdf5 : H5sym -> Z) (env : JNIEnv) (r : raiser) (s : State) :
  let s1 := snd (run_raiser hdf5 env r s) in
  stderr_out
    (snd
       (Java_ncsa_hdf_hdf5lib_exceptions_HDF5LibraryException_printStackTrace0
          env None s1))
    = stderr_out s1 ++ [ErrorStack (err_stack s)]
  /\ (forall e rest,
        err_stack s = e :: rest ->
        forall garbage_before garbage_after,
          fst (getMajorErrorNumber (with_indeterminate garbage_before s))
            = err_maj_num e
          /\ fst (getMajorErrorNumber (with_indeterminate garbage_after s1))
               = err_maj_num e
          /\ fst (getMinorErrorNumber (with_indeterminate garbage_before s))
               = err_min_num e
          /\ fst (getMinorErrorNumber (with_indeterminate garbage_after s1))
               = err_min_num e).
Proof.
  intros s1.
  destruct (run_raiser_frame hdf5 env r s) as [Hstack _].
  fold s1 in Hstack.
  unfold
    Java_ncsa_hdf_hdf5lib_exceptions_HDF5LibraryException_printStackTrace0.
  split.
  - run_bridge. rewrite Hstack. reflexivity.
  - intros e rest He garbage_before garbage_after.
    run_bridge. rewrite Hstack, He, !walk_from_slot0. repeat split.
Qed.

(** ** The identifiers and the cases *)

Lemma distinct_names_NoDup (l : list string) :
  distinct_names l = true -> NoDup l.
Proof.
  induction l as [| x rest IH]; simpl; intros H; constructor.
  - apply andb_prop in H. destruct H as [H _].
    apply negb_true_iff in H. intros Hin.
    assert (existsb (String.eqb x) rest = true) as Hex.
    { apply existsb_exists. exists x.
      split; [exact Hin | apply String.eqb_refl]. }
    congruence.
  - apply IH. apply andb_prop in H. tauto.
Qed.

Lemma NoDup_map_injective {A B : Type} (f : A -> B) (l : list A) (x y : A) :
  NoDup (map f l) -> In x l -> In y l -> f x = f y -> x = y.
Proof.
  induction l as [| a rest IH]; simpl; [tauto |].
  intros Hnd Hx Hy Heq. inversion Hnd as [| ? ? Hnotin Hnd']; subst.
  destruct Hx as [-> | Hx], Hy as [-> | Hy].
  - reflexivity.
  - exfalso. apply Hnotin. rewrite Heq. now apply in_map.
  - exfalso. apply Hnotin. rewrite <- Heq. now apply in_map.
  - now apply IH.
Qed.

Lemma J2C_default_raises
    (hdf5 : H5sym -> Z) (env : JNIEnv) (java_constant : Z) (s : State) :
  switch java_constant J2C_cases = None ->
  can_raise env illegal_constant_exception = true ->
  outcome (Java_ncsa_hdf_hdf5lib_H5_J2C hdf5 env java_constant s)
    = Raised illegal_constant_exception.
Proof.
  intros Hdefault Hcan.
  unfold Java_ncsa_hdf_hdf5lib_H5_J2C. rewrite Hdefault.
  unfold can_raise, illegal_constant_exception in *. cbn in Hcan.
  rewrite ?andb_true_r in Hcan. split_andb Hcan.
  unfold outcome. run_bridge. grant. reflexivity.
Qed.

(** X11.  The identifiers [J2C] translates are exactly the values the
    header defines, except those of JH5F_OBJ_LOCAL, JH5E_CANTMAKETREE,
    JH5G_USERTYPE and JH5I_FILE_CLOSING: no case label is a number the
    header does not define. *)
Theorem known_iff_defined (java_constant : Z) :
  known java_constant <->
  exists name,
    In (name, java_constant) h5Constants_h
    /\ named_in without_case name = false.
Proof.
  split.
  - intros Hknown. unfold known in Hknown.
    apply in_map_iff in Hknown. destruct Hknown as [[k body] [Hk Hin]].
    cbn in Hk. subst k.
    assert (forallb (fun c : Z * arm =>
              existsb (fun d : string * Z =>
                         (snd d =? fst c)
                         && negb (named_in without_case (fst d)))%bool
                      h5Constants_h) J2C_cases = true) as Hall
      by (vm_compute; reflexivity).
    rewrite forallb_forall in Hall. specialize (Hall _ Hin).
    apply existsb_exists in Hall. destruct Hall as [[name k] [Hd Hok]].
    cbn [fst snd] in Hok. apply andb_prop in Hok. destruct Hok as [Hk Hname].
    apply Z.eqb_eq in Hk. subst k. apply negb_true_iff in Hname.
    exists name. split; assumption.
  - intros [name [Hin Hname]].
    assert (forallb (fun d : string * Z =>
              named_in without_case (fst d) || has_case (snd d))%bool
              h5Constants_h = true) as Hall
      by (vm_compute; reflexivity).
    rewrite forallb_forall in Hall. specialize (Hall _ Hin).
    cbn [fst snd] in Hall. rewrite Hname in Hall. cbn in Hall.
    unfold has_case in Hall.
    destruct (switch java_constant J2C_cases) eqn:E; [| discriminate].
    unfold known. intros. apply switch_Some_In in E.
    change java_constant with (fst (java_constant, a)). now apply in_map.
Qed.

(** X12.  Every case label lies between 1000 and 6220: an identifier below
    or above that range (0, any negative number, the -1 a failed
    translation hands back) has no case and, the runtime being able to
    raise it, is answered with the illegal-constant exception. *)
Theorem out_of_range_identifier_raises
    (hdf5 : H5sym -> Z) (env : JNIEnv) (java_constant : Z) (s : State) :
  java_constant < lowest_label \/ highest_label < java_constant ->
  ~ known java_constant
  /\ (can_raise env illegal_constant_exception = true ->
      outcome (Java_ncsa_hdf_hdf5lib_H5_J2C hdf5 env java_constant s)
        = Raised illegal_constant_exception).
Proof.
  intros Hout.
  assert (~ known java_constant) as Hunknown.
  { intros Hknown.
    assert (forallb (fun k => (lowest_label <=? k) && (k <=? highest_label))%bool
              (map fst J2C_cases) = true) as Hall
      by (vm_compute; reflexivity).
    rewrite forallb_forall in Hall. specialize (Hall _ Hknown).
    apply andb_prop in Hall. destruct Hall as [Hlo Hhi].
    apply Z.leb_le in Hlo, Hhi. lia. }
  split; [exact Hunknown |].
  intros Hcan. apply J2C_default_raises; [| exact Hcan].
  now apply switch_None.
Qed.

(** X13.  [J2C] always returns a value of the [jint] range and never touches
    the native side: the error stack, the message tables, the files and the
    stream table are as before, and the pending exception is either as
    before or an IllegalArgumentException built by the one-string
    constructor. *)
Theorem J2C_keeps_the_native_state
    (hdf5 : H5sym -> Z) (env : JNIEnv) (java_constant : Z) (s : State) :
  let res := Java_ncsa_hdf_hdf5lib_H5_J2C hdf5 env java_constant s in
  in_jint (fst res)
  /\ err_stack (snd res) = err_stack s
  /\ major_mesg (snd res) = major_mesg s
  /\ minor_mesg (snd res) = minor_mesg s
  /\ disk (snd res) = disk s
  /\ streams (snd res) = streams s
  /\ (thrown (snd res) = thrown s
      \/ exists message,
          thrown (snd res)
            = Some (string_exception "java/lang/IllegalArgumentException"
                      message)).
Proof.
  cbv zeta. unfold Java_ncsa_hdf_hdf5lib_H5_J2C.
  destruct (switch java_constant J2C_cases) as [body |].
  - cbn. split.
    + destruct body; cbn; apply to_jint_range.
    + repeat split. now left.
  - name_result
      ((h5illegalConstantError env;;; ret (-1)) s).
    follow_paths
      ltac:(split; [unfold in_jint; cbn; lia |];
            repeat split; try (left; reflexivity);
            right; eexists; unfold string_exception;
            first [ instantiate (1 := Some _); reflexivity
                  | instantiate (1 := None); reflexivity ]).
Qed.

(** X14.  In the header, two definitions have the same name exactly when
    they have the same value: no identifier is defined twice and no value is
    given to two identifiers. *)
Theorem header_definitions_distinct
    (name1 name2 : string) (value1 value2 : Z) :
  In (name1, value1) h5Constants_h ->
  In (name2, value2) h5Constants_h ->
  (name1 = name2 <-> value1 = value2).
Proof.
  intros H1 H2.
  assert (NoDup (map fst h5Constants_h)) as Hnames
    by (apply distinct_names_NoDup; vm_compute; reflexivity).
  assert (NoDup (map snd h5Constants_h)) as Hvalues
    by (apply distinct_NoDup; vm_compute; reflexivity).
  split; intros Heq.
  - pose proof (NoDup_map_injective fst _ _ _ Hnames H1 H2 Heq) as E.
    now injection E.
  - pose proof (NoDup_map_injective snd _ _ _ Hvalues H1 H2 Heq) as E.
    now injection E.
Qed.

(** X15.  Every case of [J2C] returns the native symbol that bears the name
    of its identifier without the leading J. *)
Theorem cases_pair_names
    (name : string) (java_constant : Z) (body : arm) :
  In (name, java_constant) h5Constants_h ->
  In (java_constant, body) J2C_cases ->
  name = ("J" ++ H5sym_name (arm_symbol body))%string.
Proof.
  intros Hdef Hcase.
  assert (forallb (fun c : Z * arm =>
            forallb (fun d : string * Z =>
                       negb (snd d =? fst c)
                       || String.eqb (fst d)
                            ("J" ++ H5sym_name (arm_symbol (snd c)))%string)%bool
                    h5Constants_h) J2C_cases = true) as Hall
    by (vm_compute; reflexivity).
  rewrite forallb_forall in Hall. specialize (Hall _ Hcase).
  rewrite forallb_forall in Hall. specialize (Hall _ Hdef).
  cbn [fst snd] in Hall. rewrite Z.eqb_refl in Hall. cbn in Hall.
  now apply String.eqb_eq in Hall.
Qed.

(** X16.  Two cases of [J2C] have the same label exactly when they return
    the same native symbol: no native symbol is reachable through two
    identifiers. *)
Theorem cases_pair_symbols
    (label1 label2 : Z) (body1 body2 : arm) :
  In (label1, body1) J2C_cases ->
  In (label2, body2) J2C_cases ->
  (label1 = label2 <-> arm_symbol body1 = arm_symbol body2).
Proof.
  intros H1 H2. split; intros Heq.
  - pose proof (NoDup_map_injective fst _ _ _ J2C_labels_distinct H1 H2 Heq)
      as E.
    injection E as _ ->. reflexivity.
  - assert (NoDup (map (fun c : Z * arm => H5sym_name (arm_symbol (snd c)))
                       J2C_cases)) as Hsyms
      by (apply distinct_names_NoDup; vm_compute; reflexivity).
    assert ((fun c : Z * arm => H5sym_name (arm_symbol (snd c)))
              (label1, body1)
            = (fun c : Z * arm => H5sym_name (arm_symbol (snd c)))
                (label2, body2)) as Hname
      by (cbn; now rewrite Heq).
    pose proof (NoDup_map_injective _ _ _ _ Hsyms H1 H2 Hname) as E.
    now injection E.
Qed.

(** ** Classification *)

(** X17.  Each of the 21 recognised categories has an identifier in [J2C],
    and translating that identifier and classifying the value obtained gives
    the exception class of the category, provided the native codes of the
    categories are pairwise distinct and representable in [jint]. *)
Theorem translated_category_is_classified
    (hdf5 : H5sym -> Z) (env : JNIEnv) (s : State)
    (X : H5sym) (name : string) :
  In (X, name) major_exceptions ->
  NoDup (major_codes hdf5) ->
  in_jint (hdf5 X) ->
  exists java_constant,
    In (java_constant, return_ X) J2C_cases
    /\ defineHDF5LibraryException hdf5
         (fst (Java_ncsa_hdf_hdf5lib_H5_J2C hdf5 env java_constant s))
       = name.
Proof.
  intros Hin Hdistinct Hrange.
  assert (exists java_constant, In (java_constant, return_ X) J2C_cases)
    as [k Hk].
  { cbn in Hin.
    repeat (destruct Hin as [Hin | Hin];
            [injection Hin as <- <-;
             match goal with
             | |- exists k, In (k, return_ ?Y) _ =>
                 let found :=
                   eval vm_compute in
                     (find (fun c : Z * arm =>
                              String.eqb (H5sym_name (arm_symbol (snd c)))
                                         (H5sym_name Y)) J2C_cases) in
                 match found with
                 | Some (?k, _) =>
                     exists k; apply switch_Some_In; vm_compute; reflexivity
                 end
             end |]).
    contradiction. }
  exists k. split; [exact Hk |].
  rewrite (J2C_case_returns hdf5 env k (return_ X) s Hk). cbn [fst arm_symbol].
  rewrite (to_jint_id _ Hrange). now apply define_recognised.
Qed.

(** X18.  [defineHDF5LibraryException] returns HDF5LibraryException exactly
    for the codes of no recognised category; and, the codes of the
    categories being pairwise distinct, two categories with the same class
    have the same code. *)
Theorem generic_exactly_when_unrecognised (hdf5 : H5sym -> Z) :
  (forall n,
      defineHDF5LibraryException hdf5 n = generic_exception
      <-> ~ In n (major_codes hdf5))
  /\ (NoDup (major_codes hdf5) ->
      forall X Y name_X name_Y,
        In (X, name_X) major_exceptions ->
        In (Y, name_Y) major_exceptions ->
        defineHDF5LibraryException hdf5 (hdf5 X)
          = defineHDF5LibraryException hdf5 (hdf5 Y) ->
        hdf5 X = hdf5 Y).
Proof.
  assert (NoDup (generic_exception :: map snd major_exceptions)) as Hnames
    by (apply distinct_names_NoDup; vm_compute; reflexivity).
  apply NoDup_cons_iff in Hnames. destruct Hnames as [Hgeneric Hclasses].
  split.
  - intros n. split; [| apply define_unrecognised].
    intros Heq Hin. apply Hgeneric. rewrite <- Heq.
    rewrite define_as_switch.
    destruct (switch n (map (fun p => (hdf5 (fst p), snd p))
                            major_exceptions)) as [name |] eqn:E.
    + apply switch_Some_In in E. apply in_map_iff in E.
      destruct E as [[X name'] [[= _ <-] HX]].
      change name' with (snd (X, name')). now apply in_map.
    + apply switch_None in E. rewrite map_map in E. contradiction.
  - intros Hdistinct X Y name_X name_Y HX HY Heq.
    rewrite (define_recognised hdf5 X name_X Hdistinct HX) in Heq.
    rewrite (define_recognised hdf5 Y name_Y Hdistinct HY) in Heq.
    assert ((X, name_X) = (Y, name_Y)) as E
      by (apply (NoDup_map_injective snd major_exceptions _ _ Hclasses HX HY);
          exact Heq).
    now injection E as -> _.
Qed.

(** * The further properties on sample inputs *)

Lemma string_raisers_raise_witness :
  raiser_message (NullArgument "H5Dread") = Some "H5Dread"
  /\ can_raise jvm_ok
       (string_exception "java/lang/NullPointerException" (Some "H5Dread"))
     = true
  /\ thrown (snd (h5nullArgument jvm_ok "H5Dread" state0))
     = Some (string_exception "java/lang/NullPointerException"
               (Some "H5Dread")).
Proof.
  split; [reflexivity |]. split; [reflexivity |].
  exact (proj1 (proj2 (string_raisers_raise hdf5_sample jvm_ok
                         (NullArgument "H5Dread") "H5Dread" state0
                         eq_refl eq_refl))).
Defined.

Lemma string_raisers_raise_without_message_witness :
  raiser_message (BadArgument "H5Dread") = Some "H5Dread"
  /\ allocs_string jvm_without_strings "H5Dread" = false
  /\ can_raise jvm_without_strings
       (string_exception "java/lang/IllegalArgumentException" None) = true
  /\ thrown (snd (h5badArgument jvm_without_strings "H5Dread" state0))
     = Some (string_exception "java/lang/IllegalArgumentException" None).
Proof.
  split; [reflexivity |]. split; [reflexivity |]. split; [reflexivity |].
  exact (proj1 (proj2 (string_raisers_raise_without_message hdf5_sample
                         jvm_without_strings (BadArgument "H5Dread")
                         "H5Dread" state0 eq_refl eq_refl eq_refl))).
Defined.

Lemma h5raiseException_generalises_witness :
  raiser_message (Unimplemented "H5Dread") = Some "H5Dread"
  /\ fst (h5raiseException jvm_ok "java/lang/UnsupportedOperationException"
            "H5Dread" state0)
     = fst (h5unimplemented jvm_ok "H5Dread" state0).
Proof.
  split; [reflexivity |].
  exact (proj1 (h5raiseException_generalises hdf5_sample jvm_ok
                  (Unimplemented "H5Dread") "H5Dread" state0 eq_refl)).
Defined.

Lemma h5libraryError_raises_slot0_witness :
  err_stack (state_with sample_stack (mkNum 0 0))
    = mkError 4 7 :: [mkError 10 8; mkError 1 9]
  /\ major_mesg (state_with sample_stack (mkNum 0 0)) 4
     = Some "File interface"
  /\ minor_mesg (state_with sample_stack (mkNum 0 0)) 7
     = Some "Unable to open file"
  /\ can_raise jvm_ok
       (library_exception hdf5_sample 4 "File interface" 7
          "Unable to open file") = true
  /\ thrown (snd (h5libraryError hdf5_sample jvm_ok
                    (state_with sample_stack (mkNum 0 0))))
     = Some (library_exception hdf5_sample 4 "File interface" 7
               "Unable to open file").
Proof.
  do 4 (split; [reflexivity |]).
  exact (proj1 (proj2 (h5libraryError_raises_slot0 hdf5_sample jvm_ok
                         (state_with sample_stack (mkNum 0 0))
                         (mkError 4 7) [mkError 10 8; mkError 1 9]
                         "File interface" "Unable to open file"
                         eq_refl eq_refl eq_refl eq_refl))).
Defined.

Lemma h5libraryError_without_message_witness :
  loads_class jvm_ok
    (defineHDF5LibraryException hdf5_sample
       (fst (getMajorErrorNumber state_without_messages))) = true
  /\ fst (NewStringUTF jvm_ok
            (major_mesg state_without_messages
               (fst (getMajorErrorNumber state_without_messages)))
            state_without_messages) = None
  /\ fst (h5libraryError hdf5_sample jvm_ok state_without_messages)
     = JNI_FALSE
  /\ stderr_out (snd (h5libraryError hdf5_sample jvm_ok
                        state_without_messages))
     = [Text out_of_memory_text].
Proof.
  split; [reflexivity |]. split; [reflexivity |].
  destruct (h5libraryError_without_message hdf5_sample jvm_ok
              state_without_messages eq_refl eq_refl
              (or_introl eq_refl)) as [Hres [_ [Herr _]]].
  split; [exact Hres | exact Herr].
Defined.

Lemma printStackTrace0_unopened_file_witness :
  can_open state_without_files (utf (mkString "hdf5.log")) = false
  /\ stderr_out
       (snd
          (Java_ncsa_hdf_hdf5lib_exceptions_HDF5LibraryException_printStackTrace0
             jvm_ok (Some (mkString "hdf5.log")) state_without_files))
     = [ErrorStack sample_stack].
Proof.
  split; [reflexivity |].
  destruct (printStackTrace0_unopened_file jvm_ok (mkString "hdf5.log")
              state_without_files (or_intror eq_refl))
    as [_ [_ [_ [Herr _]]]].
  exact Herr.
Defined.

Lemma printStackTrace0_twice_witness :
  pins_chars jvm_ok (mkString "hdf5.log") = true
  /\ can_open (state_with sample_stack (mkNum 0 0))
       (utf (mkString "hdf5.log")) = true
  /\ disk
       (snd
          (Java_ncsa_hdf_hdf5lib_exceptions_HDF5LibraryException_printStackTrace0
             jvm_ok (Some (mkString "hdf5.log"))
             (snd
                (Java_ncsa_hdf_hdf5lib_exceptions_HDF5LibraryException_printStackTrace0
                   jvm_ok (Some (mkString "hdf5.log"))
                   (state_with sample_stack (mkNum 0 0))))))
       "hdf5.log"
     = [ErrorStack sample_stack; ErrorStack sample_stack].
Proof.
  split; [reflexivity |]. split; [reflexivity |].
  exact (proj1 (printStackTrace0_twice jvm_ok (mkString "hdf5.log")
                  (state_with sample_stack (mkNum 0 0)) eq_refl eq_refl)).
Defined.

Lemma out_of_range_identifier_raises_witness :
  (-1 < lowest_label \/ highest_label < -1)
  /\ ~ known (-1)
  /\ outcome (Java_ncsa_hdf_hdf5lib_H5_J2C hdf5_sample jvm_ok (-1) state0)
     = Raised illegal_constant_exception.
Proof.
  assert (-1 < lowest_label \/ highest_label < -1) as Hout
    by (left; reflexivity).
  split; [exact Hout |].
  destruct (out_of_range_identifier_raises hdf5_sample jvm_ok (-1) state0
              Hout) as [Hunknown Hraise].
  split; [exact Hunknown | exact (Hraise eq_refl)].
Defined.

Lemma header_definitions_distinct_witness :
  In ("JH5D_CHUNKED", JH5D_CHUNKED) h5Constants_h
  /\ In ("JH5D_COMPACT", JH5D_COMPACT) h5Constants_h
  /\ "JH5D_CHUNKED" <> "JH5D_COMPACT".
Proof.
  assert (In ("JH5D_CHUNKED", JH5D_CHUNKED) h5Constants_h) as H1
    by (cbn; do 10 right; left; reflexivity).
  assert (In ("JH5D_COMPACT", JH5D_COMPACT) h5Constants_h) as H2
    by (cbn; do 11 right; left; reflexivity).
  split; [exact H1 |]. split; [exact H2 |].
  intros Hname.
  pose proof (proj1 (header_definitions_distinct _ _ _ _ H1 H2) Hname) as E.
  discriminate E.
Defined.

Lemma cases_pair_names_witness :
  In ("JH5D_CHUNKED", JH5D_CHUNKED) h5Constants_h
  /\ In (JH5D_CHUNKED, return_ H5D_CHUNKED) J2C_cases
  /\ "JH5D_CHUNKED" = ("J" ++ H5sym_name H5D_CHUNKED)%string.
Proof.
  assert (In ("JH5D_CHUNKED", JH5D_CHUNKED) h5Constants_h) as H1
    by (cbn; do 10 right; left; reflexivity).
  assert (In (JH5D_CHUNKED, return_ H5D_CHUNKED) J2C_cases) as H2
    by (apply switch_Some_In; vm_compute; reflexivity).
  split; [exact H1 |]. split; [exact H2 |].
  exact (cases_pair_names _ _ _ H1 H2).
Defined.

Lemma cases_pair_symbols_witness :
  In (JH5F_UNLIMITED, return_int H5F_UNLIMITED) J2C_cases
  /\ In (JH5S_UNLIMITED, return_int H5S_UNLIMITED) J2C_cases
  /\ H5F_UNLIMITED <> H5S_UNLIMITED.
Proof.
  assert (In (JH5F_UNLIMITED, return_int H5F_UNLIMITED) J2C_cases) as H1
    by (apply switch_Some_In; vm_compute; reflexivity).
  assert (In (JH5S_UNLIMITED, return_int H5S_UNLIMITED) J2C_cases) as H2
    by (apply switch_Some_In; vm_compute; reflexivity).
  split; [exact H1 |]. split; [exact H2 |].
  intros Hsym.
  pose proof (proj2 (cases_pair_symbols _ _ _ _ H1 H2) Hsym) as E.
  discriminate E.
Defined.

Lemma translated_category_is_classified_witness :
  In (H5E_FILE, "ncsa/hdf/hdf5lib/exceptions/HDF5FileInterfaceException")
     major_exceptions
  /\ NoDup (major_codes hdf5_sample)
  /\ in_jint (hdf5_sample H5E_FILE)
  /\ exists java_constant,
      defineHDF5LibraryException hdf5_sample
        (fst (Java_ncsa_hdf_hdf5lib_H5_J2C hdf5_sample jvm_ok java_constant
                state0))
      = "ncsa/hdf/hdf5lib/exceptions/HDF5FileInterfaceException".
Proof.
  assert (In (H5E_FILE,
              "ncsa/hdf/hdf5lib/exceptions/HDF5FileInterfaceException")
             major_exceptions) as Hin
    by (cbn; do 3 right; left; reflexivity).
  assert (NoDup (major_codes hdf5_sample)) as Hdistinct
    by (apply distinct_NoDup; vm_compute; reflexivity).
  assert (in_jint (hdf5_sample H5E_FILE)) as Hrange
    by (unfold in_jint; cbn; lia).
  split; [exact Hin |]. split; [exact Hdistinct |]. split; [exact Hrange |].
  destruct (translated_category_is_classified hdf5_sample jvm_ok state0
              H5E_FILE _ Hin Hdistinct Hrange) as [k [_ Hk]].
  exists k. exact Hk.
Defined.

Lemma stack_survives_raising_witness :
  err_stack (state_with sample_stack (mkNum 0 0))
    = mkError 4 7 :: [mkError 10 8; mkError 1 9]
  /\ fst (getMajorErrorNumber
            (with_indeterminate (mkNum 77 88)
               (snd (run_raiser hdf5_sample jvm_ok LibraryError
                       (state_with sample_stack (mkNum 0 0))))))
     = 4.
Proof.
  split; [reflexivity |].
  destruct (stack_survives_raising hdf5_sample jvm_ok LibraryError
              (state_with sample_stack (mkNum 0 0))) as [_ Hnumbers].
  destruct (Hnumbers (mkError 4 7) [mkError 10 8; mkError 1 9] eq_refl
              (mkNum 0 0) (mkNum 77 88)) as [_ [Hafter _]].
  exact Hafter.
Defined.
